(** * Sukoon Saarthi: the conversation session engine

    A shallow embedding of the session service
    ([src/services/sessionService.js]), of the message catalogue
    ([src/utils/messageBuilder.js]) and of the two dialogue handlers of
    the webhook controller ([handleRegistrationFlow] and
    [handleUserCommands]), followed by the properties the specification
    states about them.  The entry point [handleIncomingMessage] and its
    route, the Twilio senders, the token and webhook middleware and the
    error handler are embedded as well, with properties read off the
    code.

    Modelling decisions, all taken from the JavaScript source:

    - Session objects are mutable and shared: the object returned by
      [getOrCreateSession] is the very object held by [sessionStore], and
      the handlers assign to its fields before calling [updateSession].
      The model therefore keeps a heap of session objects ([objects]) and
      lets [sessionStore] map a phone number to a reference.
    - [sessionStore] and [session.data] are JS objects used as
      dictionaries; they are finite maps keyed by strings, holding the
      own properties.  A plain object also shows the members of
      [Object.prototype] under their names ([inherited]): under such a
      key, and no other, a lookup in the code can find what the map does
      not hold.  Where a statement needs the lookup of a key chosen by
      the caller to find what the map holds, it assumes a key that is
      not [inherited].
    - Every [moment()] call reads the wall clock and every [uuidv4()] call
      draws an identifier; both are oracles carried by the world, so two
      readings inside one call may differ.  Time is in milliseconds
      ([toISOString] and [moment(iso)] round-trip at that precision).
    - A [throw] is an outcome next to a normal return; the world reached
      at the point of the throw is kept, since earlier assignments stay.
    - The [async] functions are run to completion one after another
      (the design's single owner per phone number); logging is dropped.
    - What lies outside the process ([client.messages.create],
      [jwt.verify], [twilio.validateRequest], the user store and the
      environment variables) is a parameter of the functions that use it.
    - Text is a byte string holding UTF-8.  [trim] removes every ECMAScript
      white space and line terminator; [toLowerCase] folds the ASCII
      letters, which is all that can produce the ASCII command words. *)

From Stdlib Require Import ZArith Ascii String List Lia.
From stdpp Require Import gmap strings list fin_maps.

Open Scope string_scope.
Open Scope Z_scope.

(* ================================================================== *)
(** * JavaScript strings *)
(* ================================================================== *)

Module JsString.

Definition LF : string := String "010"%char EmptyString.

Definition bytes (l : list nat) : string :=
  fold_right (fun n s => String (ascii_of_nat n) s) EmptyString l.

(** WhiteSpace and LineTerminator code points of ECMAScript, as UTF-8:
    U+0009..U+000D, U+0020, U+00A0, U+1680, U+2000..U+200A, U+2028,
    U+2029, U+202F, U+205F, U+3000, U+FEFF. *)
Definition whiteSpace : list string :=
  map bytes
    [ [9]; [10]; [11]; [12]; [13]; [32]; [194; 160]; [225; 154; 128];
      [226; 128; 128]; [226; 128; 129]; [226; 128; 130]; [226; 128; 131];
      [226; 128; 132]; [226; 128; 133]; [226; 128; 134]; [226; 128; 135];
      [226; 128; 136]; [226; 128; 137]; [226; 128; 138]; [226; 128; 168];
      [226; 128; 169]; [226; 128; 175]; [226; 129; 159]; [227; 128; 128];
      [239; 187; 191] ]%nat.

(** [dropPrefix p s] is the rest of [s] after [p] when [s] starts with [p]. *)
Fixpoint dropPrefix (p s : string) : option string :=
  match p, s with
  | EmptyString, _ => Some s
  | String a p', String b s' =>
      if Ascii.eqb a b then dropPrefix p' s' else None
  | String _ _, EmptyString => None
  end.

Fixpoint dropAny (ws : list string) (s : string) : option string :=
  match ws with
  | [] => None
  | w :: ws' =>
      match dropPrefix w s with
      | Some rest => Some rest
      | None => dropAny ws' s
      end
  end.

Fixpoint trimWith (ws : list string) (fuel : nat) (s : string) : string :=
  match fuel with
  | O => s
  | S fuel' =>
      match dropAny ws s with
      | Some rest => trimWith ws fuel' rest
      | None => s
      end
  end.

Definition trimStart (s : string) : string :=
  trimWith whiteSpace (String.length s) s.

Definition trimEnd (s : string) : string :=
  String.rev
    (trimWith (map String.rev whiteSpace) (String.length s) (String.rev s)).

(** [String.prototype.trim] *)
Definition trim (s : string) : string := trimEnd (trimStart s).

Definition lowerAscii (c : ascii) : ascii :=
  let n := nat_of_ascii c in
  if ((65 <=? n) && (n <=? 90))%nat then ascii_of_nat (n + 32) else c.

(** [String.prototype.toLowerCase] *)
Fixpoint toLowerCase (s : string) : string :=
  match s with
  | EmptyString => EmptyString
  | String c s' => String (lowerAscii c) (toLowerCase s')
  end.

(** [String.prototype.startsWith]: [startsWith s p] is [s.startsWith(p)]. *)
Definition startsWith (s p : string) : bool :=
  match dropPrefix p s with Some _ => true | None => false end.

(** Truthiness of a string: only the empty string is falsy. *)
Definition nonEmpty (s : string) : bool :=
  match s with EmptyString => false | String _ _ => true end.

End JsString.

(* ================================================================== *)
(** * JavaScript values kept in [session.data] *)
(* ================================================================== *)

Inductive JsValue : Type :=
| JsUndefined
| JsNull
| JsBoolean (b : bool)
| JsNumber (n : Z)          (* an integral number; [0] is falsy *)
| JsNaN
| JsText (s : string)
| JsObject (ref : nat).     (* any object or array: always truthy *)

Definition truthy (v : JsValue) : bool :=
  match v with
  | JsUndefined | JsNull | JsNaN => false
  | JsBoolean b => b
  | JsNumber n => negb (n =? 0)
  | JsText s => JsString.nonEmpty s
  | JsObject _ => true
  end.

(** [a || b] *)
Definition orElse (a b : JsValue) : JsValue := if truthy a then a else b.

(** ** Own properties and inherited names

    The two dictionaries of the service, [sessionStore] and
    [session.data], are made by [{}]: their prototype is
    [Object.prototype], whose members they show under the names below.
    For one of these names, [obj[key]] on an object without a property
    of its own under that name is the inherited member (a function, or
    the prototype itself for [__proto__]) and not [undefined], and
    [obj["__proto__"] = v] sets the prototype (or does nothing, for a
    primitive [v]) and adds no property.  For every other key the
    dictionary is the finite map of its own properties, and that map is
    what this development holds. *)
Definition Object_prototype : list string :=
  ["constructor"; "__defineGetter__"; "__defineSetter__"; "hasOwnProperty";
   "__lookupGetter__"; "__lookupSetter__"; "isPrototypeOf";
   "propertyIsEnumerable"; "toString"; "valueOf"; "__proto__";
   "toLocaleString"].

(** [key] names a member of [Object.prototype].  Under such a key the
    service does not do what it does for a phone number or a data key:
    [getOrCreateSession("constructor")] finds the inherited function
    where it looks for a session and returns it as one,
    [clearSession("toString")] returns [true] at every call, a session
    created for [__proto__] becomes the prototype of the store and is
    never listed by [Object.keys], and [session.data["__proto__"]] reads
    back as the prototype after a primitive has been stored under it. *)
Definition inherited (key : string) : bool :=
  existsb (String.eqb key) Object_prototype.

(** Reading an own property that may be absent gives [undefined]:
    [d[key]] for a key that is not [inherited], or that [d] holds. *)
Definition property (d : gmap string JsValue) (key : string) : JsValue :=
  match d !! key with Some v => v | None => JsUndefined end.

(** [s || d] for a string-or-null [s] and a string [d]. *)
Definition textOr (s : option string) (d : string) : string :=
  match s with
  | Some t => if JsString.nonEmpty t then t else d
  | None => d
  end.

(* ================================================================== *)
(** * The message catalogue ([src/utils/messageBuilder.js]) *)
(* ================================================================== *)

Module messageBuilder.
Import JsString.

(** The entries of one language that the two handlers can reach. *)
Record Catalogue : Type := {
  language_selection : string;
  language_selection_error : string;
  age_question : string;
  age_error : string;
  main_menu : string;
  help_menu : string;
  not_implemented : string;
  generic_error : string;
  medication_add_start : string
}.

Definition en : Catalogue := {|
  language_selection :=
    "Please select your preferred language:" +:+ LF +:+ LF +:+
    "1. English" +:+ LF +:+ "2. हिंदी (Hindi)";
  language_selection_error :=
    "I didn't understand that choice. Please select a language:" +:+ LF +:+ LF +:+
    "1. English" +:+ LF +:+ "2. हिंदी (Hindi)";
  age_question := "Great! Now, please tell me your age in years.";
  age_error := "Please enter a valid age between 1 and 120.";
  main_menu :=
    "What would you like to do today?" +:+ LF +:+ LF +:+
    "1. Manage Medications 💊" +:+ LF +:+ "2. Track Health 📈" +:+ LF +:+
    "3. View Reports 📋" +:+ LF +:+ "4. Family Settings 👪" +:+ LF +:+ "5. Help";
  help_menu :=
    "Here's how I can help you:" +:+ LF +:+ LF +:+
    "• Add medication: Type 'add medication'" +:+ LF +:+
    "• Check schedule: Type 'schedule'" +:+ LF +:+
    "• Record health: Type 'health'" +:+ LF +:+
    "• Family access: Type 'family'" +:+ LF +:+
    "• Talk to support: Type 'support'";
  not_implemented := "This feature is coming soon! Thank you for your patience.";
  generic_error :=
    "I'm sorry, I couldn't process that. Please try again or type 'help' for assistance.";
  medication_add_start :=
    "Let's add a new medication. You can either:" +:+ LF +:+ LF +:+
    "1. Take a photo of your prescription" +:+ LF +:+
    "2. Enter medication details manually"
|}.

Definition hi : Catalogue := {|
  language_selection :=
    "कृपया अपनी पसंदीदा भाषा चुनें:" +:+ LF +:+ LF +:+
    "1. English" +:+ LF +:+ "2. हिंदी";
  language_selection_error :=
    "मैं उस विकल्प को नहीं समझा। कृपया एक भाषा चुनें:" +:+ LF +:+ LF +:+
    "1. English" +:+ LF +:+ "2. हिंदी";
  age_question := "बढ़िया! अब, कृपया मुझे अपनी उम्र वर्षों में बताएं।";
  age_error := "कृपया 1 से 120 के बीच एक वैध उम्र दर्ज करें।";
  main_menu :=
    "आज आप क्या करना चाहेंगे?" +:+ LF +:+ LF +:+
    "1. दवाएं प्रबंधित करें 💊" +:+ LF +:+ "2. स्वास्थ्य ट्रैक करें 📈" +:+ LF +:+
    "3. रिपोर्ट देखें 📋" +:+ LF +:+ "4. परिवार सेटिंग्स 👪" +:+ LF +:+ "5. मदद";
  help_menu :=
    "मैं आपकी इस प्रकार मदद कर सकता हूं:" +:+ LF +:+ LF +:+
    "• दवा जोड़ें: 'दवा जोड़ें' टाइप करें" +:+ LF +:+
    "• शेड्यूल जांचें: 'शेड्यूल' टाइप करें" +:+ LF +:+
    "• स्वास्थ्य रिकॉर्ड करें: 'स्वास्थ्य' टाइप करें" +:+ LF +:+
    "• परिवार पहुंच: 'परिवार' टाइप करें" +:+ LF +:+
    "• सहायता से बात करें: 'सहायता' टाइप करें";
  not_implemented := "यह सुविधा जल्द ही आ रही है! आपके धैर्य के लिए धन्यवाद।";
  generic_error :=
    "मुझे खेद है, मैं उसे प्रोसेस नहीं कर सका। कृपया फिर से प्रयास करें या सहायता के लिए 'मदद' टाइप करें।";
  medication_add_start :=
    "चलिए एक नई दवा जोड़ते हैं। आप या तो:" +:+ LF +:+ LF +:+
    "1. अपने नुस्खे की एक फोटो ले सकते हैं" +:+ LF +:+
    "2. दवा विवरण मैन्युअल रूप से दर्ज कर सकते हैं"
|}.

(** [messages[language]]: the table has the keys [en] and [hi] only;
    [null] and [undefined] index nothing. *)
Definition messages (language : option string) : option Catalogue :=
  match language with
  | Some l =>
      if String.eqb l "en" then Some en
      else if String.eqb l "hi" then Some hi
      else None
  | None => None
  end.

(** [messages[language]?.entry || messages.en.entry] *)
Definition localized (entry : Catalogue -> string) (language : option string)
  : string :=
  textOr (entry <$> messages language) (entry en).

Definition buildLanguageSelection (isError : bool) : string :=
  if isError then language_selection_error en else language_selection en.

Definition buildAgeQuestion := localized age_question.
Definition buildMainMenu := localized main_menu.
Definition buildHelpMenu := localized help_menu.
Definition buildGenericError := localized generic_error.
Definition buildNotImplementedYet := localized not_implemented.
Definition buildMedicationAddStart := localized medication_add_start.

End messageBuilder.

(* ================================================================== *)
(** * Sessions, the world and the effect monad *)
(* ================================================================== *)

(** A session object.  [phoneNumber], [data] and [language] may be
    [null]/[undefined] in an object handed to the service, hence the
    options; the three timestamps are milliseconds since the epoch. *)
Record Session : Type := {
  id : string;
  phoneNumber : option string;
  currentState : string;
  data : option (gmap string JsValue);
  registrationInProgress : bool;
  language : option string;
  createdAt : Z;
  updatedAt : Z;
  expiresAt : Z
}.

Definition set_currentState (v : string) (s : Session) : Session :=
  {| id := id s; phoneNumber := phoneNumber s; currentState := v;
     data := data s; registrationInProgress := registrationInProgress s;
     language := language s; createdAt := createdAt s;
     updatedAt := updatedAt s; expiresAt := expiresAt s |}.

Definition set_data (v : option (gmap string JsValue)) (s : Session) : Session :=
  {| id := id s; phoneNumber := phoneNumber s; currentState := currentState s;
     data := v; registrationInProgress := registrationInProgress s;
     language := language s; createdAt := createdAt s;
     updatedAt := updatedAt s; expiresAt := expiresAt s |}.

Definition set_language (v : option string) (s : Session) : Session :=
  {| id := id s; phoneNumber := phoneNumber s; currentState := currentState s;
     data := data s; registrationInProgress := registrationInProgress s;
     language := v; createdAt := createdAt s;
     updatedAt := updatedAt s; expiresAt := expiresAt s |}.

Definition set_updatedAt (v : Z) (s : Session) : Session :=
  {| id := id s; phoneNumber := phoneNumber s; currentState := currentState s;
     data := data s; registrationInProgress := registrationInProgress s;
     language := language s; createdAt := createdAt s;
     updatedAt := v; expiresAt := expiresAt s |}.

Definition set_expiresAt (v : Z) (s : Session) : Session :=
  {| id := id s; phoneNumber := phoneNumber s; currentState := currentState s;
     data := data s; registrationInProgress := registrationInProgress s;
     language := language s; createdAt := createdAt s;
     updatedAt := updatedAt s; expiresAt := v |}.

(** The process state together with the two oracles.  The store is
    held through its own properties: a world stands for a process in
    which [Object.prototype] and the prototype of [sessionStore] are as
    the runtime made them, which is how the service leaves them as long
    as no [inherited] name is used as a key. *)
Record World : Type := {
  objects : gmap nat Session;      (* the heap of session objects *)
  sessionStore : gmap string nat;  (* [const sessionStore = {}] *)
  clock : nat -> Z;                (* the n-th reading of [moment()] *)
  ticks : nat;                     (* readings taken so far *)
  uuids : nat -> string;           (* the n-th result of [uuidv4()] *)
  drawn : nat                      (* identifiers drawn so far *)
}.

Definition with_objects (o : gmap nat Session) (w : World) : World :=
  {| objects := o; sessionStore := sessionStore w; clock := clock w;
     ticks := ticks w; uuids := uuids w; drawn := drawn w |}.

Definition with_sessionStore (st : gmap string nat) (w : World) : World :=
  {| objects := objects w; sessionStore := st; clock := clock w;
     ticks := ticks w; uuids := uuids w; drawn := drawn w |}.

Inductive JsError : Type :=
| Error (message : string)
| TypeError (message : string).

Inductive Outcome (A : Type) : Type :=
| Returned (a : A)
| Thrown (e : JsError).
Arguments Returned {A} a.
Arguments Thrown {A} e.

Definition Js (A : Type) : Type := World -> Outcome A * World.

Definition ret {A} (a : A) : Js A := fun w => (Returned a, w).

Definition throw {A} (e : JsError) : Js A := fun w => (Thrown e, w).

Definition bind {A B} (m : Js A) (k : A -> Js B) : Js B :=
  fun w =>
    match m w with
    | (Returned a, w') => k a w'
    | (Thrown e, w') => (Thrown e, w')
    end.

Declare Scope js_scope.
Delimit Scope js_scope with js.
Notation "'let!' x := m 'in' k" := (bind m (fun x => k))
  (at level 10, x name, m at level 100, k at level 200) : js_scope.
Notation "'do!' m 'in' k" := (bind m (fun _ => k))
  (at level 10, m at level 100, k at level 200) : js_scope.
Open Scope js_scope.

(** [moment()]: the next reading of the clock. *)
Definition moment : Js Z :=
  fun w =>
    (Returned (clock w (ticks w)),
     {| objects := objects w; sessionStore := sessionStore w; clock := clock w;
        ticks := S (ticks w); uuids := uuids w; drawn := drawn w |}).

(** [uuidv4()] *)
Definition uuidv4 : Js string :=
  fun w =>
    (Returned (uuids w (drawn w)),
     {| objects := objects w; sessionStore := sessionStore w; clock := clock w;
        ticks := ticks w; uuids := uuids w; drawn := S (drawn w) |}).

(** An object literal: a new object at an unused reference. *)
Definition newObject (s : Session) : Js nat :=
  fun w =>
    let r := fresh (dom (objects w)) in
    (Returned r, with_objects (<[r := s]> (objects w)) w).

(** Reading the fields of [session].  References handed out by
    [newObject] never dangle; a reference to nothing reads like a
    property access on [undefined]. *)
Definition deref (session : nat) : Js Session :=
  fun w =>
    match objects w !! session with
    | Some s => (Returned s, w)
    | None => (Thrown (TypeError "Cannot read properties of undefined"), w)
    end.

(** [session.field = v] *)
Definition assign (session : nat) (f : Session -> Session) : Js unit :=
  fun w =>
    match objects w !! session with
    | Some s => (Returned tt, with_objects (<[session := f s]> (objects w)) w)
    | None => (Thrown (TypeError "Cannot set properties of undefined"), w)
    end.

(** [sessionStore[phoneNumber]], as the store's own properties give it:
    the entry, or [undefined] when there is none.  That is the code's
    lookup for every key with an entry of its own and for every key
    without one that is not [inherited]. *)
Definition storeGet (phone : string) : Js (option nat) :=
  fun w => (Returned (sessionStore w !! phone), w).

(** [sessionStore[phoneNumber] = session]: the own property is added or
    overwritten, for every key but [__proto__] (where the code's
    assignment replaces the prototype and adds none). *)
Definition storePut (phone : string) (session : nat) : Js unit :=
  fun w => (Returned tt, with_sessionStore (<[phone := session]> (sessionStore w)) w).

(** [delete sessionStore[phoneNumber]] *)
Definition storeDelete (phone : string) : Js unit :=
  fun w => (Returned tt, with_sessionStore (delete phone (sessionStore w)) w).

(** [Object.keys(sessionStore)]: the own keys. *)
Definition storeKeys : Js (list string) :=
  fun w => (Returned ((map_to_list (sessionStore w)).*1), w).

(** [list.forEach(body)] *)
Fixpoint forEach {A} (l : list A) (body : A -> Js unit) : Js unit :=
  match l with
  | [] => ret tt
  | x :: l' => do! body x in forEach l' body
  end.

(* ================================================================== *)
(** * The session service ([src/services/sessionService.js]) *)
(* ================================================================== *)

Module sessionService.
Section Config.

(** [process.env.SESSION_TIMEOUT_MINUTES]: unset (or empty), or a number. *)
Variable SESSION_TIMEOUT_MINUTES : option Z.

(** [const SESSION_TIMEOUT = process.env.SESSION_TIMEOUT_MINUTES || 30] *)
Definition SESSION_TIMEOUT : Z :=
  match SESSION_TIMEOUT_MINUTES with Some m => m | None => 30 end.

(** [t.add(n, 'minutes')], in milliseconds *)
Definition addMinutes (n t : Z) : Z := t + n * 60000.

(** [a.isAfter(b)] *)
Definition isAfter (a b : Z) : bool := b <? a.

Definition createSession (phoneNumber : string) : Js nat :=
  let! sessionId := uuidv4 in
  let! created := moment in
  let! updated := moment in
  let! expires := moment in
  let! session := newObject
    {| id := sessionId;
       phoneNumber := Some phoneNumber;
       currentState := "START";
       data := Some ∅;
       registrationInProgress := false;
       language := None;
       createdAt := created;
       updatedAt := updated;
       expiresAt := addMinutes SESSION_TIMEOUT expires |} in
  do! storePut phoneNumber session in
  ret session.

Definition getOrCreateSession (phoneNumber : string) : Js nat :=
  let! found := storeGet phoneNumber in
  match found with
  | Some session =>
      let! now := moment in
      let! s := deref session in
      if isAfter now (expiresAt s) then
        createSession phoneNumber
      else
        let! expires := moment in
        do! assign session (set_expiresAt (addMinutes SESSION_TIMEOUT expires)) in
        let! updated := moment in
        do! assign session (set_updatedAt updated) in
        do! storePut phoneNumber session in
        ret session
  | None => createSession phoneNumber
  end.

(** [!session.phoneNumber] *)
Definition noPhoneNumber (s : Session) : bool :=
  match phoneNumber s with
  | Some p => negb (JsString.nonEmpty p)
  | None => true
  end.

(** The argument is [None] for a [null] or [undefined] session. *)
Definition updateSession (session : option nat) : Js nat :=
  match session with
  | None => throw (Error "Invalid session object")
  | Some r =>
      let! s := deref r in
      match phoneNumber s with
      | Some p =>
          if JsString.nonEmpty p then
            let! updated := moment in
            do! assign r (set_updatedAt updated) in
            let! expires := moment in
            do! assign r (set_expiresAt (addMinutes SESSION_TIMEOUT expires)) in
            do! storePut p r in
            ret r
          else throw (Error "Invalid session object")
      | None => throw (Error "Invalid session object")
      end
  end.

Definition clearSession (phoneNumber : string) : Js bool :=
  let! found := storeGet phoneNumber in
  match found with
  | Some _ => do! storeDelete phoneNumber in ret true
  | None => ret false
  end.

(** [session.data[key] = value] adds or overwrites the own property
    [key], as the code does for every key but [__proto__] (an
    assignment to which stores nothing). *)
Definition setSessionData (phoneNumber key : string) (value : JsValue)
  : Js nat :=
  let! session := getOrCreateSession phoneNumber in
  let! s := deref session in
  do! (match data s with
       | Some _ => ret tt
       | None => assign session (set_data (Some ∅))
       end) in
  do! assign session
        (fun s' => set_data (Some (<[key := value]> (default ∅ (data s')))) s') in
  updateSession (Some session).

(** [session.data[key] || null], with [session.data[key]] read from the
    own properties ([property]). *)
Definition getSessionData (phoneNumber key : string) : Js JsValue :=
  let! session := getOrCreateSession phoneNumber in
  let! s := deref session in
  match data s with
  | None => ret JsNull
  | Some d => ret (orElse (property d key) JsNull)
  end.

Definition setSessionState (phoneNumber state : string) : Js nat :=
  let! session := getOrCreateSession phoneNumber in
  do! assign session (set_currentState state) in
  updateSession (Some session).

Definition getSessionState (phoneNumber : string) : Js string :=
  let! session := getOrCreateSession phoneNumber in
  let! s := deref session in
  ret (currentState s).

(** The body of the [forEach] callback of [cleanupExpiredSessions],
    with the captured counter threaded through. *)
Fixpoint sweep (now : Z) (keys : list string) (count : nat) : Js nat :=
  match keys with
  | [] => ret count
  | phoneNumber :: rest =>
      let! found := storeGet phoneNumber in
      match found with
      | Some session =>
          let! s := deref session in
          if isAfter now (expiresAt s) then
            do! storeDelete phoneNumber in
            sweep now rest (S count)
          else sweep now rest count
      | None => throw (TypeError "Cannot read properties of undefined")
      end
  end.

Definition cleanupExpiredSessions : Js nat :=
  let! now := moment in
  let! keys := storeKeys in
  sweep now keys 0%nat.

End Config.
End sessionService.

(* ================================================================== *)
(** * Domain users (the part of the user model the handlers read) *)
(* ================================================================== *)

Module userModel.
Record User : Type := {
  id : string;
  phoneNumber : string;
  name : string;
  language : option string
}.
End userModel.

(* ================================================================== *)
(** * The dialogue handlers of the webhook controller *)
(* ================================================================== *)

Module webhookController.
Section Config.
Import JsString messageBuilder.

Variable SESSION_TIMEOUT_MINUTES : option Z.

Abbreviation updateSession :=
  (sessionService.updateSession SESSION_TIMEOUT_MINUTES).

Definition handleRegistrationFlow
    (session : nat) (message profileName : string) : Js string :=
  let! s := deref session in
  if String.eqb (currentState s) "REGISTRATION_START" then
    do! assign session (set_currentState "REGISTRATION_LANGUAGE") in
    do! updateSession (Some session) in
    ret (buildLanguageSelection false)
  else if String.eqb (currentState s) "REGISTRATION_LANGUAGE" then
    let languageChoice := toLowerCase (trim message) in
    let proceed : Js string :=
      do! assign session (set_currentState "REGISTRATION_AGE") in
      do! updateSession (Some session) in
      let! s' := deref session in
      ret (buildAgeQuestion (language s')) in
    if String.eqb languageChoice "1" || String.eqb languageChoice "english" then
      do! assign session (set_language (Some "en")) in
      proceed
    else if String.eqb languageChoice "2" || String.eqb languageChoice "hindi" then
      do! assign session (set_language (Some "hi")) in
      proceed
    else
      ret (buildLanguageSelection true)
  else
    ret (buildGenericError (Some (textOr (language s) "en"))).

Definition handleUserCommands
    (user : userModel.User) (session : nat) (message phoneNumber : string)
  : Js string :=
  let userLanguage := Some (textOr (userModel.language user) "en") in
  if startsWith message "for:" then
    ret (buildNotImplementedYet userLanguage)
  else
    let command := toLowerCase (trim message) in
    if String.eqb command "help" then
      ret (buildHelpMenu userLanguage)
    else if String.eqb command "add medication"
            || String.eqb command "med"
            || String.eqb command "1" then
      do! assign session (set_currentState "MEDICATION_ADD_START") in
      do! updateSession (Some session) in
      ret (buildMedicationAddStart userLanguage)
    else
      ret (buildMainMenu userLanguage).

End Config.
End webhookController.

(* ================================================================== *)
(** * Vocabulary of the properties *)
(* ================================================================== *)

(** Every reference held by [sessionStore] points to an object: true of
    the empty store and kept by every operation of the service. *)
Definition wellFormed (w : World) : Prop :=
  forall phone r, sessionStore w !! phone = Some r -> is_Some (objects w !! r).

(** The session behind reference [r] has [expiresAt] before [now]. *)
Definition expiredAt (w : World) (now : Z) (r : nat) : bool :=
  match objects w !! r with
  | Some s => sessionService.isAfter now (expiresAt s)
  | None => false
  end.

(** A store entry whose session is expired at [now]. *)
Definition expiredEntry (w : World) (now : Z) (entry : string * nat) : Prop :=
  expiredAt w now entry.2 = true.

#[global] Instance expiredEntry_dec w now entry :
  Decision (expiredEntry w now entry).
Proof. unfold expiredEntry. apply _. Defined.

(** Every stored session got its [expiresAt] from one of the first [n]
    clock readings. *)
Definition writtenBefore (tmo : option Z) (w : World) (n : nat) : Prop :=
  forall phone r s,
    sessionStore w !! phone = Some r -> objects w !! r = Some s ->
    exists i, (i < n)%nat /\
      expiresAt s =
        sessionService.addMinutes (sessionService.SESSION_TIMEOUT tmo)
          (clock w i).

(** The world left by a computation, and its outcome. *)
Definition after {A} (m : Js A) (w : World) : World := snd (m w).
Definition outcome {A} (m : Js A) (w : World) : Outcome A := fst (m w).

(** The same handler run once per message of [messages], in order. *)
Fixpoint replay (handler : string -> Js string) (messages : list string)
  : Js (list string) :=
  match messages with
  | [] => ret []
  | m :: rest =>
      let! reply := handler m in
      let! replies := replay handler rest in
      ret (reply :: replies)
  end.

(** [createSession] for each phone number of a list, in order. *)
Fixpoint createAll (tmo : option Z) (phones : list string) : Js unit :=
  match phones with
  | [] => ret tt
  | p :: rest =>
      do! sessionService.createSession tmo p in
      createAll tmo rest
  end.

(** ** Sample worlds *)

(** A process that has just started: nothing stored, a clock that
    advances by a second per reading. *)
Definition startWorld : World :=
  {| objects := ∅; sessionStore := ∅;
     clock := fun n => 1700000000000 + Z.of_nat n * 1000; ticks := 0;
     uuids := fun _ => "0b9f6c1e-7f0a-4c55-9a53-2d0f5a1c7e11"; drawn := 0 |}.

(** The same with a clock that stays within one millisecond. *)
Definition frozenWorld : World :=
  {| objects := ∅; sessionStore := ∅;
     clock := fun _ => 1700000000000; ticks := 0;
     uuids := fun _ => "0b9f6c1e-7f0a-4c55-9a53-2d0f5a1c7e11"; drawn := 0 |}.

(** A process whose clock ticks every millisecond for the first [k]
    readings and shows two hours later from then on. *)
Definition idleWorld (k : nat) : World :=
  {| objects := ∅; sessionStore := ∅;
     clock := fun n =>
       if (n <? k)%nat then 1700000000000 + Z.of_nat n
       else 1700007200000 + Z.of_nat n;
     ticks := 0;
     uuids := fun _ => "0b9f6c1e-7f0a-4c55-9a53-2d0f5a1c7e11"; drawn := 0 |}.

(** A session object as the service creates it, in a given dialogue state. *)
Definition sampleSession (phone : option string) (state : string)
    (registering : bool) (lang : option string) : Session :=
  {| id := "0b9f6c1e-7f0a-4c55-9a53-2d0f5a1c7e11";
     phoneNumber := phone; currentState := state; data := Some ∅;
     registrationInProgress := registering; language := lang;
     createdAt := 1700000000000; updatedAt := 1700000000000;
     expiresAt := 1700001800000 |}.

(** Sessions at the points of the dialogue the properties look at. *)
Definition choosingLanguage : Session :=
  sampleSession (Some "+919800000001") "REGISTRATION_LANGUAGE" true None.

Definition givingAge : Session :=
  sampleSession (Some "+919800000001") "REGISTRATION_AGE" true (Some "hi").

Definition idle : Session :=
  sampleSession (Some "+919800000001") "IDLE" false (Some "hi").

(** The session of a sender whose number is the empty string. *)
Definition anonymous : Session := sampleSession (Some "") "START" false None.

(** A world whose store holds one session, at reference [0]. *)
Definition worldWith (s : Session) : World :=
  {| objects := {[ 0%nat := s ]};
     sessionStore :=
       match phoneNumber s with Some p => {[ p := 0%nat ]} | None => ∅ end;
     clock := fun n => 1700000000000 + Z.of_nat n * 1000; ticks := 0;
     uuids := fun _ => "0b9f6c1e-7f0a-4c55-9a53-2d0f5a1c7e11"; drawn := 0 |}.

Definition asha : userModel.User :=
  {| userModel.id := "u-1"; userModel.phoneNumber := "+919800000001";
     userModel.name := "Asha"; userModel.language := Some "hi" |}.

(* ================================================================== *)
(** * The store seen by phone number *)
(* ================================================================== *)

(** Every entry of the store points to an object that carries the key
    as its [phoneNumber]: what [createSession] and [updateSession]
    write. *)
Definition consistent (w : World) : Prop :=
  forall phone r,
    sessionStore w !! phone = Some r ->
    exists s, objects w !! r = Some s /\ phoneNumber s = Some phone.

(** [sessionStore[phone]] with its fields, when there is one. *)
Definition sessionOf (w : World) (phone : string) : option Session :=
  match sessionStore w !! phone with
  | Some r => objects w !! r
  | None => None
  end.

(** The phone number carried by the object behind [session], if it
    carries one, names no member of [Object.prototype]: the key that
    [updateSession] saves the session under is a key like any other. *)
Definition plainNumber (w : World) (session : nat) : Prop :=
  forall s p,
    objects w !! session = Some s -> phoneNumber s = Some p ->
    inherited p = false.

(** The fields of a session that only the dialogue handlers write. *)
Definition sameDialogue (s s' : Session) : Prop :=
  id s' = id s /\ phoneNumber s' = phoneNumber s /\
  currentState s' = currentState s /\ data s' = data s /\
  registrationInProgress s' = registrationInProgress s /\
  language s' = language s /\ createdAt s' = createdAt s.

(** A session as [createSession] leaves it. *)
Definition pristine (phone : string) (s : Session) : Prop :=
  phoneNumber s = Some phone /\ currentState s = "START" /\
  data s = Some ∅ /\ registrationInProgress s = false /\ language s = None.

(** A process that has created sessions for two numbers. *)
Definition twoNumbers : World :=
  after (sessionService.createSession None "+919800000002")
    (after (sessionService.createSession None "+919800000001") startWorld).

(** [getOrCreateSession] called [n] times in a row for one number. *)
Fixpoint readAgain (tmo : option Z) (phone : string) (n : nat) : Js unit :=
  match n with
  | O => ret tt
  | S n' =>
      do! sessionService.getOrCreateSession tmo phone in
      readAgain tmo phone n'
  end.

(* ================================================================== *)
(** * Sending through Twilio (the Twilio integration, in
       [src/services/sessionService.js]) *)
(* ================================================================== *)

Module twilioClient.
Import JsString.

(** The argument of [client.messages.create]. *)
Record Message : Type := {
  body : string;
  from : option string;
  to : string;
  mediaUrl : option (list string)
}.

Section Account.

(** [process.env.TWILIO_ACCOUNT_SID], [TWILIO_AUTH_TOKEN] and
    [TWILIO_PHONE_NUMBER] *)
Variable accountSid authToken twilioPhoneNumber : option string.

(** [client.messages.create]: the identifier of the message Twilio
    accepted, or the error it answered with. *)
Variable create : Message -> Outcome string.

(** [client] is set when both credentials are truthy. *)
Definition client : bool :=
  nonEmpty (textOr accountSid "") && nonEmpty (textOr authToken "").

(** [to.startsWith('whatsapp:') ? to : `whatsapp:${to}`] *)
Definition formattedTo (to : string) : string :=
  if startsWith to "whatsapp:" then to else "whatsapp:" +:+ to.

(** The outcome, and the requests made to Twilio on the way. *)
Definition sendWhatsAppMessage (to body : string)
  : Outcome string * list Message :=
  if client then
    let request :=
      {| body := body; from := twilioPhoneNumber; to := formattedTo to;
         mediaUrl := None |} in
    (create request, [request])
  else (Thrown (Error "Twilio client not initialized"), []).

Definition sendWhatsAppMessageWithMedia (to body media : string)
  : Outcome string * list Message :=
  if client then
    let request :=
      {| body := body; from := twilioPhoneNumber; to := formattedTo to;
         mediaUrl := Some [media] |} in
    (create request, [request])
  else (Thrown (Error "Twilio client not initialized"), []).

End Account.
End twilioClient.

(* ================================================================== *)
(** * The entry point of the webhook controller *)
(* ================================================================== *)

Module inbound.
Import JsString.

(** [String.prototype.replace] with a string pattern: the first
    occurrence of [pattern] in [s] becomes [replacement]. *)
Fixpoint replace (s pattern replacement : string) : string :=
  match dropPrefix pattern s with
  | Some rest => replacement +:+ rest
  | None =>
      match s with
      | EmptyString => EmptyString
      | String c s' => String c (replace s' pattern replacement)
      end
  end.

(** [messages.en.registration_welcome(name)] *)
Definition registration_welcome (name : option string) : string :=
  "Hello " +:+ textOr name "there" +:+
  "! Welcome to *Sukoon Saarthi* - your personal health assistant." +:+
  LF +:+ LF +:+ "Let's take a moment to set up your account.".

Definition buildRegistrationWelcome (name : option string) : string :=
  registration_welcome name.

Definition set_registrationInProgress (v : bool) (s : Session) : Session :=
  {| id := id s; phoneNumber := phoneNumber s; currentState := currentState s;
     data := data s; registrationInProgress := v;
     language := language s; createdAt := createdAt s;
     updatedAt := updatedAt s; expiresAt := expiresAt s |}.

(** The fields of [req.body] the handler reads; Twilio posts [From] and
    [Body] with every message. *)
Record Request : Type := {
  From : string;
  Body : string;
  ProfileName : option string
}.

(** [res.status(code).send(text)] *)
Record Response : Type := { status : Z; text : string }.

Section Collaborators.

Variable SESSION_TIMEOUT_MINUTES : option Z.

(** [userService.findUserByPhone]: the user, [null], or a failure of
    the store behind it. *)
Variable findUserByPhone : string -> Outcome (option userModel.User).

(** [twilioClient.sendWhatsAppMessage] *)
Variable sendWhatsAppMessage :
  string -> string -> Outcome string * list twilioClient.Message.

Definition phoneNumberOf (req : Request) : string :=
  replace (From req) "whatsapp:" "".

(** The body of the [try] block up to the reply to send. *)
Definition respond (req : Request) : Js string :=
  let phoneNumber := phoneNumberOf req in
  let! session :=
    sessionService.getOrCreateSession SESSION_TIMEOUT_MINUTES phoneNumber in
  let! user := (fun w => (findUserByPhone phoneNumber, w)) in
  let! s := deref session in
  match user with
  | None =>
      if registrationInProgress s then
        webhookController.handleRegistrationFlow SESSION_TIMEOUT_MINUTES
          session (Body req) (textOr (ProfileName req) "")
      else
        let response := buildRegistrationWelcome (ProfileName req) in
        do! assign session (set_currentState "REGISTRATION_START") in
        do! assign session (set_registrationInProgress true) in
        do! sessionService.updateSession SESSION_TIMEOUT_MINUTES
              (Some session) in
        ret response
  | Some u =>
      if registrationInProgress s then
        webhookController.handleRegistrationFlow SESSION_TIMEOUT_MINUTES
          session (Body req) (textOr (ProfileName req) "")
      else
        webhookController.handleUserCommands SESSION_TIMEOUT_MINUTES
          u session (Body req) phoneNumber
  end.

(** [handleIncomingMessage]: the HTTP response, the requests made to
    Twilio, and the world left behind. *)
Definition handleIncomingMessage (req : Request) (w : World)
  : Response * list twilioClient.Message * World :=
  match respond req w with
  | (Returned response, w') =>
      match sendWhatsAppMessage (phoneNumberOf req) response with
      | (Returned _, requests) =>
          ({| status := 200; text := "OK" |}, requests, w')
      | (Thrown _, requests) =>
          ({| status := 500; text := "Error processing message" |},
           requests, w')
      end
  | (Thrown _, w') =>
      ({| status := 500; text := "Error processing message" |}, [], w')
  end.

End Collaborators.
End inbound.

(* ================================================================== *)
(** * API errors (the error handler utility, in [unnamed/part_003]) *)
(* ================================================================== *)

Module errorHandler.

(** An error object as the handler reads it.  [statusCode] and
    [details] are absent on errors that are not [APIError]s. *)
Record Err : Type := {
  name : string;
  message : string;
  statusCode : option Z;
  details : option (gmap string JsValue);
  stack : option string
}.

Section Stack.

(** What [Error.captureStackTrace] records at the point of creation. *)
Variable capturedStack : string.

(** [new APIError(message, statusCode = 500, details = {})] *)
Definition APIError (message : string) (statusCode : option Z)
    (details : option (gmap string JsValue)) : Err :=
  {| name := "APIError";
     message := message;
     statusCode := Some (default 500 statusCode);
     details := Some (default ∅ details);
     stack := Some capturedStack |}.

Definition createError (message : string) (statusCode : option Z)
    (details : option (gmap string JsValue)) : Err :=
  APIError message (Some (default 500 statusCode)) (Some (default ∅ details)).

Definition badRequest (message : string)
    (details : option (gmap string JsValue)) : Err :=
  createError message (Some 400) (Some (default ∅ details)).

(** The four creators with a default message take [None] for an
    omitted argument. *)
Definition unauthorized (message : option string)
    (details : option (gmap string JsValue)) : Err :=
  createError (default "Unauthorized" message) (Some 401)
    (Some (default ∅ details)).

Definition forbidden (message : option string)
    (details : option (gmap string JsValue)) : Err :=
  createError (default "Forbidden" message) (Some 403)
    (Some (default ∅ details)).

Definition notFound (message : option string)
    (details : option (gmap string JsValue)) : Err :=
  createError (default "Resource not found" message) (Some 404)
    (Some (default ∅ details)).

Definition internalError (message : option string)
    (details : option (gmap string JsValue)) : Err :=
  createError (default "Internal Server Error" message) (Some 500)
    (Some (default ∅ details)).

End Stack.

Inductive Level : Type := error | warn.

(** The [error] member of the JSON body. *)
Record ErrorBody : Type := {
  bodyStatus : Z;
  bodyMessage : string;
  bodyDetails : option (gmap string JsValue);
  bodyStack : option string
}.

(** [err.statusCode || 500] *)
Definition statusOf (err : Err) : Z :=
  match statusCode err with
  | Some c => if c =? 0 then 500 else c
  | None => 500
  end.

(** [errorHandler]: the log level, the HTTP status and the JSON body,
    for a given [process.env.NODE_ENV]. *)
Definition errorHandler (NODE_ENV : option string) (err : Err)
  : Level * Z * ErrorBody :=
  let status := statusOf err in
  let text := textOr (Some (message err)) "Internal Server Error" in
  let shown := default ∅ (details err) in
  let development :=
    match NODE_ENV with
    | Some env => String.eqb env "development"
    | None => false
    end in
  (if 500 <=? status then error else warn,
   status,
   {| bodyStatus := status;
      bodyMessage := text;
      bodyDetails := if development then Some shown else None;
      bodyStack := if development then stack err else None |}).

End errorHandler.

(** The answer of the error handler [r]: its log level, the status and
    the message it sends. *)
Definition answers (r : errorHandler.Level * Z * errorHandler.ErrorBody)
    (level : errorHandler.Level) (code : Z) (text : string) : Prop :=
  r.1.1 = level /\ r.1.2 = code /\
  errorHandler.bodyStatus r.2 = code /\
  errorHandler.bodyMessage r.2 = text.

(* ================================================================== *)
(** * Authentication middleware (in [src/services/sessionService.js]) *)
(* ================================================================== *)

Module auth.
Import JsString.

(** What [jwt.verify] does with a token: the decoded payload, or an
    error with the given [name]. *)
Inductive Verification : Type :=
| Decoded (payload : gmap string JsValue)
| Rejected (errorName : string).

(** What a token middleware does: [next()], with [req.user] as it then
    is, or [next(err)]. *)
Inductive Passage : Type :=
| Next (user : option (gmap string JsValue))
| NextError (err : errorHandler.Err).

(** What the webhook middleware does: [next()], or a response of its
    own with [res.status(code).send(text)]. *)
Inductive Gate : Type :=
| Pass
| Respond (status : Z) (text : string).

(** The text up to the first blank. *)
Fixpoint untilBlank (s : string) : string :=
  match s with
  | EmptyString => EmptyString
  | String c s' =>
      if Ascii.eqb c " "%char then EmptyString else String c (untilBlank s')
  end.

Section Environment.

Variable capturedStack : string.

(** [jwt.verify(token, JWT_SECRET)] *)
Variable verify : string -> Verification.

Definition validateToken (authorization : option string) : Passage :=
  match authorization with
  | None =>
      NextError (errorHandler.unauthorized capturedStack
                   (Some "Authentication token is required") None)
  | Some authHeader =>
      match dropPrefix "Bearer " authHeader with
      | None =>
          NextError (errorHandler.unauthorized capturedStack
                       (Some "Authentication token is required") None)
      | Some rest =>
          (* [authHeader.split(' ')[1]] *)
          let token := untilBlank rest in
          match verify token with
          | Decoded payload => Next (Some payload)
          | Rejected errorName =>
              if String.eqb errorName "TokenExpiredError" then
                NextError (errorHandler.unauthorized capturedStack
                             (Some "Token has expired") None)
              else if String.eqb errorName "JsonWebTokenError" then
                NextError (errorHandler.unauthorized capturedStack
                             (Some "Invalid token") None)
              else
                NextError (errorHandler.unauthorized capturedStack
                             (Some "Authentication failed") None)
          end
      end
  end.

(** [!req.user || req.user.role !== 'admin'] decides. *)
Definition validateAdmin (user : option (gmap string JsValue)) : Passage :=
  match user with
  | Some payload =>
      match payload !! "role" with
      | Some (JsText role) =>
          if String.eqb role "admin" then Next user
          else NextError (errorHandler.unauthorized capturedStack
                            (Some "Admin access required") None)
      | _ => NextError (errorHandler.unauthorized capturedStack
                          (Some "Admin access required") None)
      end
  | None => NextError (errorHandler.unauthorized capturedStack
                         (Some "Admin access required") None)
  end.

(** [process.env.NODE_ENV], [SKIP_WEBHOOK_VALIDATION], [TWILIO_AUTH_TOKEN] *)
Variable NODE_ENV SKIP_WEBHOOK_VALIDATION TWILIO_AUTH_TOKEN : option string.

(** [twilio.validateRequest(token, signature, url, params)] *)
Variable validateRequest :
  option string -> string -> string -> inbound.Request -> Outcome bool.

(** The request as the middleware reads it: its headers, [req.protocol],
    [req.originalUrl] and the parsed body. *)
Definition validateWebhook (headers : gmap string string)
    (protocol originalUrl : string) (body : inbound.Request) : Gate :=
  if match NODE_ENV, SKIP_WEBHOOK_VALIDATION with
     | Some env, Some skip =>
         String.eqb env "development" && String.eqb skip "true"
     | _, _ => false
     end
  then Pass
  else
    match headers !! "x-twilio-signature" with
    | None => Respond 403 "Forbidden"
    | Some twilioSignature =>
        if nonEmpty twilioSignature then
          let protocol' := textOr (headers !! "x-forwarded-proto") protocol in
          let host := default "undefined" (headers !! "host") in
          let url := protocol' +:+ "://" +:+ host +:+ originalUrl in
          match validateRequest TWILIO_AUTH_TOKEN twilioSignature url body with
          | Returned true => Pass
          | Returned false => Respond 403 "Forbidden"
          | Thrown _ => Respond 500 "Internal Server Error"
          end
        else Respond 403 "Forbidden"
    end.

End Environment.
End auth.

(* ================================================================== *)
(** * The message route ([src/api/routes/webhookRoutes.js]) *)
(* ================================================================== *)

Module webhookRoutes.
Section Route.

Variable NODE_ENV SKIP_WEBHOOK_VALIDATION TWILIO_AUTH_TOKEN : option string.
Variable validateRequest :
  option string -> string -> string -> inbound.Request -> Outcome bool.
Variable SESSION_TIMEOUT_MINUTES : option Z.
Variable findUserByPhone : string -> Outcome (option userModel.User).
Variable sendWhatsAppMessage :
  string -> string -> Outcome string * list twilioClient.Message.

(** [router.post('/message', validateWebhook, handleIncomingMessage)] *)
Definition postMessage (headers : gmap string string)
    (protocol originalUrl : string) (body : inbound.Request) (w : World)
  : inbound.Response * list twilioClient.Message * World :=
  match auth.validateWebhook NODE_ENV SKIP_WEBHOOK_VALIDATION
          TWILIO_AUTH_TOKEN validateRequest headers protocol originalUrl body
  with
  | auth.Pass =>
      inbound.handleIncomingMessage SESSION_TIMEOUT_MINUTES findUserByPhone
        sendWhatsAppMessage body w
  | auth.Respond status text =>
      ({| inbound.status := status; inbound.text := text |}, [], w)
  end.

End Route.
End webhookRoutes.

(* ================================================================== *)
(** * Vocabulary of conversations *)
(* ================================================================== *)

(** The messages of a list handled one after the other: the responses
    with the requests made to Twilio for each, and the final world. *)
Fixpoint handleAll (tmo : option Z)
    (findUserByPhone : string -> Outcome (option userModel.User))
    (sendWhatsAppMessage :
       string -> string -> Outcome string * list twilioClient.Message)
    (reqs : list inbound.Request) (w : World)
  : list (inbound.Response * list twilioClient.Message) * World :=
  match reqs with
  | [] => ([], w)
  | req :: rest =>
      let '(response, requests, w') :=
        inbound.handleIncomingMessage tmo findUserByPhone sendWhatsAppMessage
          req w in
      let '(others, w'') :=
        handleAll tmo findUserByPhone sendWhatsAppMessage rest w' in
      ((response, requests) :: others, w'')
  end.

(** The clock never advances by more than the session timeout from one
    reading to the next, nor from one reading to the one after the next.
    The expiry of a session is written from one of the last two readings
    taken while a message is handled, so under this bound the session is
    still alive when the next message is read, however long the
    conversation lasts. *)
Definition steady (tmo : option Z) (w : World) : Prop :=
  forall i,
    clock w (S i) <=
      sessionService.addMinutes (sessionService.SESSION_TIMEOUT tmo)
        (clock w i) /\
    clock w (S (S i)) <=
      sessionService.addMinutes (sessionService.SESSION_TIMEOUT tmo)
        (clock w i).

(** [s] has not expired at the next reading of the clock. *)
Definition alive (w : World) (s : Session) : Prop :=
  clock w (ticks w) <= expiresAt s.

(** What the dialogue handlers read and write of a session. *)
Record Dialogue : Type := {
  dialogueState : string;
  dialogueLanguage : option string;
  registering : bool
}.

Definition viewOf (s : Session) : Dialogue :=
  {| dialogueState := currentState s; dialogueLanguage := language s;
     registering := registrationInProgress s |}.

(** The view of a session as [createSession] makes it. *)
Definition newDialogue : Dialogue :=
  {| dialogueState := "START"; dialogueLanguage := None; registering := false |}.

(** The registration flow as a transition table: reply and next view. *)
Definition registrationTable (d : Dialogue) (message : string)
  : string * Dialogue :=
  if String.eqb (dialogueState d) "REGISTRATION_START" then
    (messageBuilder.buildLanguageSelection false,
     {| dialogueState := "REGISTRATION_LANGUAGE";
        dialogueLanguage := dialogueLanguage d; registering := registering d |})
  else if String.eqb (dialogueState d) "REGISTRATION_LANGUAGE" then
    let choice := JsString.toLowerCase (JsString.trim message) in
    if String.eqb choice "1" || String.eqb choice "english" then
      (messageBuilder.buildAgeQuestion (Some "en"),
       {| dialogueState := "REGISTRATION_AGE"; dialogueLanguage := Some "en";
          registering := registering d |})
    else if String.eqb choice "2" || String.eqb choice "hindi" then
      (messageBuilder.buildAgeQuestion (Some "hi"),
       {| dialogueState := "REGISTRATION_AGE"; dialogueLanguage := Some "hi";
          registering := registering d |})
    else (messageBuilder.buildLanguageSelection true, d)
  else
    (messageBuilder.buildGenericError
       (Some (textOr (dialogueLanguage d) "en")), d).

(** The command dispatcher as a transition table. *)
Definition commandTable (user : userModel.User) (d : Dialogue)
    (message : string) : string * Dialogue :=
  let userLanguage := Some (textOr (userModel.language user) "en") in
  if JsString.startsWith message "for:" then
    (messageBuilder.buildNotImplementedYet userLanguage, d)
  else
    let command := JsString.toLowerCase (JsString.trim message) in
    if String.eqb command "help" then
      (messageBuilder.buildHelpMenu userLanguage, d)
    else if String.eqb command "add medication"
            || String.eqb command "med"
            || String.eqb command "1" then
      (messageBuilder.buildMedicationAddStart userLanguage,
       {| dialogueState := "MEDICATION_ADD_START";
          dialogueLanguage := dialogueLanguage d;
          registering := registering d |})
    else (messageBuilder.buildMainMenu userLanguage, d).

(** One inbound message, for a number whose user record is [user]. *)
Definition dialogueStep (user : option userModel.User) (d : Dialogue)
    (req : inbound.Request) : string * Dialogue :=
  if registering d then registrationTable d (inbound.Body req)
  else
    match user with
    | None =>
        (inbound.buildRegistrationWelcome (inbound.ProfileName req),
         {| dialogueState := "REGISTRATION_START";
            dialogueLanguage := dialogueLanguage d; registering := true |})
    | Some u => commandTable u d (inbound.Body req)
    end.

Fixpoint dialogueRun (user : option userModel.User) (d : Dialogue)
    (reqs : list inbound.Request) : list string * Dialogue :=
  match reqs with
  | [] => ([], d)
  | req :: rest =>
      let '(reply, d') := dialogueStep user d req in
      let '(replies, d'') := dialogueRun user d' rest in
      (reply :: replies, d'')
  end.

(** The point a number has reached: no session yet, or a session that
    is alive, with view [d] and data [dat], in a consistent store. *)
Definition inConversation (w : World) (phone : string)
    (d : Dialogue) (dat : option (gmap string JsValue)) : Prop :=
  consistent w /\
  ((sessionOf w phone = None /\ d = newDialogue /\ dat = Some ∅) \/
   exists s, sessionOf w phone = Some s /\ alive w s /\
             viewOf s = d /\ data s = dat).

(** The HTTP response after a delivery attempt. *)
Definition responseFor (delivery : Outcome string) : inbound.Response :=
  match delivery with
  | Returned _ => {| inbound.status := 200; inbound.text := "OK" |}
  | Thrown _ =>
      {| inbound.status := 500; inbound.text := "Error processing message" |}
  end.

(** A process whose clock advances by a second per reading for a minute. *)
Definition chatWorld : World :=
  {| objects := ∅; sessionStore := ∅;
     clock := fun n => 1700000000000 + Z.of_nat (Nat.min n 60) * 1000;
     ticks := 0;
     uuids := fun _ => "0b9f6c1e-7f0a-4c55-9a53-2d0f5a1c7e11"; drawn := 0 |}.

(** A process whose clock advances by a minute per reading. *)
Definition slowWorld : World :=
  {| objects := ∅; sessionStore := ∅;
     clock := fun n => 1700000000000 + Z.of_nat n * 60000;
     ticks := 0;
     uuids := fun _ => "0b9f6c1e-7f0a-4c55-9a53-2d0f5a1c7e11"; drawn := 0 |}.

(** A Twilio account whose requests are all accepted. *)
Definition acceptingTwilio (to body : string)
  : Outcome string * list twilioClient.Message :=
  twilioClient.sendWhatsAppMessage (Some "AC0001") (Some "token")
    (Some "whatsapp:+14155238886") (fun _ => Returned "SM0001") to body.

Definition textFrom (sender text : string) : inbound.Request :=
  {| inbound.From := sender; inbound.Body := text;
     inbound.ProfileName := Some "Asha" |}.

(** [chatWorld] with one session in its store, at reference [0]. *)
Definition chatWith (s : Session) : World :=
  {| objects := {[ 0%nat := s ]};
     sessionStore :=
       match phoneNumber s with Some p => {[ p := 0%nat ]} | None => ∅ end;
     clock := fun n => 1700000000000 + Z.of_nat (Nat.min n 60) * 1000;
     ticks := 0;
     uuids := fun _ => "0b9f6c1e-7f0a-4c55-9a53-2d0f5a1c7e11"; drawn := 0 |}.

(* ================================================================== *)
(** * Running the effect monad symbolically *)
(* ================================================================== *)

Import sessionService.

#[local] Arguments updateSession : simpl never.
#[local] Arguments createSession : simpl never.
#[local] Arguments getOrCreateSession : simpl never.
#[local] Arguments cleanupExpiredSessions : simpl never.

Ltac js_unfold :=
  unfold bind, ret, throw, deref, assign, moment, uuidv4, newObject,
    storeGet, storePut, storeDelete, storeKeys, with_objects,
    with_sessionStore, after, outcome.

Ltac js_lookup :=
  match goal with
  | H : objects ?w !! ?r = _ |- context [objects ?w !! ?r] => rewrite H
  | H : sessionStore ?w !! ?p = _ |- context [sessionStore ?w !! ?p] =>
      rewrite H
  | |- context [<[?r := _]> _ !! ?r] => rewrite lookup_insert_eq
  end.

Ltac js_run := repeat (js_unfold; cbn; try js_lookup).

Lemma string_eqb_false (a b : string) : a <> b -> String.eqb a b = false.
Proof. intros H. now apply String.eqb_neq. Qed.

Lemma truthy_nonempty (p : string) : JsString.nonEmpty p = true <-> p <> "".
Proof. destruct p; cbn; split; congruence. Qed.

(* ================================================================== *)
(** * The string primitives on sample texts *)
(* ================================================================== *)

Example trim_blanks_and_newline :
  JsString.trim ("  English " +:+ JsString.LF) = "English".
Proof. reflexivity. Qed.

Example trim_no_break_space :
  JsString.trim (JsString.bytes [194; 160]%nat +:+ "2" +:+ " ") = "2".
Proof. reflexivity. Qed.

Example trim_keeps_inner_blank :
  JsString.trim " add medication " = "add medication".
Proof. reflexivity. Qed.

Example toLowerCase_mixed : JsString.toLowerCase "HiNdI 2" = "hindi 2".
Proof. reflexivity. Qed.

Example startsWith_proxy : JsString.startsWith "for:Mom taken" "for:" = true.
Proof. reflexivity. Qed.

Example startsWith_is_case_sensitive :
  JsString.startsWith "For:Mom taken" "for:" = false.
Proof. reflexivity. Qed.

(* ================================================================== *)
(** * [updateSession] *)
(* ================================================================== *)

Lemma updateSession_absent tmo w :
  updateSession tmo None w = (Thrown (Error "Invalid session object"), w).
Proof. reflexivity. Qed.

Lemma updateSession_noPhoneNumber tmo w r s :
  objects w !! r = Some s -> noPhoneNumber s = true ->
  updateSession tmo (Some r) w = (Thrown (Error "Invalid session object"), w).
Proof.
  intros Hr Hn. unfold updateSession, noPhoneNumber in *. js_run.
  destruct (phoneNumber s) as [p|]; [|reflexivity].
  destruct (JsString.nonEmpty p); [discriminate|reflexivity].
Qed.

Lemma updateSession_ok tmo w r s p :
  objects w !! r = Some s -> phoneNumber s = Some p ->
  JsString.nonEmpty p = true ->
  updateSession tmo (Some r) w =
    (Returned r,
     {| objects :=
          <[r := set_expiresAt
                   (addMinutes (SESSION_TIMEOUT tmo) (clock w (S (ticks w))))
                   (set_updatedAt (clock w (ticks w)) s)]> (objects w);
        sessionStore := <[p := r]> (sessionStore w);
        clock := clock w; ticks := S (S (ticks w));
        uuids := uuids w; drawn := drawn w |}).
Proof.
  intros Hr Hp Ht. unfold updateSession.
  js_run. rewrite Hp, Ht. js_run. now rewrite insert_insert_eq.
Qed.

Lemma noPhoneNumber_false s :
  noPhoneNumber s = false ->
  exists p, phoneNumber s = Some p /\ JsString.nonEmpty p = true.
Proof.
  unfold noPhoneNumber. destruct (phoneNumber s) as [p|]; [|discriminate].
  destruct (JsString.nonEmpty p) eqn:E; [eauto|discriminate].
Qed.

(** C7 (as amended): [updateSession] throws exactly when the session
    argument is absent or its [phoneNumber] is falsy, that is missing,
    [null] or the empty string; the error is [Error('Invalid session
    object')], raised before anything is written, so the heap, the store
    and the clock are as they were. *)
Theorem updateSession_throws_iff_no_phoneNumber
    (tmo : option Z) (w : World) (session : option nat)
    (Hobj : forall r, session = Some r -> is_Some (objects w !! r)) :
  let lacking :=
    session = None \/
    exists r s, session = Some r /\ objects w !! r = Some s /\
                noPhoneNumber s = true in
  ((exists e, outcome (updateSession tmo session) w = Thrown e) <-> lacking) /\
  (lacking ->
   updateSession tmo session w = (Thrown (Error "Invalid session object"), w)).
Proof.
  intros lacking.
  assert (Hthrow : lacking ->
    updateSession tmo session w = (Thrown (Error "Invalid session object"), w)).
  { intros [-> | (r & s & -> & Hr & Hn)].
    - apply updateSession_absent.
    - now apply (updateSession_noPhoneNumber tmo w r s). }
  split; [split|exact Hthrow].
  - intros [e He]. destruct session as [r|]; [|now left].
    right. destruct (Hobj r eq_refl) as [s Hr]. exists r, s.
    split; [reflexivity|split; [exact Hr|]].
    destruct (noPhoneNumber s) eqn:Hn; [reflexivity|].
    destruct (noPhoneNumber_false s Hn) as (p & Hp & Ht).
    unfold outcome in He.
    rewrite (updateSession_ok tmo w r s p Hr Hp Ht) in He. discriminate.
  - intros H. unfold outcome. rewrite (Hthrow H). eauto.
Qed.

(** The amended C7 on a session created with an empty phone number. *)
Lemma updateSession_throws_iff_no_phoneNumber_witness :
  updateSession None (Some 0%nat)
    (worldWith anonymous) =
  (Thrown (Error "Invalid session object"), worldWith anonymous).
Proof.
  apply (updateSession_throws_iff_no_phoneNumber None
           (worldWith anonymous) (Some 0%nat)).
  - intros r [= <-]. vm_compute. eauto.
  - right. exists 0%nat, anonymous. repeat split; reflexivity.
Defined.

(** C7 (as stated) fails: a session whose [phoneNumber] key is present
    but holds the empty string is rejected as well, so the error is not
    raised only when the key is missing. *)
Lemma updateSession_throws_with_phoneNumber_key_present :
  let w := worldWith anonymous in
  ~ ((exists e, outcome (updateSession None (Some 0%nat)) w = Thrown e) <->
     (exists s, objects w !! 0%nat = Some s /\ phoneNumber s = None)).
Proof.
  intros w [Hthen _].
  destruct Hthen as (s & Hs & Hp).
  - exists (Error "Invalid session object"). reflexivity.
  - vm_compute in Hs. injection Hs as <-. discriminate Hp.
Qed.

(** C5 (as amended): a successful [updateSession] writes the clock
    reading it takes into [updatedAt] and the following reading plus the
    session timeout into [expiresAt].  Each of the two is strictly larger
    than before when the clock has moved past the reading the old value
    was written from, and never smaller when the clock has not gone back. *)
Theorem updateSession_timestamps_follow_clock
    (tmo : option Z) (w : World) (r : nat) (s : Session) (p : string)
    (Hr : objects w !! r = Some s)
    (Hp : phoneNumber s = Some p)
    (Ht : JsString.nonEmpty p = true) :
  exists w' s',
    updateSession tmo (Some r) w = (Returned r, w') /\
    objects w' !! r = Some s' /\
    sessionStore w' !! p = Some r /\
    updatedAt s' = clock w (ticks w) /\
    expiresAt s' = addMinutes (SESSION_TIMEOUT tmo) (clock w (S (ticks w))) /\
    (forall i j,
       updatedAt s = clock w i ->
       expiresAt s = addMinutes (SESSION_TIMEOUT tmo) (clock w j) ->
       (clock w i < clock w (ticks w) -> updatedAt s < updatedAt s') /\
       (clock w j < clock w (S (ticks w)) -> expiresAt s < expiresAt s') /\
       (clock w i <= clock w (ticks w) -> updatedAt s <= updatedAt s') /\
       (clock w j <= clock w (S (ticks w)) -> expiresAt s <= expiresAt s')).
Proof.
  eexists _, _. split; [apply (updateSession_ok tmo w r s p Hr Hp Ht)|].
  cbn. rewrite !lookup_insert_eq.
  do 4 (split; [reflexivity|]).
  intros i j Hu He. cbn. unfold addMinutes in *.
  repeat split; intros; lia.
Qed.

(** The amended C5 on a session created a few seconds earlier. *)
Lemma updateSession_timestamps_follow_clock_witness :
  let w := after (createSession None "+919800000001") startWorld in
  exists w' s',
    updateSession None (Some 0%nat) w = (Returned 0%nat, w') /\
    objects w' !! 0%nat = Some s' /\
    updatedAt s' = 1700000003000 /\ expiresAt s' = 1700001804000.
Proof.
  intros w.
  destruct (updateSession_timestamps_follow_clock None w 0%nat
              {| id := "0b9f6c1e-7f0a-4c55-9a53-2d0f5a1c7e11";
                 phoneNumber := Some "+919800000001";
                 currentState := "START"; data := Some ∅;
                 registrationInProgress := false; language := None;
                 createdAt := 1700000000000; updatedAt := 1700000001000;
                 expiresAt := 1700001802000 |}
              "+919800000001")
    as (w' & s' & Hrun & Hobj & _ & Hu & He & _).
  - reflexivity.
  - reflexivity.
  - reflexivity.
  - exists w', s'. repeat split; assumption.
Defined.

(** C5 (as stated) fails: an update within the millisecond of the
    previous write leaves [updatedAt] and [expiresAt] as they were. *)
Lemma updateSession_same_millisecond_not_strict :
  let w := after (createSession None "+919800000001") frozenWorld in
  exists s w' s',
    objects w !! 0%nat = Some s /\
    updateSession None (Some 0%nat) w = (Returned 0%nat, w') /\
    objects w' !! 0%nat = Some s' /\
    ~ updatedAt s < updatedAt s' /\ ~ expiresAt s < expiresAt s'.
Proof.
  eexists _, _, _. split; [reflexivity|].
  split; [reflexivity|]. split; [reflexivity|].
  split; vm_compute; discriminate.
Qed.

(* ================================================================== *)
(** * [createSession] and [getOrCreateSession] *)
(* ================================================================== *)

Lemma createSession_run tmo phone w :
  createSession tmo phone w =
    (Returned (fresh (dom (objects w))),
     {| objects :=
          <[fresh (dom (objects w)) :=
              {| id := uuids w (drawn w);
                 phoneNumber := Some phone;
                 currentState := "START";
                 data := Some ∅;
                 registrationInProgress := false;
                 language := None;
                 createdAt := clock w (ticks w);
                 updatedAt := clock w (S (ticks w));
                 expiresAt := addMinutes (SESSION_TIMEOUT tmo)
                                (clock w (S (S (ticks w)))) |}]> (objects w);
        sessionStore := <[phone := fresh (dom (objects w))]> (sessionStore w);
        clock := clock w; ticks := S (S (S (ticks w)));
        uuids := uuids w; drawn := S (drawn w) |}).
Proof. reflexivity. Qed.

Lemma fresh_unused (w : World) : objects w !! fresh (dom (objects w)) = None.
Proof. apply not_elem_of_dom, is_fresh. Qed.

(** X19: for a phone number that names no member of [Object.prototype]
    and has no session in the store, or whose session (any key but
    [__proto__]) is past its [expiresAt] at the clock reading of the
    call, [getOrCreateSession] returns a new object, now the one stored
    under that number, in state [START] with
    [registrationInProgress = false], [language = null] and empty
    [data]: nothing of the old session is carried over. *)
Theorem getOrCreateSession_fresh_when_absent_or_expired
    (tmo : option Z) (phone : string) (w : World)
    (H : (sessionStore w !! phone = None /\ inherited phone = false) \/
         (phone <> "__proto__" /\
          exists r s, sessionStore w !! phone = Some r /\
                      objects w !! r = Some s /\
                      expiresAt s < clock w (ticks w))) :
  exists r' w' s',
    getOrCreateSession tmo phone w = (Returned r', w') /\
    objects w !! r' = None /\
    sessionStore w' !! phone = Some r' /\
    objects w' !! r' = Some s' /\
    phoneNumber s' = Some phone /\
    currentState s' = "START" /\
    registrationInProgress s' = false /\
    language s' = None /\
    data s' = Some ∅.
Proof.
  destruct H as [[Hnone _] | (_ & r & s & Hst & Hr & Hexp)].
  - eexists _, _, _. split.
    { unfold getOrCreateSession. js_run. apply createSession_run. }
    cbn. rewrite !lookup_insert_eq.
    split; [apply fresh_unused|]. repeat split; reflexivity.
  - eexists _, _, _. split.
    { unfold getOrCreateSession. js_run. unfold isAfter.
      apply Z.ltb_lt in Hexp. rewrite Hexp. apply createSession_run. }
    cbn. rewrite !lookup_insert_eq.
    split; [apply fresh_unused|]. repeat split; reflexivity.
Qed.

(** X19 on a session in mid-registration that is read again a day later. *)
Lemma getOrCreateSession_fresh_when_absent_or_expired_witness :
  let stale :=
    {| id := "0b9f6c1e-7f0a-4c55-9a53-2d0f5a1c7e11";
       phoneNumber := Some "+919800000001";
       currentState := "REGISTRATION_AGE";
       data := Some {[ "draft" := JsText "Metformin" ]};
       registrationInProgress := true; language := Some "hi";
       createdAt := 1699900000000; updatedAt := 1699900000000;
       expiresAt := 1699901800000 |} in
  exists r' w' s',
    getOrCreateSession None "+919800000001" (worldWith stale) = (Returned r', w') /\
    objects (worldWith stale) !! r' = None /\
    sessionStore w' !! "+919800000001" = Some r' /\
    objects w' !! r' = Some s' /\
    phoneNumber s' = Some "+919800000001" /\
    currentState s' = "START" /\
    registrationInProgress s' = false /\
    language s' = None /\
    data s' = Some ∅.
Proof.
  intros stale.
  apply (getOrCreateSession_fresh_when_absent_or_expired None
           "+919800000001" (worldWith stale)).
  right. split; [discriminate|]. exists 0%nat, stale.
  split; [reflexivity|]. split; [reflexivity|]. vm_compute. reflexivity.
Defined.

(** A session that is still alive is kept: the same object is returned,
    with both timestamps refreshed and every other field as it was. *)
Lemma getOrCreateSession_keeps_alive_session tmo phone w r s :
  sessionStore w !! phone = Some r ->
  objects w !! r = Some s ->
  clock w (ticks w) <= expiresAt s ->
  getOrCreateSession tmo phone w =
    (Returned r,
     {| objects :=
          <[r := set_updatedAt (clock w (S (S (ticks w))))
                   (set_expiresAt
                      (addMinutes (SESSION_TIMEOUT tmo) (clock w (S (ticks w))))
                      s)]> (objects w);
        sessionStore := <[phone := r]> (sessionStore w);
        clock := clock w; ticks := S (S (S (ticks w)));
        uuids := uuids w; drawn := drawn w |}).
Proof.
  intros Hst Hs Halive. unfold getOrCreateSession. js_run.
  unfold isAfter. apply Z.ltb_ge in Halive. rewrite Halive.
  js_run. now rewrite insert_insert_eq.
Qed.

(* ================================================================== *)
(** * The registration flow *)
(* ================================================================== *)

Import JsString messageBuilder webhookController.

(** The common tail of the two accepted language choices. *)
Lemma language_chosen tmo w session s lang :
  objects w !! session = Some s ->
  let run :=
    (do! assign session (set_language (Some lang)) in
     do! assign session (set_currentState "REGISTRATION_AGE") in
     do! updateSession tmo (Some session) in
     let! s' := deref session in
     ret (buildAgeQuestion (language s'))) w in
  exists s',
    objects (snd run) !! session = Some s' /\
    language s' = Some lang /\
    currentState s' = "REGISTRATION_AGE" /\
    data s' = data s /\
    (noPhoneNumber s = false ->
     fst run = Returned (buildAgeQuestion (Some lang))).
Proof.
  intros Hs run. subst run.
  destruct (noPhoneNumber s) eqn:Hn.
  - js_run. rewrite insert_insert_eq.
    erewrite updateSession_noPhoneNumber;
      [|cbn; apply lookup_insert_eq|exact Hn].
    cbn. rewrite lookup_insert_eq. eexists. split; [reflexivity|].
    repeat split; discriminate.
  - destruct (noPhoneNumber_false s Hn) as (p & Hp & Ht).
    js_run. rewrite insert_insert_eq.
    erewrite updateSession_ok;
      [|cbn; apply lookup_insert_eq|exact Hp|exact Ht].
    js_run. eexists. split; [reflexivity|]. repeat split.
Qed.

(** C1: in [REGISTRATION_LANGUAGE] the trimmed, lower-cased text ["1"]
    or ["english"] sets the session language to [en], ["2"] or ["hindi"]
    sets it to [hi], and both move the session to [REGISTRATION_AGE]
    (the reply being the age question in the chosen language once the
    session is saved); any other text changes nothing at all and is
    answered with the language-selection error prompt. *)
Theorem registration_language_selection
    (tmo : option Z) (w : World) (session : nat) (s : Session)
    (message profileName : string)
    (Hs : objects w !! session = Some s)
    (Hstate : currentState s = "REGISTRATION_LANGUAGE") :
  let choice := toLowerCase (trim message) in
  let run := handleRegistrationFlow tmo session message profileName w in
  (choice = "1" \/ choice = "english" ->
   exists s', objects (snd run) !! session = Some s' /\
              language s' = Some "en" /\
              currentState s' = "REGISTRATION_AGE" /\
              (noPhoneNumber s = false -> fst run = Returned (age_question en))) /\
  (choice = "2" \/ choice = "hindi" ->
   exists s', objects (snd run) !! session = Some s' /\
              language s' = Some "hi" /\
              currentState s' = "REGISTRATION_AGE" /\
              (noPhoneNumber s = false -> fst run = Returned (age_question hi))) /\
  (choice <> "1" -> choice <> "english" -> choice <> "2" -> choice <> "hindi" ->
   run = (Returned (language_selection_error en), w)).
Proof.
  intros choice run.
  assert (Hrun : run =
    (if String.eqb choice "1" || String.eqb choice "english" then
       (do! assign session (set_language (Some "en")) in
        do! assign session (set_currentState "REGISTRATION_AGE") in
        do! updateSession tmo (Some session) in
        let! s' := deref session in
        ret (buildAgeQuestion (language s'))) w
     else if String.eqb choice "2" || String.eqb choice "hindi" then
       (do! assign session (set_language (Some "hi")) in
        do! assign session (set_currentState "REGISTRATION_AGE") in
        do! updateSession tmo (Some session) in
        let! s' := deref session in
        ret (buildAgeQuestion (language s'))) w
     else (Returned (language_selection_error en), w))).
  { subst run. unfold handleRegistrationFlow.
    unfold bind at 1. unfold deref at 1. rewrite Hs, Hstate.
    change (String.eqb "REGISTRATION_LANGUAGE" "REGISTRATION_START") with false.
    change (String.eqb "REGISTRATION_LANGUAGE" "REGISTRATION_LANGUAGE") with true.
    cbv iota. fold choice.
    destruct (String.eqb choice "1" || String.eqb choice "english");
      [reflexivity|].
    destruct (String.eqb choice "2" || String.eqb choice "hindi");
      reflexivity. }
  split; [|split].
  - intros Hc.
    assert (E : String.eqb choice "1" || String.eqb choice "english" = true).
    { destruct Hc as [-> | ->]; reflexivity. }
    rewrite Hrun, E.
    destruct (language_chosen tmo w session s "en" Hs)
      as (s' & H1 & H2 & H3 & _ & H5).
    exists s'. repeat split; assumption.
  - intros Hc.
    assert (E1 : String.eqb choice "1" || String.eqb choice "english" = false).
    { destruct Hc as [-> | ->]; reflexivity. }
    assert (E2 : String.eqb choice "2" || String.eqb choice "hindi" = true).
    { destruct Hc as [-> | ->]; reflexivity. }
    rewrite Hrun, E1, E2.
    destruct (language_chosen tmo w session s "hi" Hs)
      as (s' & H1 & H2 & H3 & _ & H5).
    exists s'. repeat split; assumption.
  - intros N1 N2 N3 N4. rewrite Hrun.
    rewrite !string_eqb_false by assumption. reflexivity.
Qed.

(** C1 on the scenario of the specification: the text ["2"] (here with
    surrounding blanks) picks Hindi. *)
Lemma registration_language_selection_witness :
  let w := worldWith choosingLanguage in
  let run := handleRegistrationFlow None 0%nat " 2 " "Asha" w in
  fst run = Returned (age_question hi) /\
  exists s', objects (snd run) !! 0%nat = Some s' /\
             language s' = Some "hi" /\
             currentState s' = "REGISTRATION_AGE".
Proof.
  intros w run.
  destruct (registration_language_selection None w 0%nat choosingLanguage
              " 2 " "Asha" eq_refl eq_refl) as (_ & Hhindi & _).
  destruct (Hhindi (or_introl eq_refl)) as (s' & Hobj & Hlang & Hstate & Hreply).
  split; [exact (Hreply eq_refl)|].
  exists s'. repeat split; assumption.
Defined.

(** Outside its two cases the registration handler answers with the
    generic error and touches nothing. *)
Lemma handleRegistrationFlow_default tmo w session s message profileName :
  objects w !! session = Some s ->
  currentState s <> "REGISTRATION_START" ->
  currentState s <> "REGISTRATION_LANGUAGE" ->
  handleRegistrationFlow tmo session message profileName w =
    (Returned (buildGenericError (Some (textOr (language s) "en"))), w).
Proof.
  intros Hs N1 N2. unfold handleRegistrationFlow.
  unfold bind at 1. unfold deref at 1. rewrite Hs.
  rewrite !string_eqb_false by assumption. reflexivity.
Qed.

(** C2 (as amended): the handler has no case for [REGISTRATION_AGE].
    Every text, an age in [1,120] or anything else, is answered with the
    generic error in the session language ([en] when none is set) and
    leaves the whole world, hence the state, the language and the data of
    the session, as it was; so does any sequence of such messages. *)
Theorem registration_age_leaves_session_unchanged
    (tmo : option Z) (w : World) (session : nat) (s : Session)
    (profileName : string)
    (Hs : objects w !! session = Some s)
    (Hstate : currentState s = "REGISTRATION_AGE") :
  let reply := buildGenericError (Some (textOr (language s) "en")) in
  (forall message,
     handleRegistrationFlow tmo session message profileName w =
       (Returned reply, w)) /\
  (forall texts,
     replay (fun m => handleRegistrationFlow tmo session m profileName)
       texts w =
       (Returned (map (fun _ => reply) texts), w)).
Proof.
  intros reply.
  assert (Hone : forall message,
    handleRegistrationFlow tmo session message profileName w =
      (Returned reply, w)).
  { intros message. apply handleRegistrationFlow_default; [exact Hs| |];
      rewrite Hstate; discriminate. }
  split; [exact Hone|].
  induction texts as [|m rest IH]; [reflexivity|].
  cbn [replay]. unfold bind at 1. rewrite Hone.
  unfold bind at 1. rewrite IH. reflexivity.
Qed.

(** The amended C2 on a Hindi session that is sent a valid age twice. *)
Lemma registration_age_leaves_session_unchanged_witness :
  let w := worldWith givingAge in
  replay (fun m => handleRegistrationFlow None 0%nat m "Asha") ["45"; "45"] w =
    (Returned [generic_error hi; generic_error hi], w).
Proof.
  intros w.
  apply (registration_age_leaves_session_unchanged None w 0%nat givingAge "Asha");
    reflexivity.
Defined.

(** C2 (as stated) fails: in [REGISTRATION_AGE] the text ["45"] does not
    advance the session and stores no age, and the reply is the generic
    error, not the age-range error. *)
Lemma registration_age_valid_age_not_accepted :
  let w := worldWith givingAge in
  let run := handleRegistrationFlow None 0%nat "45" "Asha" w in
  ~ (exists s', objects (snd run) !! 0%nat = Some s' /\
                (currentState s' <> "REGISTRATION_AGE" \/
                 exists d, data s' = Some d /\ is_Some (d !! "age"))) /\
  fst run = Returned (generic_error hi) /\
  generic_error hi <> age_error hi.
Proof.
  intros w run. split; [|split].
  - intros (s' & Hs' & Hbad).
    assert (Hs0 : objects (snd run) !! 0%nat = Some givingAge)
      by reflexivity.
    rewrite Hs0 in Hs'. injection Hs' as <-.
    destruct Hbad as [Hst | (d & Hd & [v Hv])].
    + apply Hst. reflexivity.
    + cbn in Hd. injection Hd as <-. rewrite lookup_empty in Hv.
      discriminate.
  - reflexivity.
  - vm_compute. discriminate.
Qed.

(* ================================================================== *)
(** * The command dispatcher *)
(* ================================================================== *)

(** C3 (as amended): a message that starts with [for:] is recognised as
    a caregiver proxy command and answered with the not-implemented
    reply in the user's language ([en] when unset); the rest of the
    message is not looked at, and the world, with the caller's session,
    is left as it was. *)
Theorem proxy_command_is_recognised_only
    (tmo : option Z) (user : userModel.User) (session : nat)
    (message phone : string) (w : World)
    (Hfor : startsWith message "for:" = true) :
  handleUserCommands tmo user session message phone w =
    (Returned
       (buildNotImplementedYet (Some (textOr (userModel.language user) "en"))),
     w).
Proof. unfold handleUserCommands. rewrite Hfor. reflexivity. Qed.

(** The amended C3 on the message of the specification's scenario. *)
Lemma proxy_command_is_recognised_only_witness :
  let w := worldWith idle in
  handleUserCommands None asha 0%nat "for:Mom taken" "+919800000001" w =
    (Returned (not_implemented hi), w).
Proof.
  intros w.
  apply (proxy_command_is_recognised_only None asha 0%nat
           "for:Mom taken" "+919800000001" w).
  reflexivity.
Defined.

(** C3 (as stated) fails: the dispatcher's whole result for
    ["for:Mom taken"] is its result for ["for:Dad help"], so no target
    name and no inner command can be read off what it produces. *)
Lemma proxy_command_target_not_extracted :
  let w := worldWith idle in
  let dispatch m := handleUserCommands None asha 0%nat m "+919800000001" w in
  ~ (exists extracted : Outcome string * World -> string * string,
       extracted (dispatch "for:Mom taken") = ("Mom", "taken") /\
       extracted (dispatch "for:Dad help") = ("Dad", "help")).
Proof.
  intros w dispatch (extracted & Hmom & Hdad).
  assert (E : dispatch "for:Mom taken" = dispatch "for:Dad help")
    by reflexivity.
  rewrite E, Hdad in Hmom. discriminate.
Qed.

Lemma userLanguage_cases (l : option string) :
  (l = None \/ l = Some "" -> textOr l "en" = "en") /\
  (forall t, l = Some t -> t <> "" -> textOr l "en" = t).
Proof.
  split.
  - intros [-> | ->]; reflexivity.
  - intros t -> Ht. destruct t; [congruence|reflexivity].
Qed.

(** C8: a message that is neither a proxy command nor one of the
    commands of the table ([help], [add medication], [med], [1]) makes the
    dispatcher return, not throw: the reply is the main menu built for
    [user.language || 'en'], which is the Hindi menu for [hi] and the
    English menu for [en] and for an unset language, and the world is
    left as it was. *)
Theorem unmatched_command_gives_main_menu
    (tmo : option Z) (user : userModel.User) (session : nat)
    (message phone : string) (w : World)
    (Hfor : startsWith message "for:" = false)
    (Hhelp : toLowerCase (trim message) <> "help")
    (Hadd : toLowerCase (trim message) <> "add medication")
    (Hmed : toLowerCase (trim message) <> "med")
    (Hone : toLowerCase (trim message) <> "1") :
  handleUserCommands tmo user session message phone w =
    (Returned (buildMainMenu (Some (textOr (userModel.language user) "en"))), w) /\
  (userModel.language user = None \/ userModel.language user = Some "" ->
   buildMainMenu (Some (textOr (userModel.language user) "en")) = main_menu en) /\
  (userModel.language user = Some "en" ->
   buildMainMenu (Some (textOr (userModel.language user) "en")) = main_menu en) /\
  (userModel.language user = Some "hi" ->
   buildMainMenu (Some (textOr (userModel.language user) "en")) = main_menu hi).
Proof.
  split; [|split; [|split]].
  - unfold handleUserCommands. rewrite Hfor.
    rewrite !string_eqb_false by assumption. reflexivity.
  - intros [-> | ->]; reflexivity.
  - intros ->. reflexivity.
  - intros ->. reflexivity.
Qed.

(** C8 on a greeting sent by a user who reads Hindi. *)
Lemma unmatched_command_gives_main_menu_witness :
  let w := worldWith idle in
  handleUserCommands None asha 0%nat "Namaste" "+919800000001" w =
    (Returned (main_menu hi), w).
Proof.
  intros w.
  apply (unmatched_command_gives_main_menu None asha 0%nat
           "Namaste" "+919800000001" w);
    vm_compute; first [reflexivity | discriminate].
Defined.

(** The transition taken by the three medication commands. *)
Lemma medication_transition tmo user session s w :
  objects w !! session = Some s ->
  let run :=
    (do! assign session (set_currentState "MEDICATION_ADD_START") in
     do! updateSession tmo (Some session) in
     ret (buildMedicationAddStart
            (Some (textOr (userModel.language user) "en")))) w in
  exists s',
    objects (snd run) !! session = Some s' /\
    currentState s' = "MEDICATION_ADD_START" /\
    (noPhoneNumber s = false ->
     fst run = Returned (buildMedicationAddStart
                           (Some (textOr (userModel.language user) "en")))).
Proof.
  intros Hs run. subst run.
  destruct (noPhoneNumber s) eqn:Hn.
  - js_run.
    erewrite updateSession_noPhoneNumber;
      [|cbn; apply lookup_insert_eq|exact Hn].
    cbn. rewrite lookup_insert_eq. eexists. split; [reflexivity|].
    split; [reflexivity|discriminate].
  - destruct (noPhoneNumber_false s Hn) as (p & Hp & Ht).
    js_run.
    erewrite updateSession_ok;
      [|cbn; apply lookup_insert_eq|exact Hp|exact Ht].
    js_run. eexists. split; [reflexivity|]. split; reflexivity.
Qed.

(** C9: for the same user, session and world the dispatcher does the
    same thing on ["1"], ["med"] and ["add medication"]: the three runs
    are equal as a whole, they put the session in
    [MEDICATION_ADD_START], and once the session is saved they reply
    with the medication-add prompt. *)
Theorem medication_aliases_agree
    (tmo : option Z) (user : userModel.User) (session : nat) (s : Session)
    (phone : string) (w : World)
    (Hs : objects w !! session = Some s) :
  let dispatch m := handleUserCommands tmo user session m phone w in
  dispatch "1" = dispatch "med" /\
  dispatch "med" = dispatch "add medication" /\
  exists s',
    objects (snd (dispatch "1")) !! session = Some s' /\
    currentState s' = "MEDICATION_ADD_START" /\
    (noPhoneNumber s = false ->
     fst (dispatch "1") =
       Returned (buildMedicationAddStart
                   (Some (textOr (userModel.language user) "en")))).
Proof.
  intros dispatch.
  split; [reflexivity|]. split; [reflexivity|].
  exact (medication_transition tmo user session s w Hs).
Qed.

(** C9 on a registered user whose session is idle. *)
Lemma medication_aliases_agree_witness :
  let w := worldWith idle in
  let dispatch m := handleUserCommands None asha 0%nat m "+919800000001" w in
  dispatch "1" = dispatch "med" /\
  dispatch "med" = dispatch "add medication" /\
  fst (dispatch "add medication") = Returned (medication_add_start hi).
Proof.
  intros w dispatch.
  destruct (medication_aliases_agree None asha 0%nat idle "+919800000001" w eq_refl)
    as (H1 & H2 & s' & _ & _ & H3).
  split; [exact H1|]. split; [exact H2|].
  exact (H3 eq_refl).
Defined.

(** With a session that can be saved the dispatcher returns a reply on
    every message. *)
Lemma handleUserCommands_returns tmo user session s message phone w :
  objects w !! session = Some s ->
  noPhoneNumber s = false ->
  exists reply w',
    handleUserCommands tmo user session message phone w = (Returned reply, w').
Proof.
  intros Hs Hn. unfold handleUserCommands.
  destruct (startsWith message "for:"); [eexists _, _; reflexivity|].
  destruct (String.eqb _ "help"); [eexists _, _; reflexivity|].
  destruct (_ || _); [|eexists _, _; reflexivity].
  destruct (noPhoneNumber_false s Hn) as (p & Hp & Ht).
  js_run.
  erewrite updateSession_ok;
    [|cbn; apply lookup_insert_eq|exact Hp|exact Ht].
  eexists _, _. reflexivity.
Qed.

(* ================================================================== *)
(** * Well-formed worlds *)
(* ================================================================== *)


Lemma wellFormed_put w (o : gmap nat Session) (st : gmap string nat)
    c t u d p r s :
  wellFormed w ->
  o = <[r := s]> (objects w) ->
  st = <[p := r]> (sessionStore w) ->
  wellFormed {| objects := o; sessionStore := st; clock := c; ticks := t;
                uuids := u; drawn := d |}.
Proof.
  intros Hwf -> -> q r' H. cbn in *.
  destruct (decide (r = r')) as [<- | Hne].
  - rewrite lookup_insert_eq. eauto.
  - rewrite lookup_insert_ne by exact Hne.
    destruct (decide (p = q)) as [<- | Hpq].
    + rewrite lookup_insert_eq in H. congruence.
    + rewrite lookup_insert_ne in H by exact Hpq. eauto.
Qed.

Lemma wellFormed_objects w (o : gmap nat Session) c t u d r s :
  wellFormed w ->
  o = <[r := s]> (objects w) ->
  wellFormed {| objects := o; sessionStore := sessionStore w; clock := c;
                ticks := t; uuids := u; drawn := d |}.
Proof.
  intros Hwf -> q r' H. cbn in *.
  destruct (decide (r = r')) as [<- | Hne].
  - rewrite lookup_insert_eq. eauto.
  - rewrite lookup_insert_ne by exact Hne. eauto.
Qed.

Lemma wellFormed_delete w p :
  wellFormed w -> wellFormed (with_sessionStore (delete p (sessionStore w)) w).
Proof.
  intros Hwf q r H. cbn in *.
  destruct (decide (p = q)) as [<- | Hpq].
  - rewrite lookup_delete_eq in H. discriminate.
  - rewrite lookup_delete_ne in H by exact Hpq. eauto.
Qed.

Lemma wellFormed_createSession tmo phone w :
  wellFormed w -> wellFormed (after (createSession tmo phone) w).
Proof.
  intros Hwf. unfold after. rewrite createSession_run. cbn.
  eapply wellFormed_put; [exact Hwf|reflexivity|reflexivity].
Qed.

(* ================================================================== *)
(** * [cleanupExpiredSessions] *)
(* ================================================================== *)

Lemma expiredAt_lookup w now r s :
  objects w !! r = Some s -> expiredAt w now r = isAfter now (expiresAt s).
Proof. intros H. unfold expiredAt. now rewrite H. Qed.

(** The loop over the keys: the counter grows by the number of entries
    deleted, and an entry is deleted exactly when it is listed and its
    session is expired. *)
Lemma sweep_run now keys :
  forall (count : nat) (w : World),
    wellFormed w ->
    NoDup keys ->
    (forall k, k ∈ keys -> is_Some (sessionStore w !! k)) ->
    exists (count' : nat) (st' : gmap string nat),
      sweep now keys count w = (Returned count', with_sessionStore st' w) /\
      (count' + size st' = count + size (sessionStore w))%nat /\
      (forall k r, st' !! k = Some r <->
                   sessionStore w !! k = Some r /\
                   ~ (k ∈ keys /\ expiredAt w now r = true)).
Proof.
  induction keys as [|k rest IH]; intros count w Hwf Hnd Hin.
  - exists count, (sessionStore w). split; [|split].
    + destruct w; reflexivity.
    + reflexivity.
    + intros j r. split; [intros H; split; [exact H|]|intros [H _]; exact H].
      intros [Hj _]. inversion Hj.
  - apply NoDup_cons in Hnd as [Hk Hnd].
    destruct (Hin k) as [r Hr]; [left|].
    destruct (Hwf k r Hr) as [s Hs].
    cbn [sweep]. js_run.
    rewrite <- (expiredAt_lookup w now r s Hs).
    destruct (expiredAt w now r) eqn:Hdead.
    + destruct (IH (S count) _ (wellFormed_delete w k Hwf) Hnd)
        as (c' & st' & Hrun & Hsize & Hlook).
      { intros j Hj. cbn. rewrite lookup_delete_ne; [apply Hin; now right|].
        intros ->. contradiction. }
      exists c', st'. split; [exact Hrun|]. split.
      * cbn in Hsize. rewrite map_size_delete_Some in Hsize by eauto.
        assert (size (sessionStore w) <> 0)%nat.
        { intros E. apply map_size_empty_inv in E. rewrite E in Hr.
          rewrite lookup_empty in Hr. discriminate. }
        lia.
      * intros j r'. rewrite Hlook. cbn.
        change (expiredAt (with_sessionStore (delete k (sessionStore w)) w))
          with (expiredAt w).
        destruct (decide (k = j)) as [<- | Hkj].
        -- rewrite lookup_delete_eq. split; [intros [? _]; discriminate|].
           intros [Hj Hnot]. exfalso. apply Hnot.
           split; [left|congruence].
        -- rewrite lookup_delete_ne by exact Hkj.
           split; intros [Hj Hnot]; (split; [exact Hj|]); intros [Hmem Hd];
             apply Hnot; (split; [|exact Hd]).
           ++ apply elem_of_cons in Hmem as [-> | Hmem];
                [contradiction|exact Hmem].
           ++ now right.
    + destruct (IH count w Hwf Hnd) as (c' & st' & Hrun & Hsize & Hlook).
      { intros j Hj. apply Hin. now right. }
      exists c', st'. split; [exact Hrun|]. split; [exact Hsize|].
      intros j r'. rewrite Hlook.
      split; intros [Hj Hnot]; (split; [exact Hj|]); intros [Hmem Hd];
        apply Hnot; (split; [|exact Hd]).
      * apply elem_of_cons in Hmem as [-> | Hmem]; [|exact Hmem].
        congruence.
      * now right.
Qed.

Lemma cleanupExpiredSessions_run w :
  wellFormed w ->
  cleanupExpiredSessions w =
    (Returned (size (filter (expiredEntry w (clock w (ticks w)))
                       (sessionStore w))),
     {| objects := objects w;
        sessionStore :=
          filter (fun entry => ~ expiredEntry w (clock w (ticks w)) entry)
            (sessionStore w);
        clock := clock w; ticks := S (ticks w);
        uuids := uuids w; drawn := drawn w |}).
Proof.
  intros Hwf. unfold cleanupExpiredSessions. js_run.
  set (now := clock w (ticks w)).
  set (w1 := {| objects := objects w; sessionStore := sessionStore w;
                clock := clock w; ticks := S (ticks w);
                uuids := uuids w; drawn := drawn w |}).
  destruct (sweep_run now ((map_to_list (sessionStore w)).*1) 0%nat w1)
    as (c' & st' & Hrun & Hsize & Hlook).
  { exact Hwf. }
  { apply NoDup_fst_map_to_list. }
  { intros k Hk. apply list_elem_of_fmap in Hk as ([k' r] & -> & Hk).
    apply elem_of_map_to_list in Hk. cbn. eauto. }
  rewrite Hrun. cbn in Hsize, Hlook.
  change (expiredAt w1) with (expiredAt w) in Hlook.
  assert (Est : st' =
    filter (fun entry => ~ expiredEntry w now entry) (sessionStore w)).
  { apply map_eq. intros k. apply option_eq. intros r.
    rewrite Hlook, map_lookup_filter_Some. unfold expiredEntry. cbn.
    split; intros [Hk Hnot]; (split; [exact Hk|]).
    - intros Hd. apply Hnot. split; [|exact Hd].
      apply list_elem_of_fmap. exists (k, r). split; [reflexivity|].
      now apply elem_of_map_to_list.
    - intros [_ Hd]. exact (Hnot Hd). }
  subst st'.
  assert (Esz : size (sessionStore w) =
    (size (filter (expiredEntry w now) (sessionStore w)) +
     size (filter (fun entry => ~ expiredEntry w now entry) (sessionStore w)))%nat).
  { rewrite <- map_size_disj_union
      by apply map_disjoint_filter_complement.
    now rewrite map_filter_union_complement. }
  assert (c' = size (filter (expiredEntry w now) (sessionStore w))) as -> by lia.
  reflexivity.
Qed.

Lemma filter_all_expired w now :
  (forall phone r, sessionStore w !! phone = Some r -> expiredAt w now r = true) ->
  filter (expiredEntry w now) (sessionStore w) = sessionStore w /\
  filter (fun entry => ~ expiredEntry w now entry) (sessionStore w) = ∅.
Proof.
  intros Hall. split.
  - apply map_eq. intros k. apply option_eq. intros r.
    rewrite map_lookup_filter_Some. unfold expiredEntry. cbn.
    split; [intros [H _]; exact H|]. intros H. split; [exact H|eauto].
  - apply map_empty. intros k. apply map_lookup_filter_None.
    destruct (sessionStore w !! k) as [r|] eqn:Hk; [right|now left].
    intros r' [= <-] Hnot. apply Hnot. unfold expiredEntry. cbn. eauto.
Qed.

(** Creating sessions for distinct new numbers adds one entry each, all
    with an expiry computed from a clock reading taken so far. *)
Lemma createSession_writtenBefore tmo phone w :
  wellFormed w ->
  writtenBefore tmo w (ticks w) ->
  let w' := after (createSession tmo phone) w in
  writtenBefore tmo w' (ticks w') /\ clock w' = clock w /\
  (ticks w <= ticks w')%nat /\
  (sessionStore w !! phone = None ->
   size (sessionStore w') = S (size (sessionStore w))) /\
  (forall q, q <> phone -> sessionStore w' !! q = sessionStore w !! q).
Proof.
  intros Hwf Hwb w'. subst w'. unfold after. rewrite createSession_run. cbn.
  split; [|split; [reflexivity|split; [lia|split]]].
  - intros q r s Hq Hr. cbn in *.
    destruct (decide (fresh (dom (objects w)) = r)) as [<- | Hne].
    + rewrite lookup_insert_eq in Hr. injection Hr as <-. cbn.
      exists (S (S (ticks w))). split; [lia|reflexivity].
    + rewrite lookup_insert_ne in Hr by exact Hne.
      destruct (decide (phone = q)) as [<- | Hpq].
      * rewrite lookup_insert_eq in Hq. congruence.
      * rewrite lookup_insert_ne in Hq by exact Hpq.
        destruct (Hwb q r s Hq Hr) as (i & Hi & He).
        exists i. split; [lia|exact He].
  - intros Hnone. now apply map_size_insert_None.
  - intros q Hq. now rewrite lookup_insert_ne.
Qed.

Lemma createAll_run tmo phones :
  forall w,
    wellFormed w ->
    writtenBefore tmo w (ticks w) ->
    NoDup phones ->
    (forall p, p ∈ phones -> sessionStore w !! p = None) ->
    let w' := after (createAll tmo phones) w in
    createAll tmo phones w = (Returned tt, w') /\
    wellFormed w' /\ writtenBefore tmo w' (ticks w') /\
    clock w' = clock w /\
    size (sessionStore w') = (size (sessionStore w) + length phones)%nat.
Proof.
  induction phones as [|p rest IH]; intros w Hwf Hwb Hnd Hnew w'; subst w'.
  - cbn. repeat split; try assumption. lia.
  - apply NoDup_cons in Hnd as [Hp Hnd].
    destruct (createSession_writtenBefore tmo p w Hwf Hwb)
      as (Hwb1 & Hclock1 & _ & Hsize1 & Hother).
    pose proof (wellFormed_createSession tmo p w Hwf) as Hwf1.
    set (w1 := after (createSession tmo p) w) in *.
    assert (Hstep : createSession tmo p w = (Returned (fresh (dom (objects w))), w1)).
    { subst w1. unfold after. now rewrite createSession_run. }
    destruct (IH w1 Hwf1 Hwb1 Hnd) as (Hrun & Hwf' & Hwb' & Hclock' & Hsize').
    { intros q Hq. rewrite Hother; [apply Hnew; now right|].
      intros ->. contradiction. }
    assert (Hall : createAll tmo (p :: rest) w =
                   (Returned tt, after (createAll tmo rest) w1)).
    { cbn [createAll]. unfold bind at 1. rewrite Hstep. exact Hrun. }
    assert (Hafter : after (createAll tmo (p :: rest)) w =
                     after (createAll tmo rest) w1).
    { unfold after at 1. now rewrite Hall. }
    rewrite Hafter.
    split; [exact Hall|]. split; [exact Hwf'|]. split; [exact Hwb'|].
    split; [congruence|].
    rewrite Hsize', Hsize1 by (apply Hnew; left). cbn [length]. lia.
Qed.

Lemma wellFormed_empty_store w : sessionStore w = ∅ -> wellFormed w.
Proof. intros E phone r H. rewrite E, lookup_empty in H. discriminate. Qed.

Lemma writtenBefore_empty_store tmo w n :
  sessionStore w = ∅ -> writtenBefore tmo w n.
Proof. intros E phone r s H. rewrite E, lookup_empty in H. discriminate. Qed.

Lemma cleanupExpiredSessions_empty w :
  sessionStore w = ∅ ->
  exists w', cleanupExpiredSessions w = (Returned 0%nat, w').
Proof.
  intros E. eexists.
  rewrite (cleanupExpiredSessions_run w (wellFormed_empty_store w E)).
  rewrite E, map_filter_empty, map_size_empty. reflexivity.
Qed.

(** X20: on a store whose entries all point to session objects,
    [cleanupExpiredSessions] does not throw; it deletes from the store
    exactly the entries whose session has [expiresAt] before the clock
    reading taken at the start of the sweep and returns how many it
    deleted.  When every stored session is expired it returns the size of
    the store and leaves it empty, and the next sweep returns [0].  In
    particular, after sessions have been created for [N] distinct phone
    numbers, none of them [__proto__], in an empty store and the clock
    has passed all their expiries, a sweep returns [N] and the sweep
    after it returns [0]. *)
Theorem cleanupExpiredSessions_removes_expired_and_counts :
  (forall w,
     wellFormed w ->
     exists (n : nat) w',
       cleanupExpiredSessions w = (Returned n, w') /\
       n = size (filter (expiredEntry w (clock w (ticks w))) (sessionStore w)) /\
       sessionStore w' =
         filter (fun entry => ~ expiredEntry w (clock w (ticks w)) entry)
           (sessionStore w) /\
       objects w' = objects w /\
       size (sessionStore w) = (n + size (sessionStore w'))%nat /\
       ((forall phone r, sessionStore w !! phone = Some r ->
                         expiredAt w (clock w (ticks w)) r = true) ->
        n = size (sessionStore w) /\ sessionStore w' = ∅ /\
        exists w'', cleanupExpiredSessions w' = (Returned 0%nat, w''))) /\
  (forall tmo phones w0,
     sessionStore w0 = ∅ ->
     NoDup phones ->
     ~ In "__proto__" phones ->
     let w := after (createAll tmo phones) w0 in
     (forall i, (i < ticks w)%nat ->
                addMinutes (SESSION_TIMEOUT tmo) (clock w i) < clock w (ticks w)) ->
     exists w' w'',
       createAll tmo phones w0 = (Returned tt, w) /\
       size (sessionStore w) = length phones /\
       cleanupExpiredSessions w = (Returned (length phones), w') /\
       sessionStore w' = ∅ /\
       cleanupExpiredSessions w' = (Returned 0%nat, w'')).
Proof.
  assert (General : forall w,
     wellFormed w ->
     exists (n : nat) w',
       cleanupExpiredSessions w = (Returned n, w') /\
       n = size (filter (expiredEntry w (clock w (ticks w))) (sessionStore w)) /\
       sessionStore w' =
         filter (fun entry => ~ expiredEntry w (clock w (ticks w)) entry)
           (sessionStore w) /\
       objects w' = objects w /\
       size (sessionStore w) = (n + size (sessionStore w'))%nat /\
       ((forall phone r, sessionStore w !! phone = Some r ->
                         expiredAt w (clock w (ticks w)) r = true) ->
        n = size (sessionStore w) /\ sessionStore w' = ∅ /\
        exists w'', cleanupExpiredSessions w' = (Returned 0%nat, w''))).
  { intros w Hwf. eexists _, _.
    split; [apply (cleanupExpiredSessions_run w Hwf)|].
    split; [reflexivity|]. cbn. split; [reflexivity|]. split; [reflexivity|].
    split.
    - rewrite <- map_size_disj_union by apply map_disjoint_filter_complement.
      now rewrite map_filter_union_complement.
    - intros Hall.
      destruct (filter_all_expired w (clock w (ticks w)) Hall) as [E1 E2].
      rewrite E1, E2. split; [reflexivity|]. split; [reflexivity|].
      now apply cleanupExpiredSessions_empty. }
  split; [exact General|].
  intros tmo phones w0 Hempty Hnd _ w Hlate.
  destruct (createAll_run tmo phones w0) as (Hrun & Hwf & Hwb & Hclock & Hsize).
  { now apply wellFormed_empty_store. }
  { now apply writtenBefore_empty_store. }
  { exact Hnd. }
  { intros p _. rewrite Hempty. apply lookup_empty. }
  fold w in Hrun, Hwf, Hwb, Hclock, Hsize.
  rewrite Hempty, map_size_empty in Hsize. cbn in Hsize.
  destruct (General w Hwf) as (n & w' & Hsweep & _ & _ & _ & _ & Hall).
  destruct Hall as (Hn & Hst & w'' & Hagain).
  { intros phone r Hphone. destruct (Hwf phone r Hphone) as [s Hs].
    rewrite (expiredAt_lookup w _ r s Hs).
    destruct (Hwb phone r s Hphone Hs) as (i & Hi & He).
    unfold isAfter. apply Z.ltb_lt. rewrite He. now apply Hlate. }
  exists w', w''. split; [exact Hrun|]. split; [exact Hsize|].
  split; [congruence|]. split; [exact Hst|exact Hagain].
Qed.

(** X20 on three numbers whose sessions are swept two hours later. *)
Lemma cleanupExpiredSessions_removes_expired_and_counts_witness :
  let phones := ["+919800000001"; "+919800000002"; "+919800000003"] in
  let w := after (createAll None phones) (idleWorld 9) in
  exists w' w'',
    cleanupExpiredSessions w = (Returned 3%nat, w') /\
    sessionStore w' = ∅ /\
    cleanupExpiredSessions w' = (Returned 0%nat, w'').
Proof.
  intros phones w.
  destruct (proj2 cleanupExpiredSessions_removes_expired_and_counts
              None phones (idleWorld 9))
    as (w' & w'' & _ & _ & H1 & H2 & H3).
  - reflexivity.
  - apply (bool_decide_unpack _). vm_compute. exact I.
  - intros [E|[E|[E|[]]]]; discriminate.
  - intros i Hi. change (ticks (after (createAll None phones) (idleWorld 9)))
      with 9%nat in *.
    do 9 (destruct i as [|i]; [vm_compute; reflexivity|]). lia.
  - exists w', w''. repeat split; assumption.
Defined.

(* ================================================================== *)
(** * Session data *)
(* ================================================================== *)




(** What [getSessionData] returns when the store has a session for the
    phone number. *)
Lemma getSessionData_run tmo phone key w r s :
  sessionStore w !! phone = Some r ->
  objects w !! r = Some s ->
  outcome (getSessionData tmo phone key) w =
    Returned
      (if isAfter (clock w (ticks w)) (expiresAt s) then JsNull
       else match data s with
            | Some d => orElse (property d key) JsNull
            | None => JsNull
            end).
Proof.
  intros Hst Hs. unfold outcome, getSessionData, getOrCreateSession.
  js_run. destruct (isAfter (clock w (ticks w)) (expiresAt s)).
  - rewrite createSession_run. js_run. unfold property.
    rewrite lookup_empty. reflexivity.
  - js_run. destruct (data s); reflexivity.
Qed.




(* ================================================================== *)
(** * The store invariant *)
(* ================================================================== *)

Lemma consistent_wellFormed w : consistent w -> wellFormed w.
Proof. intros H phone r Hr. destruct (H phone r Hr) as (s & Hs & _). eauto. Qed.

Lemma consistent_empty_store w : sessionStore w = ∅ -> consistent w.
Proof. intros E phone r H. rewrite E, lookup_empty in H. discriminate. Qed.

Lemma sessionOf_Some w phone s :
  sessionOf w phone = Some s <->
  exists r, sessionStore w !! phone = Some r /\ objects w !! r = Some s.
Proof.
  unfold sessionOf. destruct (sessionStore w !! phone) as [r|].
  - split; [eauto|]. intros (r' & [= <-] & H). exact H.
  - split; [discriminate|]. intros (r' & H & _). discriminate.
Qed.

(** Writing new field values into an object that keeps its phone number. *)
Lemma consistent_touch w w' r s s' :
  consistent w ->
  objects w !! r = Some s ->
  phoneNumber s' = phoneNumber s ->
  objects w' = <[r := s']> (objects w) ->
  sessionStore w' = sessionStore w ->
  consistent w'.
Proof.
  intros Hc Hr Hp Eo Es q r' Hq. rewrite Eo. rewrite Es in Hq.
  destruct (Hc q r' Hq) as (s0 & Hs0 & Hp0).
  destruct (decide (r = r')) as [<- | Hne].
  - rewrite lookup_insert_eq. exists s'. split; [reflexivity|]. congruence.
  - rewrite lookup_insert_ne by exact Hne. eauto.
Qed.

(** The same, storing the object under its own phone number as well. *)
Lemma consistent_save w w' r s s' p :
  consistent w ->
  objects w !! r = Some s ->
  phoneNumber s = Some p ->
  phoneNumber s' = Some p ->
  objects w' = <[r := s']> (objects w) ->
  sessionStore w' = <[p := r]> (sessionStore w) ->
  consistent w'.
Proof.
  intros Hc Hr Hp Hp' Eo Es q r' Hq. rewrite Eo. rewrite Es in Hq.
  destruct (decide (p = q)) as [<- | Hne].
  - rewrite lookup_insert_eq in Hq. injection Hq as <-.
    rewrite lookup_insert_eq. eauto.
  - rewrite lookup_insert_ne in Hq by exact Hne.
    destruct (Hc q r' Hq) as (s0 & Hs0 & Hp0).
    destruct (decide (r = r')) as [<- | Hne'].
    + congruence.
    + rewrite lookup_insert_ne by exact Hne'. eauto.
Qed.

Lemma consistent_delete w p :
  consistent w -> consistent (with_sessionStore (delete p (sessionStore w)) w).
Proof.
  intros Hc q r Hq. cbn in *.
  destruct (decide (p = q)) as [<- | Hne].
  - rewrite lookup_delete_eq in Hq. discriminate.
  - rewrite lookup_delete_ne in Hq by exact Hne. eauto.
Qed.

Lemma consistent_ext w w' :
  objects w' = objects w -> sessionStore w' = sessionStore w ->
  consistent w -> consistent w'.
Proof. intros Eo Es Hc phone r. rewrite Eo, Es. apply Hc. Qed.

(** Under the invariant two phone numbers never share an object. *)
Lemma consistent_distinct w p q r :
  consistent w ->
  sessionStore w !! p = Some r -> sessionStore w !! q = Some r -> p = q.
Proof.
  intros Hc Hp Hq.
  destruct (Hc p r Hp) as (s & Hs & Hps).
  destruct (Hc q r Hq) as (s' & Hs' & Hqs). congruence.
Qed.

Lemma createSession_consistent tmo phone w :
  consistent w -> consistent (after (createSession tmo phone) w).
Proof.
  intros Hc. unfold after. rewrite createSession_run. cbn.
  intros q r Hq. cbn in *.
  destruct (decide (phone = q)) as [<- | Hne].
  - rewrite lookup_insert_eq in Hq. injection Hq as <-.
    rewrite lookup_insert_eq. eexists. split; reflexivity.
  - rewrite lookup_insert_ne in Hq by exact Hne.
    destruct (Hc q r Hq) as (s & Hs & Hp).
    rewrite lookup_insert_ne; [eauto|].
    intros <-. rewrite fresh_unused in Hs. discriminate.
Qed.

Lemma createSession_frame tmo phone w q :
  consistent w -> q <> phone ->
  sessionOf (after (createSession tmo phone) w) q = sessionOf w q.
Proof.
  intros Hc Hne. unfold after, sessionOf. rewrite createSession_run. cbn.
  rewrite lookup_insert_ne by congruence.
  destruct (sessionStore w !! q) as [r|] eqn:Hq; [|reflexivity].
  destruct (Hc q r Hq) as (s & Hs & _).
  rewrite lookup_insert_ne; [reflexivity|].
  intros <-. rewrite fresh_unused in Hs. discriminate.
Qed.

Lemma createSession_pristine tmo phone w :
  exists r s,
    outcome (createSession tmo phone) w = Returned r /\
    objects w !! r = None /\
    sessionStore (after (createSession tmo phone) w) !! phone = Some r /\
    objects (after (createSession tmo phone) w) !! r = Some s /\
    pristine phone s /\
    clock (after (createSession tmo phone) w) = clock w.
Proof.
  unfold outcome, after. rewrite createSession_run. cbn.
  eexists _, _. split; [reflexivity|]. split; [apply fresh_unused|].
  rewrite !lookup_insert_eq. split; [reflexivity|]. split; [reflexivity|].
  split; [repeat split|reflexivity].
Qed.

(** What [getOrCreateSession] does on a consistent store: an alive
    session is kept and refreshed, anything else is replaced by a new
    one; the entries of other numbers are not touched. *)
Lemma getOrCreateSession_spec tmo phone w :
  consistent w ->
  exists r w' s',
    getOrCreateSession tmo phone w = (Returned r, w') /\
    sessionStore w' !! phone = Some r /\
    objects w' !! r = Some s' /\
    phoneNumber s' = Some phone /\
    consistent w' /\
    clock w' = clock w /\
    (forall q, q <> phone -> sessionOf w' q = sessionOf w q) /\
    ((exists s0,
        sessionOf w phone = Some s0 /\
        clock w (ticks w) <= expiresAt s0 /\
        sessionStore w !! phone = Some r /\
        sameDialogue s0 s' /\
        expiresAt s' =
          addMinutes (SESSION_TIMEOUT tmo) (clock w (S (ticks w))) /\
        updatedAt s' = clock w (S (S (ticks w)))) \/
     ((sessionOf w phone = None \/
       exists s0, sessionOf w phone = Some s0 /\
                  expiresAt s0 < clock w (ticks w)) /\
      objects w !! r = None /\ pristine phone s')).
Proof.
  intros Hc.
  destruct (sessionStore w !! phone) as [r|] eqn:Hst.
  - destruct (Hc phone r Hst) as (s0 & Hs0 & Hp0).
    assert (Hof : sessionOf w phone = Some s0).
    { unfold sessionOf. now rewrite Hst. }
    destruct (Z_le_gt_dec (clock w (ticks w)) (expiresAt s0)) as [Halive | Hdead].
    + (* kept *)
      rewrite (getOrCreateSession_keeps_alive_session tmo phone w r s0 Hst Hs0 Halive).
      eexists r, _, _. split; [reflexivity|]. cbn.
      rewrite !lookup_insert_eq.
      split; [reflexivity|]. split; [reflexivity|]. split; [exact Hp0|].
      split.
      { eapply (consistent_save w _ r s0 _ phone Hc Hs0 Hp0);
          [|reflexivity|reflexivity]; exact Hp0. }
      split; [reflexivity|]. split.
      { intros q Hq. unfold sessionOf. cbn.
        rewrite lookup_insert_ne by congruence.
        destruct (sessionStore w !! q) as [r'|] eqn:Hq'; [|reflexivity].
        rewrite lookup_insert_ne; [reflexivity|].
        intros <-. apply Hq. symmetry.
        exact (consistent_distinct w phone q r Hc Hst Hq'). }
      left. exists s0. split; [exact Hof|]. split; [exact Halive|].
      split; [reflexivity|]. split; [repeat split|]. split; reflexivity.
    + (* expired *)
      set (w1 := {| objects := objects w; sessionStore := sessionStore w;
                    clock := clock w; ticks := S (ticks w);
                    uuids := uuids w; drawn := drawn w |}).
      assert (Hrun : getOrCreateSession tmo phone w = createSession tmo phone w1).
      { unfold getOrCreateSession. js_run. unfold isAfter.
        assert (E : (expiresAt s0 <? clock w (ticks w)) = true)
          by (apply Z.ltb_lt; lia).
        rewrite E. reflexivity. }
      assert (Hc1 : consistent w1)
        by (eapply consistent_ext; [| |exact Hc]; reflexivity).
      destruct (createSession_pristine tmo phone w1)
        as (r' & s' & Hout & Hnew & Hst' & Hobj' & Hpr & Hclk).
      exists r', (after (createSession tmo phone) w1), s'.
      split.
      { rewrite Hrun. unfold outcome, after in *.
        destruct (createSession tmo phone w1); cbn in *. congruence. }
      split; [exact Hst'|]. split; [exact Hobj'|].
      split; [apply Hpr|].
      split; [now apply createSession_consistent|].
      split; [exact Hclk|]. split.
      { intros q Hq. now rewrite (createSession_frame tmo phone w1 q Hc1 Hq). }
      right. split; [|split; [exact Hnew|exact Hpr]].
      right. exists s0. split; [exact Hof|lia].
  - assert (Hrun : getOrCreateSession tmo phone w = createSession tmo phone w).
    { unfold getOrCreateSession. js_run. reflexivity. }
    destruct (createSession_pristine tmo phone w)
      as (r' & s' & Hout & Hnew & Hst' & Hobj' & Hpr & Hclk).
    exists r', (after (createSession tmo phone) w), s'.
    split.
    { rewrite Hrun. unfold outcome, after in *.
      destruct (createSession tmo phone w); cbn in *. congruence. }
    split; [exact Hst'|]. split; [exact Hobj'|].
    split; [apply Hpr|].
    split; [now apply createSession_consistent|].
    split; [exact Hclk|]. split.
    { intros q Hq. now apply createSession_frame. }
    right. split; [|split; [exact Hnew|exact Hpr]].
    left. unfold sessionOf. now rewrite Hst.
Qed.

(** An assignment to the stored session followed by [updateSession]:
    the pattern of [setSessionState], [setSessionData] and of the
    dialogue handlers. *)
Lemma assign_then_update_spec tmo w r s (f : Session -> Session) p :
  consistent w ->
  sessionStore w !! p = Some r ->
  objects w !! r = Some s ->
  phoneNumber s = Some p ->
  phoneNumber (f s) = Some p ->
  let run := (do! assign r f in updateSession tmo (Some r)) w in
  exists s2,
    sessionStore (snd run) !! p = Some r /\
    objects (snd run) !! r = Some s2 /\
    sameDialogue (f s) s2 /\
    consistent (snd run) /\
    clock (snd run) = clock w /\
    (forall q, q <> p -> sessionOf (snd run) q = sessionOf w q) /\
    (JsString.nonEmpty p = true ->
     fst run = Returned r /\
     updatedAt s2 = clock w (ticks w) /\
     expiresAt s2 = addMinutes (SESSION_TIMEOUT tmo) (clock w (S (ticks w)))) /\
    (JsString.nonEmpty p = false ->
     fst run = Thrown (Error "Invalid session object") /\ s2 = f s).
Proof.
  intros Hc Hst Hs Hp Hpf run. subst run.
  assert (Hframe : forall (o : gmap nat Session) q,
            q <> p -> sessionStore w !! q = Some r -> False).
  { intros _ q Hq Hq'. apply Hq.
    exact (consistent_distinct w q p r Hc Hq' Hst). }
  destruct (JsString.nonEmpty p) eqn:Ht.
  - js_run.
    erewrite updateSession_ok; [|cbn; apply lookup_insert_eq|exact Hpf|exact Ht].
    cbn. rewrite insert_insert_eq, !lookup_insert_eq.
    eexists. split; [reflexivity|]. split; [reflexivity|].
    split; [repeat split|]. split.
    { eapply (consistent_save w _ r s _ p Hc Hs Hp);
        [|reflexivity|reflexivity]; exact Hpf. }
    split; [reflexivity|]. split.
    { intros q Hq. unfold sessionOf. cbn.
      rewrite lookup_insert_ne by congruence.
      destruct (sessionStore w !! q) as [r'|] eqn:Hq'; [|reflexivity].
      rewrite lookup_insert_ne; [reflexivity|].
      intros <-. exact (Hframe ∅ q Hq Hq'). }
    split; [intros _; repeat split|discriminate].
  - js_run.
    erewrite updateSession_noPhoneNumber;
      [|cbn; apply lookup_insert_eq|unfold noPhoneNumber; now rewrite Hpf, Ht].
    cbn. rewrite !lookup_insert_eq.
    eexists. split; [exact Hst|]. split; [reflexivity|].
    split; [repeat split|]. split.
    { eapply (consistent_touch w _ r s _ Hc Hs);
        [|reflexivity|reflexivity]. congruence. }
    split; [reflexivity|]. split.
    { intros q Hq. unfold sessionOf. cbn.
      destruct (sessionStore w !! q) as [r'|] eqn:Hq'; [|reflexivity].
      rewrite lookup_insert_ne; [reflexivity|].
      intros <-. exact (Hframe ∅ q Hq Hq'). }
    split; [discriminate|intros _; split; reflexivity].
Qed.

(* ================================================================== *)
(** * The accessors of the session service *)
(* ================================================================== *)

Lemma sessionOf_lookup w phone r s :
  sessionStore w !! phone = Some r -> objects w !! r = Some s ->
  sessionOf w phone = Some s.
Proof. intros Hst Hs. unfold sessionOf. now rewrite Hst. Qed.

(** The two assignments of [setSessionData] amount to one. *)
Lemma setSessionData_unfold tmo phone key v w r w' s' :
  getOrCreateSession tmo phone w = (Returned r, w') ->
  objects w' !! r = Some s' ->
  setSessionData tmo phone key v w =
    (do! assign r
           (fun s => set_data (Some (<[key := v]> (default ∅ (data s)))) s) in
     updateSession tmo (Some r)) w'.
Proof.
  intros Hrun Hobj. unfold setSessionData.
  unfold bind at 1. rewrite Hrun.
  unfold bind at 1. unfold deref at 1. rewrite Hobj.
  destruct (data s') as [d0|] eqn:Hd.
  - js_run. reflexivity.
  - js_run. rewrite insert_insert_eq.
    destruct s'; cbn in *; subst. reflexivity.
Qed.

Lemma setSessionState_unfold tmo phone state w r w' :
  getOrCreateSession tmo phone w = (Returned r, w') ->
  setSessionState tmo phone state w =
    (do! assign r (set_currentState state) in updateSession tmo (Some r)) w'.
Proof.
  intros Hrun. unfold setSessionState. unfold bind at 1. now rewrite Hrun.
Qed.

(** The two readers change the world as [getOrCreateSession] does. *)
Lemma getSessionData_after tmo phone key w :
  consistent w ->
  after (getSessionData tmo phone key) w =
  after (getOrCreateSession tmo phone) w.
Proof.
  intros Hc.
  destruct (getOrCreateSession_spec tmo phone w Hc)
    as (r & w' & s' & Hrun & _ & Hobj & _).
  unfold after, getSessionData. unfold bind at 1. rewrite Hrun.
  unfold bind at 1. unfold deref at 1. rewrite Hobj.
  destruct (data s'); reflexivity.
Qed.

Lemma getSessionState_after tmo phone w :
  consistent w ->
  after (getSessionState tmo phone) w =
  after (getOrCreateSession tmo phone) w.
Proof.
  intros Hc.
  destruct (getOrCreateSession_spec tmo phone w Hc)
    as (r & w' & s' & Hrun & _ & Hobj & _).
  unfold after, getSessionState. unfold bind at 1. rewrite Hrun.
  unfold bind at 1. unfold deref at 1. rewrite Hobj. reflexivity.
Qed.

Lemma getSessionState_run tmo phone w r s :
  sessionStore w !! phone = Some r ->
  objects w !! r = Some s ->
  outcome (getSessionState tmo phone) w =
    Returned (if isAfter (clock w (ticks w)) (expiresAt s) then "START"
              else currentState s).
Proof.
  intros Hst Hs. unfold outcome, getSessionState, getOrCreateSession.
  js_run. destruct (isAfter (clock w (ticks w)) (expiresAt s)).
  - rewrite createSession_run. js_run. reflexivity.
  - js_run. reflexivity.
Qed.

(** What a setter leaves behind, in terms of the assignment it makes. *)
Lemma setter_spec tmo phone w (f : Session -> Session) (m : Js nat) :
  consistent w ->
  (forall s, phoneNumber (f s) = phoneNumber s) ->
  (forall r w', getOrCreateSession tmo phone w = (Returned r, w') ->
                m w = (do! assign r f in updateSession tmo (Some r)) w') ->
  exists s' s1,
    sessionOf (after (getOrCreateSession tmo phone) w) phone = Some s' /\
    sessionOf (after m w) phone = Some s1 /\
    sameDialogue (f s') s1 /\
    consistent (after m w) /\
    clock (after m w) = clock w /\
    (forall q, q <> phone -> sessionOf (after m w) q = sessionOf w q) /\
    (JsString.nonEmpty phone = true -> exists r, outcome m w = Returned r) /\
    (JsString.nonEmpty phone = false ->
     outcome m w = Thrown (Error "Invalid session object")).
Proof.
  intros Hc Hf Hm.
  destruct (getOrCreateSession_spec tmo phone w Hc)
    as (r & w' & s' & Hrun & Hst & Hobj & Hp & Hc' & Hclk & Hfr & _).
  specialize (Hm r w' Hrun).
  destruct (assign_then_update_spec tmo w' r s' f phone Hc' Hst Hobj Hp)
    as (s2 & Hst2 & Hobj2 & Hsame & Hc2 & Hclk2 & Hfr2 & Hok & Hbad).
  { now rewrite Hf. }
  exists s', s2. unfold after, outcome. rewrite Hrun, Hm. cbn [snd fst].
  split; [exact (sessionOf_lookup w' phone r s' Hst Hobj)|].
  split; [exact (sessionOf_lookup _ phone r s2 Hst2 Hobj2)|].
  split; [exact Hsame|]. split; [exact Hc2|].
  split; [congruence|]. split.
  { intros q Hq. rewrite Hfr2 by exact Hq. now apply Hfr. }
  split.
  - intros Ht. exists r. now apply Hok.
  - intros Ht. now apply Hbad.
Qed.

Lemma updateSession_consistent tmo w session :
  consistent w -> consistent (after (updateSession tmo session) w).
Proof.
  intros Hc. destruct session as [r|]; [|exact Hc].
  destruct (objects w !! r) as [s|] eqn:Hs.
  - destruct (noPhoneNumber s) eqn:Hn.
    + unfold after. now rewrite (updateSession_noPhoneNumber tmo w r s Hs Hn).
    + destruct (noPhoneNumber_false s Hn) as (p & Hp & Ht).
      unfold after. rewrite (updateSession_ok tmo w r s p Hs Hp Ht). cbn.
      eapply (consistent_save w _ r s _ p Hc Hs Hp);
        [|reflexivity|reflexivity]; exact Hp.
  - unfold after, updateSession. js_run. exact Hc.
Qed.

Lemma assign_consistent w r (f : Session -> Session) :
  consistent w ->
  (forall s, phoneNumber (f s) = phoneNumber s) ->
  consistent (after (assign r f) w).
Proof.
  intros Hc Hf. unfold after, assign.
  destruct (objects w !! r) as [s|] eqn:Hs; [|exact Hc]. cbn.
  eapply (consistent_touch w _ r s _ Hc Hs); [|reflexivity|reflexivity].
  apply Hf.
Qed.

(** Sequencing keeps the invariant when each step keeps it. *)
Lemma bind_consistent {A B} (m : Js A) (k : A -> Js B) w :
  consistent (after m w) ->
  (forall a, consistent (after m w) -> consistent (after (k a) (after m w))) ->
  consistent (after (bind m k) w).
Proof.
  intros Hm Hk. unfold after, bind in *.
  destruct (m w) as [[a|e] w']; cbn in *; [now apply Hk|exact Hm].
Qed.

Lemma ret_consistent {A} (a : A) w : consistent w -> consistent (after (ret a) w).
Proof. intros H. exact H. Qed.

Lemma deref_consistent r w : consistent w -> consistent (after (deref r) w).
Proof.
  intros H. unfold after, deref. now destruct (objects w !! r).
Qed.

Lemma moment_consistent w : consistent w -> consistent (after moment w).
Proof. intros H. eapply consistent_ext; [| |exact H]; reflexivity. Qed.

Lemma getOrCreateSession_consistent tmo phone w :
  consistent w -> consistent (after (getOrCreateSession tmo phone) w).
Proof.
  intros Hc.
  destruct (getOrCreateSession_spec tmo phone w Hc)
    as (r & w' & s' & Hrun & _ & _ & _ & Hc' & _).
  unfold after. now rewrite Hrun.
Qed.

Lemma clearSession_consistent phone w :
  consistent w -> consistent (after (clearSession phone) w).
Proof.
  intros Hc. unfold after, clearSession. js_run.
  destruct (sessionStore w !! phone); [|exact Hc].
  js_run. now apply consistent_delete.
Qed.

Lemma cleanupExpiredSessions_consistent w :
  consistent w -> consistent (after cleanupExpiredSessions w).
Proof.
  intros Hc. unfold after.
  rewrite (cleanupExpiredSessions_run w (consistent_wellFormed w Hc)). cbn.
  intros phone r Hr. cbn in *.
  apply map_lookup_filter_Some in Hr as [Hr _]. now apply Hc.
Qed.

Lemma setSessionState_consistent tmo phone state w :
  consistent w -> consistent (after (setSessionState tmo phone state) w).
Proof.
  intros Hc. unfold setSessionState.
  apply bind_consistent; [now apply getOrCreateSession_consistent|].
  intros r H1. apply bind_consistent; [now apply assign_consistent|].
  intros _ H2. now apply updateSession_consistent.
Qed.

Lemma setSessionData_consistent tmo phone key v w :
  consistent w -> consistent (after (setSessionData tmo phone key v) w).
Proof.
  intros Hc. unfold setSessionData.
  apply bind_consistent; [now apply getOrCreateSession_consistent|].
  intros r H1. apply bind_consistent; [now apply deref_consistent|].
  intros s H2. apply bind_consistent.
  { destruct (data s); [exact H2|now apply assign_consistent]. }
  intros _ H3. apply bind_consistent; [now apply assign_consistent|].
  intros _ H4. now apply updateSession_consistent.
Qed.

Lemma handleRegistrationFlow_consistent tmo session message profileName w :
  consistent w ->
  consistent (after (handleRegistrationFlow tmo session message profileName) w).
Proof.
  intros Hc. unfold handleRegistrationFlow.
  apply bind_consistent; [now apply deref_consistent|].
  intros s H1.
  assert (Hproceed : forall w0, consistent w0 ->
    consistent (after
      (do! assign session (set_currentState "REGISTRATION_AGE") in
       do! updateSession tmo (Some session) in
       let! s' := deref session in
       ret (buildAgeQuestion (language s'))) w0)).
  { intros w0 H0. apply bind_consistent; [now apply assign_consistent|].
    intros _ H2. apply bind_consistent; [now apply updateSession_consistent|].
    intros _ H3. apply bind_consistent; [now apply deref_consistent|].
    intros s' H4. exact H4. }
  destruct (String.eqb (currentState s) "REGISTRATION_START").
  - apply bind_consistent; [now apply assign_consistent|].
    intros _ H2. apply bind_consistent; [now apply updateSession_consistent|].
    intros _ H3. exact H3.
  - destruct (String.eqb (currentState s) "REGISTRATION_LANGUAGE");
      [|exact H1].
    destruct (_ || _).
    + apply bind_consistent; [now apply assign_consistent|].
      intros _ H2. now apply Hproceed.
    + destruct (_ || _); [|exact H1].
      apply bind_consistent; [now apply assign_consistent|].
      intros _ H2. now apply Hproceed.
Qed.

Lemma handleUserCommands_consistent tmo user session message phone w :
  consistent w ->
  consistent (after (handleUserCommands tmo user session message phone) w).
Proof.
  intros Hc. unfold handleUserCommands.
  destruct (startsWith message "for:"); [exact Hc|].
  destruct (String.eqb _ "help"); [exact Hc|].
  destruct (_ || _); [|exact Hc].
  apply bind_consistent; [now apply assign_consistent|].
  intros _ H2. apply bind_consistent; [now apply updateSession_consistent|].
  intros _ H3. exact H3.
Qed.

(* ================================================================== *)
(** * Properties of the session service *)
(* ================================================================== *)

Lemma consistent_twoNumbers : consistent twoNumbers.
Proof.
  unfold twoNumbers. do 2 apply createSession_consistent.
  now apply consistent_empty_store.
Qed.

(** X1: the operations of the session service and the two dialogue
    handlers keep the store consistent: every entry points to an
    existing session object whose [phoneNumber] is the key it is stored
    under, so two phone numbers never share a session object.  This is
    for phone numbers, given or carried by the session at hand, that
    name no member of [Object.prototype], and for data keys other than
    [__proto__]. *)
Theorem store_stays_consistent (tmo : option Z) (w : World)
    (Hc : consistent w) :
  (forall phone,
     inherited phone = false ->
     consistent (after (createSession tmo phone) w) /\
     consistent (after (getOrCreateSession tmo phone) w) /\
     consistent (after (clearSession phone) w) /\
     (forall key v,
        key <> "__proto__" ->
        consistent (after (setSessionData tmo phone key v) w)) /\
     (forall key, consistent (after (getSessionData tmo phone key) w)) /\
     (forall state, consistent (after (setSessionState tmo phone state) w)) /\
     consistent (after (getSessionState tmo phone) w)) /\
  consistent (after cleanupExpiredSessions w) /\
  consistent (after (updateSession tmo None) w) /\
  (forall session,
     plainNumber w session ->
     consistent (after (updateSession tmo (Some session)) w) /\
     (forall message profileName,
        consistent
          (after (handleRegistrationFlow tmo session message profileName) w)) /\
     (forall user message phone,
        consistent
          (after (handleUserCommands tmo user session message phone) w))).
Proof.
  split; [|split; [|split]].
  - intros phone _.
    split; [now apply createSession_consistent|].
    split; [now apply getOrCreateSession_consistent|].
    split; [now apply clearSession_consistent|].
    split; [intros; now apply setSessionData_consistent|].
    split.
    { intros key. rewrite getSessionData_after by exact Hc.
      now apply getOrCreateSession_consistent. }
    split; [intros; now apply setSessionState_consistent|].
    rewrite getSessionState_after by exact Hc.
    now apply getOrCreateSession_consistent.
  - now apply cleanupExpiredSessions_consistent.
  - now apply updateSession_consistent.
  - intros session _.
    split; [now apply updateSession_consistent|].
    split; intros.
    + now apply handleRegistrationFlow_consistent.
    + now apply handleUserCommands_consistent.
Qed.

(** X1 on a store with two sessions: after more data is stored for the
    first number, the two numbers still have different session objects. *)
Lemma store_stays_consistent_witness :
  let w := after (setSessionData None "+919800000001" "dose" (JsNumber 2))
             twoNumbers in
  consistent w /\
  sessionStore w !! "+919800000001" <> sessionStore w !! "+919800000002".
Proof.
  intros w.
  destruct (store_stays_consistent None twoNumbers consistent_twoNumbers)
    as (Hphone & _).
  destruct (Hphone "+919800000001" eq_refl) as (_ & _ & _ & Hdata & _).
  split; [apply (Hdata "dose" (JsNumber 2)); discriminate|].
  vm_compute. discriminate.
Defined.

(** X2: an operation made for one phone number leaves the session
    stored for any other number exactly as it was. *)
Theorem other_numbers_untouched (tmo : option Z) (w : World)
    (phone other : string) (Hc : consistent w) (Hne : other <> phone) :
  sessionOf (after (createSession tmo phone) w) other = sessionOf w other /\
  sessionOf (after (getOrCreateSession tmo phone) w) other = sessionOf w other /\
  sessionOf (after (clearSession phone) w) other = sessionOf w other /\
  (forall key v,
     sessionOf (after (setSessionData tmo phone key v) w) other =
     sessionOf w other) /\
  (forall key,
     sessionOf (after (getSessionData tmo phone key) w) other =
     sessionOf w other) /\
  (forall state,
     sessionOf (after (setSessionState tmo phone state) w) other =
     sessionOf w other) /\
  sessionOf (after (getSessionState tmo phone) w) other = sessionOf w other.
Proof.
  assert (Hget : sessionOf (after (getOrCreateSession tmo phone) w) other =
                 sessionOf w other).
  { destruct (getOrCreateSession_spec tmo phone w Hc)
      as (r & w' & s' & Hrun & _ & _ & _ & _ & _ & Hfr & _).
    unfold after. rewrite Hrun. now apply Hfr. }
  split; [now apply createSession_frame|]. split; [exact Hget|]. split.
  { unfold after, clearSession, sessionOf. js_run.
    destruct (sessionStore w !! phone); [|reflexivity].
    js_run. rewrite lookup_delete_ne by congruence. reflexivity. }
  split.
  { intros key v.
    destruct (setter_spec tmo phone w
                (fun s => set_data (Some (<[key := v]> (default ∅ (data s)))) s)
                (setSessionData tmo phone key v) Hc)
      as (_ & _ & _ & _ & _ & _ & _ & Hfr & _).
    - reflexivity.
    - intros r w' Hrun.
      destruct (getOrCreateSession_spec tmo phone w Hc)
        as (r0 & w0 & s0 & Hrun0 & _ & Hobj0 & _).
      rewrite Hrun0 in Hrun. injection Hrun as <- <-.
      exact (setSessionData_unfold tmo phone key v w r0 w0 s0 Hrun0 Hobj0).
    - now apply Hfr. }
  split.
  { intros key. now rewrite getSessionData_after. }
  split.
  { intros state.
    destruct (setter_spec tmo phone w (set_currentState state)
                (setSessionState tmo phone state) Hc)
      as (_ & _ & _ & _ & _ & _ & _ & Hfr & _).
    - reflexivity.
    - intros r w' Hrun. now apply setSessionState_unfold.
    - now apply Hfr. }
  now rewrite getSessionState_after.
Qed.

(** X2 on a store with two sessions: what is done for the first number
    does not show in the session of the second. *)
Lemma other_numbers_untouched_witness :
  sessionOf
    (after (setSessionState None "+919800000001" "MEDICATION_ADD_START")
       twoNumbers) "+919800000002" =
  sessionOf twoNumbers "+919800000002" /\
  sessionOf (after (clearSession "+919800000001") twoNumbers) "+919800000002" =
  sessionOf twoNumbers "+919800000002".
Proof.
  destruct (other_numbers_untouched None twoNumbers
              "+919800000001" "+919800000002" consistent_twoNumbers)
    as (_ & _ & Hclear & _ & _ & Hstate & _).
  - discriminate.
  - split; [apply Hstate|exact Hclear].
Defined.

(** X3: [getSessionState] after [setSessionState] gives back the state
    that was set while the session is alive, and ["START"] once it has
    expired; this also holds when the save at the end of
    [setSessionState] was refused. *)
Theorem getSessionState_reads_setSessionState
    (tmo : option Z) (phone state : string) (w : World)
    (Hc : consistent w) :
  let w1 := after (setSessionState tmo phone state) w in
  exists s1,
    sessionOf w1 phone = Some s1 /\
    currentState s1 = state /\
    outcome (getSessionState tmo phone) w1 =
      Returned (if isAfter (clock w1 (ticks w1)) (expiresAt s1) then "START"
                else state).
Proof.
  intros w1.
  destruct (setter_spec tmo phone w (set_currentState state)
              (setSessionState tmo phone state) Hc)
    as (s' & s1 & _ & Hs1 & Hsame & _).
  - reflexivity.
  - intros r w' Hrun. now apply setSessionState_unfold.
  - fold w1 in Hs1. exists s1.
    destruct Hsame as (_ & _ & Hstate & _). cbn in Hstate.
    split; [exact Hs1|]. split; [exact Hstate|].
    apply sessionOf_Some in Hs1 as (r & Hst & Hobj).
    rewrite (getSessionState_run tmo phone w1 r s1 Hst Hobj).
    now rewrite Hstate.
Qed.

(** X3 on a number that is new to the service. *)
Lemma getSessionState_reads_setSessionState_witness :
  outcome (getSessionState None "+919800000001")
    (after (setSessionState None "+919800000001" "MEDICATION_ADD_DOSAGE")
       startWorld) =
  Returned "MEDICATION_ADD_DOSAGE".
Proof.
  destruct (getSessionState_reads_setSessionState None "+919800000001"
              "MEDICATION_ADD_DOSAGE" startWorld)
    as (s1 & Hs1 & _ & Hget).
  - now apply consistent_empty_store.
  - vm_compute in Hs1. injection Hs1 as <-. exact Hget.
Defined.

(** X4: [setSessionData] on an alive session writes the one key and
    keeps everything else: the other keys of [data], the dialogue state,
    the language and the registration flag; a [getSessionData] for the
    key that finds the session still alive then returns the value when
    it is truthy and [null] when it is falsy.  This is for a phone number
    that names no member of [Object.prototype] and a key other than
    [__proto__]. *)
Theorem setSessionData_changes_one_key
    (tmo : option Z) (phone key : string) (v : JsValue) (w : World)
    (s0 : Session)
    (Hc : consistent w)
    (Hphone : inherited phone = false)
    (Hkey : key <> "__proto__")
    (Hs0 : sessionOf w phone = Some s0)
    (Halive : clock w (ticks w) <= expiresAt s0) :
  let w1 := after (setSessionData tmo phone key v) w in
  exists s1,
    sessionOf w1 phone = Some s1 /\
    data s1 = Some (<[key := v]> (default ∅ (data s0))) /\
    (forall k, k <> key ->
       default ∅ (data s1) !! k = default ∅ (data s0) !! k) /\
    default ∅ (data s1) !! key = Some v /\
    id s1 = id s0 /\
    currentState s1 = currentState s0 /\
    language s1 = language s0 /\
    registrationInProgress s1 = registrationInProgress s0 /\
    createdAt s1 = createdAt s0 /\
    (clock w1 (ticks w1) <= expiresAt s1 ->
     outcome (getSessionData tmo phone key) w1 = Returned (orElse v JsNull)).
Proof.
  intros w1.
  destruct (getOrCreateSession_spec tmo phone w Hc)
    as (r & w' & s' & Hrun & Hst & Hobj & Hp & Hc' & _ & _ & Hcase).
  destruct Hcase as [(s0' & Hof & _ & _ & Hkept & _) | ([Hnone | Hdead] & _)].
  2:{ rewrite Hs0 in Hnone. discriminate. }
  2:{ destruct Hdead as (s0' & Hof & Hlt). rewrite Hs0 in Hof.
      injection Hof as <-. lia. }
  rewrite Hs0 in Hof. injection Hof as <-.
  destruct (assign_then_update_spec tmo w' r s'
              (fun s => set_data (Some (<[key := v]> (default ∅ (data s)))) s)
              phone Hc' Hst Hobj Hp Hp)
    as (s2 & Hst2 & Hobj2 & Hsame & _).
  rewrite <- (setSessionData_unfold tmo phone key v w r w' s' Hrun Hobj)
    in Hst2, Hobj2.
  change (snd (setSessionData tmo phone key v w)) with w1 in Hst2, Hobj2.
  exists s2.
  split; [exact (sessionOf_lookup _ phone r s2 Hst2 Hobj2)|].
  destruct Hsame as (Hid & _ & Hstate & Hdata & Hreg & Hlang & Hcreated).
  destruct Hkept as (Kid & _ & Kstate & Kdata & Kreg & Klang & Kcreated).
  cbn in Hid, Hstate, Hdata, Hreg, Hlang, Hcreated.
  rewrite Kdata in Hdata.
  split; [exact Hdata|].
  assert (Hread : outcome (getSessionData tmo phone key) w1 =
            Returned
              (if isAfter (clock w1 (ticks w1)) (expiresAt s2) then JsNull
               else orElse v JsNull)).
  { rewrite (getSessionData_run tmo phone key w1 r s2 Hst2 Hobj2).
    rewrite Hdata. unfold property. now rewrite lookup_insert_eq. }
  rewrite Hdata.
  change (default ∅ (Some (<[key := v]> (default ∅ (data s0)))))
    with (<[key := v]> (default ∅ (data s0))).
  split.
  { intros k Hk. now rewrite lookup_insert_ne by congruence. }
  split; [now rewrite lookup_insert_eq|].
  split; [congruence|]. split; [congruence|]. split; [congruence|].
  split; [congruence|]. split; [congruence|].
  intros Hintime. rewrite Hread. unfold isAfter.
  apply Z.ltb_ge in Hintime. now rewrite Hintime.
Qed.

(** X4 on a session that already holds a dose: storing the time keeps
    it, and storing a count of [0] reads back as [null]. *)
Lemma setSessionData_changes_one_key_witness :
  let w := after (setSessionData None "+919800000001" "dose" (JsText "5mg"))
             startWorld in
  (exists s1,
     sessionOf (after (setSessionData None "+919800000001" "time" (JsText "08:00")) w)
       "+919800000001" = Some s1 /\
     default ∅ (data s1) !! "dose" = Some (JsText "5mg") /\
     default ∅ (data s1) !! "time" = Some (JsText "08:00")) /\
  outcome (getSessionData None "+919800000001" "left")
    (after (setSessionData None "+919800000001" "left" (JsNumber 0)) w) =
  Returned JsNull.
Proof.
  intros w.
  assert (Hw : consistent w).
  { apply setSessionData_consistent. now apply consistent_empty_store. }
  destruct (sessionOf w "+919800000001") as [s0|] eqn:Hs0;
    [|vm_compute in Hs0; discriminate].
  assert (Hs : s0 =
    {| id := "0b9f6c1e-7f0a-4c55-9a53-2d0f5a1c7e11";
       phoneNumber := Some "+919800000001"; currentState := "START";
       data := Some {[ "dose" := JsText "5mg" ]};
       registrationInProgress := false; language := None;
       createdAt := 1700000000000; updatedAt := 1700000003000;
       expiresAt := 1700001804000 |}).
  { vm_compute in Hs0. injection Hs0 as <-. reflexivity. }
  assert (Halive : clock w (ticks w) <= expiresAt s0).
  { rewrite Hs. vm_compute. discriminate. }
  split.
  - destruct (setSessionData_changes_one_key None "+919800000001" "time"
                (JsText "08:00") w s0 Hw eq_refl)
      as (s1 & Hs1 & _ & Hother & Hstored & _);
      [discriminate|exact Hs0|exact Halive|].
    exists s1. split; [exact Hs1|]. split; [|exact Hstored].
    rewrite (Hother "dose") by discriminate.
    rewrite Hs. reflexivity.
  - destruct (setSessionData_changes_one_key None "+919800000001" "left"
                (JsNumber 0) w s0 Hw eq_refl)
      as (s1 & Hs1 & _ & _ & _ & _ & _ & _ & _ & _ & Hread);
      [discriminate|exact Hs0|exact Halive|].
    apply Hread.
    assert (E : sessionOf
                  (after (setSessionData None "+919800000001" "left"
                            (JsNumber 0)) w) "+919800000001" =
                Some
                  {| id := "0b9f6c1e-7f0a-4c55-9a53-2d0f5a1c7e11";
                     phoneNumber := Some "+919800000001";
                     currentState := "START";
                     data := Some {[ "dose" := JsText "5mg";
                                     "left" := JsNumber 0 ]};
                     registrationInProgress := false; language := None;
                     createdAt := 1700000000000; updatedAt := 1700000008000;
                     expiresAt := 1700001809000 |}) by reflexivity.
    rewrite E in Hs1. injection Hs1 as <-. vm_compute. discriminate.
Defined.

(** X5: for a phone number that names no member of [Object.prototype],
    [clearSession] returns whether the number had a session and leaves
    none behind, so that a second call returns [false] and the next
    [getOrCreateSession] starts from a new session in [START] with empty
    data, however alive the cleared one was. *)
Theorem clearSession_forgets_the_session
    (tmo : option Z) (phone : string) (w : World)
    (Hphone : inherited phone = false) :
  let w1 := after (clearSession phone) w in
  outcome (clearSession phone) w =
    Returned (match sessionStore w !! phone with
              | Some _ => true
              | None => false
              end) /\
  sessionStore w1 = delete phone (sessionStore w) /\
  objects w1 = objects w /\
  sessionOf w1 phone = None /\
  outcome (clearSession phone) w1 = Returned false /\
  exists r s,
    outcome (getOrCreateSession tmo phone) w1 = Returned r /\
    objects w !! r = None /\
    sessionOf (after (getOrCreateSession tmo phone) w1) phone = Some s /\
    pristine phone s.
Proof.
  intros w1.
  assert (Hw1 : sessionStore w1 = delete phone (sessionStore w) /\
                objects w1 = objects w).
  { subst w1. unfold after, clearSession. js_run.
    destruct (sessionStore w !! phone) eqn:E; js_run.
    - split; reflexivity.
    - split; [|reflexivity]. symmetry. now apply delete_id. }
  destruct Hw1 as [Hst1 Hobj1].
  assert (Hnone : sessionStore w1 !! phone = None).
  { rewrite Hst1. apply lookup_delete_eq. }
  split.
  { unfold outcome, clearSession. js_run.
    now destruct (sessionStore w !! phone). }
  split; [exact Hst1|]. split; [exact Hobj1|]. split.
  { unfold sessionOf. now rewrite Hnone. }
  split.
  { unfold outcome, clearSession. js_run. reflexivity. }
  assert (Hrun : getOrCreateSession tmo phone w1 = createSession tmo phone w1).
  { unfold getOrCreateSession. js_run. reflexivity. }
  destruct (createSession_pristine tmo phone w1)
    as (r & s & Hout & Hnew & Hst & Hobj & Hpr & _).
  exists r, s. unfold outcome, after in *. rewrite Hrun.
  split; [exact Hout|]. split; [now rewrite <- Hobj1|].
  split; [|exact Hpr].
  exact (sessionOf_lookup _ phone r s Hst Hobj).
Qed.

(** X5 on a registered user's session: cleared once, not twice. *)
Lemma clearSession_forgets_the_session_witness :
  outcome (clearSession "+919800000001") (worldWith idle) = Returned true /\
  outcome (clearSession "+919800000001")
    (after (clearSession "+919800000001") (worldWith idle)) = Returned false.
Proof.
  destruct (clearSession_forgets_the_session None "+919800000001"
              (worldWith idle) eq_refl)
    as (Hfirst & _ & _ & _ & Hsecond & _).
  split; [exact Hfirst|exact Hsecond].
Defined.

Lemma readAgain_keeps_alive tmo phone r s0 n :
  forall w s,
    sessionStore w !! phone = Some r ->
    objects w !! r = Some s ->
    clock w (ticks w) <= expiresAt s ->
    sameDialogue s0 s ->
    (forall i, clock w (2 + i)%nat <=
               addMinutes (SESSION_TIMEOUT tmo) (clock w i)) ->
    exists s',
      outcome (readAgain tmo phone n) w = Returned tt /\
      sessionStore (after (readAgain tmo phone n) w) !! phone = Some r /\
      objects (after (readAgain tmo phone n) w) !! r = Some s' /\
      sameDialogue s0 s'.
Proof.
  induction n as [|n IH]; intros w s Hst Hs Halive Hsame Hclock.
  - exists s. repeat split; try assumption; apply Hsame.
  - pose proof (getOrCreateSession_keeps_alive_session tmo phone w r s
                  Hst Hs Halive) as Hrun.
    set (w' := {| objects := _ |}) in Hrun.
    destruct (IH w' _ (lookup_insert_eq _ _ _) (lookup_insert_eq _ _ _))
      as (s' & Hout & Hst' & Hobj' & Hsame').
    + cbn. apply (Hclock (S (ticks w))).
    + destruct Hsame as (H1 & H2 & H3 & H4 & H5 & H6 & H7).
      repeat split; cbn; assumption.
    + exact Hclock.
    + exists s'. unfold outcome, after in *. cbn [readAgain].
      unfold bind at 1 2 3. rewrite Hrun.
      repeat split; try assumption; apply Hsame'.
Qed.

(** X6: sliding expiry.  A session that is alive, the limit
    [now = expiresAt] included, is kept by [getOrCreateSession]: the same
    object, with its dialogue state, data, language and registration
    flag, and a new [expiresAt] one timeout after the read.  Hence a
    session read again and again never expires as long as two clock
    readings further on the clock has not advanced by more than the
    timeout. *)
Theorem session_read_in_time_is_kept
    (tmo : option Z) (phone : string) (w : World) (r : nat) (s : Session)
    (Hst : sessionStore w !! phone = Some r)
    (Hs : objects w !! r = Some s)
    (Halive : clock w (ticks w) <= expiresAt s) :
  (exists w' s',
     getOrCreateSession tmo phone w = (Returned r, w') /\
     sessionStore w' !! phone = Some r /\
     objects w' !! r = Some s' /\
     sameDialogue s s' /\
     expiresAt s' = addMinutes (SESSION_TIMEOUT tmo) (clock w (S (ticks w))) /\
     (forall r', r' <> r -> objects w' !! r' = objects w !! r')) /\
  ((forall i, clock w (2 + i)%nat <=
              addMinutes (SESSION_TIMEOUT tmo) (clock w i)) ->
   forall n, exists s',
     outcome (readAgain tmo phone n) w = Returned tt /\
     sessionStore (after (readAgain tmo phone n) w) !! phone = Some r /\
     objects (after (readAgain tmo phone n) w) !! r = Some s' /\
     sameDialogue s s').
Proof.
  split.
  - eexists _, _.
    split; [exact (getOrCreateSession_keeps_alive_session tmo phone w r s
                     Hst Hs Halive)|].
    cbn. rewrite !lookup_insert_eq.
    split; [reflexivity|]. split; [reflexivity|].
    split; [repeat split|]. split; [reflexivity|].
    intros r' Hne. now rewrite lookup_insert_ne by congruence.
  - intros Hclock n.
    apply (readAgain_keeps_alive tmo phone r s n w s Hst Hs Halive);
      [repeat split|exact Hclock].
Qed.

(** X6 on a session in mid-registration that is read exactly at its
    expiry time. *)
Lemma session_read_in_time_is_kept_witness :
  let s := sampleSession (Some "+919800000001") "REGISTRATION_AGE" true
             (Some "hi") in
  let w :=
    {| objects := {[ 0%nat := s ]};
       sessionStore := {[ "+919800000001" := 0%nat ]};
       clock := fun _ => 1700001800000; ticks := 0;
       uuids := fun _ => "0b9f6c1e-7f0a-4c55-9a53-2d0f5a1c7e11"; drawn := 0 |} in
  exists s',
    outcome (readAgain None "+919800000001" 5) w = Returned tt /\
    sessionStore (after (readAgain None "+919800000001" 5) w)
      !! "+919800000001" = Some 0%nat /\
    objects (after (readAgain None "+919800000001" 5) w) !! 0%nat = Some s' /\
    sameDialogue s s'.
Proof.
  intros s w.
  destruct (session_read_in_time_is_kept None "+919800000001" w 0%nat s)
    as [_ Hagain].
  - reflexivity.
  - reflexivity.
  - vm_compute. discriminate.
  - apply Hagain. intros i. vm_compute. discriminate.
Defined.

(* ================================================================== *)
(** * Conversations through [handleIncomingMessage] *)
(* ================================================================== *)

Lemma sameDialogue_refl s : sameDialogue s s.
Proof. repeat split. Qed.

Lemma sameDialogue_trans s1 s2 s3 :
  sameDialogue s1 s2 -> sameDialogue s2 s3 -> sameDialogue s1 s3.
Proof.
  intros (A1 & A2 & A3 & A4 & A5 & A6 & A7) (B1 & B2 & B3 & B4 & B5 & B6 & B7).
  repeat split; congruence.
Qed.

Lemma steady_clock tmo w w' :
  clock w' = clock w -> steady tmo w -> steady tmo w'.
Proof. intros E H i. rewrite E. apply H. Qed.

(** While the clock is steady the session of the number is kept by the
    read that starts the handling of a message, and is alive after it. *)
Lemma getOrCreateSession_talking tmo phone w s :
  steady tmo w ->
  consistent w ->
  sessionOf w phone = Some s ->
  alive w s ->
  exists r w1 s1,
    getOrCreateSession tmo phone w = (Returned r, w1) /\
    sessionStore w1 !! phone = Some r /\
    objects w1 !! r = Some s1 /\
    phoneNumber s1 = Some phone /\
    sameDialogue s s1 /\
    consistent w1 /\
    clock w1 = clock w /\
    alive w1 s1.
Proof.
  intros Hq Hc Hof Halive.
  destruct (getOrCreateSession_spec tmo phone w Hc)
    as (r & w1 & s1 & Hrun & Hst & Hobj & Hp & Hc1 & Hclk & _ & Hcase).
  destruct Hcase as [(s0 & Hof0 & _ & Hst0 & Hsame & Hexp & _) | ([Hnone | Hdead] & _)].
  - rewrite Hof in Hof0. injection Hof0 as <-.
    exists r, w1, s1. repeat (split; [assumption|]).
    assert (Hs : objects w !! r = Some s).
    { unfold sessionOf in Hof. now rewrite Hst0 in Hof. }
    rewrite (getOrCreateSession_keeps_alive_session tmo phone w r s Hst0 Hs Halive)
      in Hrun.
    injection Hrun as <-. unfold alive. rewrite Hexp. cbn.
    apply (Hq (S (ticks w))).
  - rewrite Hof in Hnone. discriminate.
  - destruct Hdead as (s0 & Hof0 & Hlt). rewrite Hof in Hof0.
    injection Hof0 as <-. unfold alive in Halive. lia.
Qed.

Lemma assign_update_then {B} tmo r (f : Session -> Session) (k : Js B) w :
  (do! assign r f in do! updateSession tmo (Some r) in k) w =
  bind (do! assign r f in updateSession tmo (Some r)) (fun _ => k) w.
Proof.
  unfold bind. destruct (assign r f w) as [[u|e] w1]; [|reflexivity].
  reflexivity.
Qed.

(** An assignment that is saved, followed by the rest of a handler. *)
Lemma save_then {B} tmo w r s (f : Session -> Session) p (k : Js B) :
  consistent w ->
  sessionStore w !! p = Some r ->
  objects w !! r = Some s ->
  phoneNumber s = Some p ->
  phoneNumber (f s) = Some p ->
  JsString.nonEmpty p = true ->
  steady tmo w ->
  exists w' s2,
    (do! assign r f in do! updateSession tmo (Some r) in k) w = k w' /\
    sessionStore w' !! p = Some r /\
    objects w' !! r = Some s2 /\
    sameDialogue (f s) s2 /\
    consistent w' /\
    clock w' = clock w /\
    (forall q, q <> p -> sessionOf w' q = sessionOf w q) /\
    alive w' s2.
Proof.
  intros Hc Hst Hs Hp Hpf Ht Hq.
  destruct (assign_then_update_spec tmo w r s f p Hc Hst Hs Hp Hpf)
    as (s2 & Hst2 & Hobj2 & Hsame & Hc2 & Hclk & Hfr & Hok & _).
  destruct (Hok Ht) as (Hout & _ & Hexp).
  assert (Hticks : ticks (snd ((do! assign r f in updateSession tmo (Some r)) w))
                   = S (S (ticks w))).
  { unfold bind at 1. unfold assign at 1. rewrite Hs.
    erewrite updateSession_ok; [|cbn; apply lookup_insert_eq|exact Hpf|exact Ht].
    reflexivity. }
  set (run := (do! assign r f in updateSession tmo (Some r)) w) in *.
  exists (snd run), s2. split.
  { rewrite assign_update_then. unfold bind at 1. fold run.
    destruct run as [o w']. cbn in *. now rewrite Hout. }
  repeat (split; [assumption|]).
  unfold alive. rewrite Hticks, Hexp, Hclk. apply (Hq (S (ticks w))).
Qed.

(** A plain assignment to the fields of the stored session. *)
Lemma assign_stored w r s (f : Session -> Session) p :
  consistent w ->
  sessionStore w !! p = Some r ->
  objects w !! r = Some s ->
  phoneNumber (f s) = phoneNumber s ->
  expiresAt (f s) = expiresAt s ->
  alive w s ->
  let w' := with_objects (<[r := f s]> (objects w)) w in
  assign r f w = (Returned tt, w') /\
  consistent w' /\ sessionStore w' !! p = Some r /\
  objects w' !! r = Some (f s) /\ clock w' = clock w /\
  alive w' (f s) /\
  (forall q, q <> p -> sessionOf w' q = sessionOf w q).
Proof.
  intros Hc Hst Hs Hp He Halive w'. subst w'.
  split; [unfold assign; now rewrite Hs|].
  split.
  { eapply (consistent_touch w _ r s _ Hc Hs); [exact Hp| |]; reflexivity. }
  cbn. rewrite lookup_insert_eq.
  split; [exact Hst|]. split; [reflexivity|]. split; [reflexivity|].
  split; [unfold alive in *; cbn; now rewrite He|].
  intros q Hq. unfold sessionOf. cbn.
  destruct (sessionStore w !! q) as [r'|] eqn:Hq'; [|reflexivity].
  rewrite lookup_insert_ne; [reflexivity|].
  intros <-. apply Hq. exact (consistent_distinct w q p r Hc Hq' Hst).
Qed.

Lemma viewOf_sameDialogue s s' : sameDialogue s s' -> viewOf s' = viewOf s.
Proof.
  intros (_ & _ & H3 & _ & H5 & H6 & _). unfold viewOf. congruence.
Qed.

(** The registration handler follows its table, touches the session of
    the number only, and leaves the data of that session alone. *)
Lemma handleRegistrationFlow_table tmo w r s phone message profileName :
  consistent w ->
  sessionStore w !! phone = Some r ->
  objects w !! r = Some s ->
  phoneNumber s = Some phone ->
  JsString.nonEmpty phone = true ->
  steady tmo w ->
  alive w s ->
  exists w' s',
    handleRegistrationFlow tmo r message profileName w =
      (Returned (fst (registrationTable (viewOf s) message)), w') /\
    sessionStore w' !! phone = Some r /\
    objects w' !! r = Some s' /\
    viewOf s' = snd (registrationTable (viewOf s) message) /\
    data s' = data s /\ phoneNumber s' = Some phone /\
    consistent w' /\
    clock w' = clock w /\
    alive w' s' /\
    (forall q, q <> phone -> sessionOf w' q = sessionOf w q).
Proof.
  intros Hc Hst Hs Hp Ht Hsd Hstamp.
  unfold handleRegistrationFlow, registrationTable.
  unfold bind at 1. unfold deref at 1. rewrite Hs.
  change (dialogueState (viewOf s)) with (currentState s).
  assert (Hstay : forall reply : string,
    exists w' s',
      (@Returned string reply, w) = (Returned reply, w') /\
      sessionStore w' !! phone = Some r /\ objects w' !! r = Some s' /\
      viewOf s' = viewOf s /\ data s' = data s /\
      phoneNumber s' = Some phone /\ consistent w' /\
      clock w' = clock w /\ alive w' s' /\
      (forall q, q <> phone -> sessionOf w' q = sessionOf w q)).
  { intros reply. exists w, s. repeat split; assumption. }
  destruct (String.eqb (currentState s) "REGISTRATION_START").
  - destruct (save_then tmo w r s (set_currentState "REGISTRATION_LANGUAGE")
                phone (ret (buildLanguageSelection false)) Hc Hst Hs Hp Hp Ht Hsd)
      as (w' & s2 & Hrun & Hst2 & Hobj2 & Hsame & Hc2 & Hclk & Hfr & Hstamp2).
    exists w', s2. rewrite Hrun. split; [reflexivity|].
    destruct Hsame as (E1 & E2 & E3 & E4 & E5 & E6 & E7). cbn in *.
    split; [exact Hst2|]. split; [exact Hobj2|].
    split; [unfold viewOf; cbn; congruence|].
    split; [exact E4|]. split; [congruence|].
    repeat (split; [assumption|]). exact Hfr.
  - destruct (String.eqb (currentState s) "REGISTRATION_LANGUAGE");
      [|apply Hstay].
    assert (Hchosen : forall lang,
      exists w' s',
        (do! assign r (set_language (Some lang)) in
         do! assign r (set_currentState "REGISTRATION_AGE") in
         do! updateSession tmo (Some r) in
         let! s0 := deref r in
         ret (buildAgeQuestion (language s0))) w =
          (Returned (buildAgeQuestion (Some lang)), w') /\
        sessionStore w' !! phone = Some r /\ objects w' !! r = Some s' /\
        viewOf s' =
          {| dialogueState := "REGISTRATION_AGE";
             dialogueLanguage := Some lang;
             registering := registering (viewOf s) |} /\
        data s' = data s /\ phoneNumber s' = Some phone /\ consistent w' /\
        clock w' = clock w /\ alive w' s' /\
        (forall q, q <> phone -> sessionOf w' q = sessionOf w q)).
    { intros lang.
      destruct (assign_stored w r s (set_language (Some lang)) phone
                  Hc Hst Hs eq_refl eq_refl Hstamp)
        as (Hrun1 & Hc1 & Hst1 & Hobj1 & Hclk1 & Hstamp1 & Hfr1).
      set (w1 := with_objects _ w) in *.
      destruct (save_then tmo w1 r (set_language (Some lang) s)
                  (set_currentState "REGISTRATION_AGE") phone
                  (let! s0 := deref r in ret (buildAgeQuestion (language s0)))
                  Hc1 Hst1 Hobj1 Hp Hp Ht Hsd)
        as (w' & s2 & Hrun & Hst2 & Hobj2 & Hsame & Hc2 & Hclk & Hfr & Hstamp2).
      exists w', s2. unfold bind at 1. rewrite Hrun1, Hrun.
      destruct Hsame as (E1 & E2 & E3 & E4 & E5 & E6 & E7). cbn in *.
      split.
      { unfold bind, deref. rewrite Hobj2. unfold ret. now rewrite E6. }
      split; [exact Hst2|]. split; [exact Hobj2|].
      split; [unfold viewOf; cbn; congruence|].
      split; [exact E4|]. split; [congruence|]. split; [exact Hc2|].
      split; [congruence|]. split; [exact Hstamp2|].
      intros q Hq. rewrite Hfr by exact Hq. now apply Hfr1. }
    destruct (_ || _); [apply Hchosen|].
    destruct (_ || _); [apply Hchosen|apply Hstay].
Qed.

(** So does the command dispatcher. *)
Lemma handleUserCommands_table tmo user w r s phone message phoneNumber' :
  consistent w ->
  sessionStore w !! phone = Some r ->
  objects w !! r = Some s ->
  phoneNumber s = Some phone ->
  JsString.nonEmpty phone = true ->
  steady tmo w ->
  alive w s ->
  exists w' s',
    handleUserCommands tmo user r message phoneNumber' w =
      (Returned (fst (commandTable user (viewOf s) message)), w') /\
    sessionStore w' !! phone = Some r /\
    objects w' !! r = Some s' /\
    viewOf s' = snd (commandTable user (viewOf s) message) /\
    data s' = data s /\ phoneNumber s' = Some phone /\
    consistent w' /\
    clock w' = clock w /\
    alive w' s' /\
    (forall q, q <> phone -> sessionOf w' q = sessionOf w q).
Proof.
  intros Hc Hst Hs Hp Ht Hsd Hstamp.
  unfold handleUserCommands, commandTable.
  assert (Hstay : forall reply : string,
    exists w' s',
      (@Returned string reply, w) = (Returned reply, w') /\
      sessionStore w' !! phone = Some r /\ objects w' !! r = Some s' /\
      viewOf s' = viewOf s /\ data s' = data s /\
      phoneNumber s' = Some phone /\ consistent w' /\
      clock w' = clock w /\ alive w' s' /\
      (forall q, q <> phone -> sessionOf w' q = sessionOf w q)).
  { intros reply. exists w, s. repeat split; assumption. }
  destruct (startsWith message "for:"); [apply Hstay|].
  destruct (String.eqb _ "help"); [apply Hstay|].
  destruct (_ || _); [|apply Hstay].
  destruct (save_then tmo w r s (set_currentState "MEDICATION_ADD_START")
              phone
              (ret (buildMedicationAddStart
                      (Some (textOr (userModel.language user) "en"))))
              Hc Hst Hs Hp Hp Ht Hsd)
    as (w' & s2 & Hrun & Hst2 & Hobj2 & Hsame & Hc2 & Hclk & Hfr & Hstamp2).
  exists w', s2. rewrite Hrun. split; [reflexivity|].
  destruct Hsame as (E1 & E2 & E3 & E4 & E5 & E6 & E7). cbn in *.
  split; [exact Hst2|]. split; [exact Hobj2|].
  split; [unfold viewOf; cbn; congruence|].
  split; [exact E4|]. split; [congruence|].
  repeat (split; [assumption|]). exact Hfr.
Qed.

Section Conversation.

Variable tmo : option Z.
Variable findUserByPhone : string -> Outcome (option userModel.User).
Variable sendWhatsAppMessage :
  string -> string -> Outcome string * list twilioClient.Message.

(** The reply to one message once the session of the number is at hand. *)
Lemma respond_with_session req w r s user :
  let phone := inbound.phoneNumberOf req in
  consistent w ->
  sessionStore w !! phone = Some r ->
  objects w !! r = Some s ->
  phoneNumber s = Some phone ->
  JsString.nonEmpty phone = true ->
  steady tmo w ->
  alive w s ->
  exists w' s',
    (let! found := (fun w0 => (@Returned (option userModel.User) user, w0)) in
     let! s0 := deref r in
     match found with
     | None =>
         if registrationInProgress s0 then
           handleRegistrationFlow tmo r (inbound.Body req)
             (textOr (inbound.ProfileName req) "")
         else
           do! assign r (set_currentState "REGISTRATION_START") in
           do! assign r (inbound.set_registrationInProgress true) in
           do! updateSession tmo (Some r) in
           ret (inbound.buildRegistrationWelcome (inbound.ProfileName req))
     | Some u =>
         if registrationInProgress s0 then
           handleRegistrationFlow tmo r (inbound.Body req)
             (textOr (inbound.ProfileName req) "")
         else handleUserCommands tmo u r (inbound.Body req) phone
     end) w =
      (Returned (fst (dialogueStep user (viewOf s) req)), w') /\
    sessionStore w' !! phone = Some r /\
    objects w' !! r = Some s' /\
    viewOf s' = snd (dialogueStep user (viewOf s) req) /\
    data s' = data s /\ phoneNumber s' = Some phone /\
    consistent w' /\
    clock w' = clock w /\
    alive w' s' /\
    (forall q, q <> phone -> sessionOf w' q = sessionOf w q).
Proof.
  intros phone Hc Hst Hs Hp Ht Hsd Hstamp.
  unfold bind at 1. unfold bind at 1. unfold deref at 1. rewrite Hs.
  unfold dialogueStep.
  change (registering (viewOf s)) with (registrationInProgress s).
  assert (Hreg : registrationInProgress s = true ->
    exists w' s',
      handleRegistrationFlow tmo r (inbound.Body req)
        (textOr (inbound.ProfileName req) "") w =
        (Returned (fst (registrationTable (viewOf s) (inbound.Body req))), w') /\
      sessionStore w' !! phone = Some r /\ objects w' !! r = Some s' /\
      viewOf s' = snd (registrationTable (viewOf s) (inbound.Body req)) /\
      data s' = data s /\ phoneNumber s' = Some phone /\ consistent w' /\
      clock w' = clock w /\ alive w' s' /\
      (forall q, q <> phone -> sessionOf w' q = sessionOf w q)).
  { intros _. now apply (handleRegistrationFlow_table tmo w r s phone). }
  destruct user as [u|]; destruct (registrationInProgress s) eqn:Hflag.
  - now apply Hreg.
  - now apply (handleUserCommands_table tmo u w r s phone).
  - now apply Hreg.
  - destruct (assign_stored w r s (set_currentState "REGISTRATION_START")
                phone Hc Hst Hs eq_refl eq_refl Hstamp)
      as (Hrun1 & Hc1 & Hst1 & Hobj1 & Hclk1 & Hstamp1 & Hfr1).
    set (w1 := with_objects _ w) in *.
    destruct (save_then tmo w1 r (set_currentState "REGISTRATION_START" s)
                (inbound.set_registrationInProgress true) phone
                (ret (inbound.buildRegistrationWelcome (inbound.ProfileName req)))
                Hc1 Hst1 Hobj1 Hp Hp Ht Hsd)
      as (w' & s2 & Hrun & Hst2 & Hobj2 & Hsame & Hc2 & Hclk & Hfr & Hstamp2).
    exists w', s2. unfold bind at 1. rewrite Hrun1, Hrun.
    destruct Hsame as (E1 & E2 & E3 & E4 & E5 & E6 & E7). cbn in *.
    split; [reflexivity|].
    split; [exact Hst2|]. split; [exact Hobj2|].
    split; [unfold viewOf; cbn; congruence|].
    split; [exact E4|]. split; [congruence|]. split; [exact Hc2|].
    split; [congruence|]. split; [exact Hstamp2|].
    intros q Hq. rewrite Hfr by exact Hq. now apply Hfr1.
Qed.

End Conversation.

Section Conversations.

Variable tmo : option Z.
Variable findUserByPhone : string -> Outcome (option userModel.User).
Variable sendWhatsAppMessage :
  string -> string -> Outcome string * list twilioClient.Message.

(** The session at hand after the read that opens the handling of a
    message, for a number in a conversation under a steady clock. *)
Lemma getOrCreateSession_inConversation phone w d dat :
  steady tmo w ->
  inConversation w phone d dat ->
  exists r w1 s1,
    getOrCreateSession tmo phone w = (Returned r, w1) /\
    sessionStore w1 !! phone = Some r /\
    objects w1 !! r = Some s1 /\
    phoneNumber s1 = Some phone /\
    viewOf s1 = d /\ data s1 = dat /\
    consistent w1 /\
    clock w1 = clock w /\
    alive w1 s1 /\
    (forall q, q <> phone -> sessionOf w1 q = sessionOf w q).
Proof.
  intros Hq (Hc & [(Hnone & -> & ->) | (s & Hof & Halive & <- & <-)]).
  - assert (Hst : sessionStore w !! phone = None).
    { destruct (sessionStore w !! phone) as [r|] eqn:E; [|reflexivity].
      destruct (Hc phone r E) as (s & Hs & _).
      unfold sessionOf in Hnone. rewrite E, Hs in Hnone. discriminate. }
    assert (Hrun : getOrCreateSession tmo phone w = createSession tmo phone w).
    { unfold getOrCreateSession. js_run. reflexivity. }
    rewrite Hrun, createSession_run.
    eexists _, _, _. split; [reflexivity|]. cbn.
    rewrite !lookup_insert_eq.
    do 5 (split; [reflexivity|]).
    split.
    { pose proof (createSession_consistent tmo phone w Hc) as H.
      unfold after in H. now rewrite createSession_run in H. }
    split; [reflexivity|].
    split; [unfold alive; cbn; apply (Hq (S (S (ticks w))))|].
    intros q Hne.
    pose proof (createSession_frame tmo phone w q Hc Hne) as H.
    unfold after in H. now rewrite createSession_run in H.
  - destruct (getOrCreateSession_talking tmo phone w s Hq Hc Hof Halive)
      as (r & w1 & s1 & Hrun & Hst & Hobj & Hp & Hsame & Hc1 & Hclk & Hst1).
    destruct (getOrCreateSession_spec tmo phone w Hc)
      as (r' & w' & s' & Hrun' & _ & _ & _ & _ & _ & Hfr & _).
    rewrite Hrun in Hrun'. injection Hrun' as <- <-.
    exists r, w1, s1. split; [exact Hrun|].
    split; [exact Hst|]. split; [exact Hobj|]. split; [exact Hp|].
    split; [now apply viewOf_sameDialogue|].
    split; [apply Hsame|]. repeat (split; [assumption|]). exact Hfr.
Qed.

(** One message: the reply of the table goes to Twilio, the response
    tells whether Twilio took it, and the session moves on as the table
    says in both cases. *)
Lemma handleIncomingMessage_step req w user d dat :
  let phone := inbound.phoneNumberOf req in
  let step := dialogueStep user d req in
  let delivery := sendWhatsAppMessage phone (fst step) in
  steady tmo w ->
  inConversation w phone d dat ->
  JsString.nonEmpty phone = true ->
  findUserByPhone phone = Returned user ->
  exists w',
    inbound.handleIncomingMessage tmo findUserByPhone sendWhatsAppMessage
      req w =
      (responseFor (fst delivery), snd delivery, w') /\
    inConversation w' phone (snd step) dat /\
    clock w' = clock w /\
    (forall q, q <> phone -> sessionOf w' q = sessionOf w q).
Proof.
  intros phone step delivery Hq Hin Ht Hfind.
  destruct (getOrCreateSession_inConversation phone w d dat Hq Hin)
    as (r & w1 & s1 & Hrun & Hst & Hobj & Hp & Hview & Hdat & Hc1 & Hclk1
        & Hstamp1 & Hfr1).
  assert (Hq1 : steady tmo w1) by now apply (steady_clock tmo w).
  destruct (respond_with_session tmo req w1 r s1 user Hc1 Hst Hobj Hp Ht
              Hq1 Hstamp1)
    as (w' & s' & Hresp & Hst' & Hobj' & Hview' & Hdat' & Hp' & Hc' & Hclk'
        & Hstamp' & Hfr').
  assert (Hrespond : inbound.respond tmo findUserByPhone req w =
                     (Returned (fst step), w')).
  { unfold inbound.respond. fold phone. unfold bind at 1. rewrite Hrun.
    rewrite Hfind. rewrite Hview in Hresp. exact Hresp. }
  exists w'. split.
  { unfold inbound.handleIncomingMessage. rewrite Hrespond. fold phone.
    fold delivery. destruct delivery as [[sid|e] requests]; reflexivity. }
  split.
  { split; [exact Hc'|]. right. exists s'.
    split; [exact (sessionOf_lookup w' phone r s' Hst' Hobj')|].
    split; [exact Hstamp'|]. rewrite Hview in Hview'.
    split; [exact Hview'|congruence]. }
  split; [congruence|].
  intros q Hne. rewrite Hfr' by exact Hne. now apply Hfr1.
Qed.

End Conversations.

Lemma handleAll_follows_tables tmo findUserByPhone sendWhatsAppMessage
    user phone reqs :
  forall w d dat,
    steady tmo w ->
    inConversation w phone d dat ->
    JsString.nonEmpty phone = true ->
    Forall (fun req => inbound.phoneNumberOf req = phone) reqs ->
    findUserByPhone phone = Returned user ->
    exists w',
      handleAll tmo findUserByPhone sendWhatsAppMessage reqs w =
        (map (fun reply =>
                (responseFor (fst (sendWhatsAppMessage phone reply)),
                 snd (sendWhatsAppMessage phone reply)))
             (fst (dialogueRun user d reqs)), w') /\
      inConversation w' phone (snd (dialogueRun user d reqs)) dat /\
      clock w' = clock w /\
      (forall q, q <> phone -> sessionOf w' q = sessionOf w q).
Proof.
  induction reqs as [|req rest IH]; intros w d dat Hq Hin Ht Hall Hfind.
  - exists w. repeat split; try assumption; apply Hin.
  - apply Forall_cons in Hall as [Hreq Hall].
    destruct (handleIncomingMessage_step tmo findUserByPhone
                sendWhatsAppMessage req w user d dat)
      as (w1 & Hrun & Hin1 & Hclk1 & Hfr1);
      try (rewrite Hreq); try assumption.
    rewrite Hreq in Hrun, Hin1, Hfr1.
    destruct (IH w1 (snd (dialogueStep user d req)) dat)
      as (w' & Hrest & Hin' & Hclk' & Hfr'); try assumption.
    { now apply (steady_clock tmo w). }
    exists w'. cbn [handleAll dialogueRun]. rewrite Hrun, Hrest.
    destruct (dialogueStep user d req) as [reply d1]. cbn [fst snd] in *.
    destruct (dialogueRun user d1 rest) as [replies d2]. cbn [fst snd] in *.
    split; [reflexivity|]. split; [exact Hin'|]. split; [congruence|].
    intros q Hne. rewrite Hfr' by exact Hne. now apply Hfr1.
Qed.

(** X7: a conversation with one number is a run of the two transition
    tables, however long it lasts, for a non-empty number that names no
    member of [Object.prototype], whose session, if it has one, is alive
    when the first message arrives, under a clock that advances by at
    most the session timeout over two consecutive readings, and with a
    user lookup that answers.  The k-th reply handed to Twilio is the
    k-th reply of the tables, the response is 200 when Twilio took it
    and 500 when it did not, the session moves on as the tables say in
    both cases and is alive at the end, its data is never touched, and
    the sessions of other numbers stay as they were. *)
Theorem conversation_follows_tables
    (tmo : option Z)
    (findUserByPhone : string -> Outcome (option userModel.User))
    (sendWhatsAppMessage :
       string -> string -> Outcome string * list twilioClient.Message)
    (user : option userModel.User) (phone : string)
    (reqs : list inbound.Request) (w : World) (d : Dialogue)
    (dat : option (gmap string JsValue))
    (Hsteady : steady tmo w)
    (Hin : inConversation w phone d dat)
    (Hphone : JsString.nonEmpty phone = true)
    (Hplain : inherited phone = false)
    (Hreqs : Forall (fun req => inbound.phoneNumberOf req = phone) reqs)
    (Hfind : findUserByPhone phone = Returned user) :
  exists w',
    handleAll tmo findUserByPhone sendWhatsAppMessage reqs w =
      (map (fun reply =>
              (responseFor (fst (sendWhatsAppMessage phone reply)),
               snd (sendWhatsAppMessage phone reply)))
           (fst (dialogueRun user d reqs)), w') /\
    inConversation w' phone (snd (dialogueRun user d reqs)) dat /\
    (forall q, q <> phone -> sessionOf w' q = sessionOf w q).
Proof.
  destruct (handleAll_follows_tables tmo findUserByPhone sendWhatsAppMessage
              user phone reqs w d dat Hsteady Hin Hphone Hreqs Hfind)
    as (w' & Hrun & Hin' & _ & Hfr).
  exists w'. split; [exact Hrun|]. split; [exact Hin'|exact Hfr].
Qed.

Lemma steady_slowWorld : steady None slowWorld.
Proof.
  intros i. unfold addMinutes, SESSION_TIMEOUT. cbn. lia.
Qed.

(** X7 on twelve messages of a new number, a minute apart at every
    reading of the clock: the conversation lasts longer than the
    timeout of thirty minutes and every message is answered. *)
Lemma conversation_follows_tables_witness :
  let sender := "whatsapp:+919800000001" in
  let reqs := [textFrom sender "hello"; textFrom sender "ok";
               textFrom sender " Hindi "; textFrom sender "45";
               textFrom sender "45"; textFrom sender "forty-five";
               textFrom sender "help"; textFrom sender "1";
               textFrom sender "2"; textFrom sender "hello";
               textFrom sender "45"; textFrom sender "?"] in
  let run :=
    handleAll None (fun _ => Returned None) acceptingTwilio reqs slowWorld in
  map (fun result => inbound.status (fst result)) (fst run) = repeat 200 12 /\
  map (fun result => twilioClient.body <$> snd result) (fst run) =
    [inbound.registration_welcome (Some "Asha")] ::
    [language_selection en] :: [age_question hi] ::
    repeat [generic_error hi] 9 /\
  1700000000000 + 30 * 60000 < clock (snd run) (ticks (snd run)).
Proof.
  intros sender reqs run.
  destruct (conversation_follows_tables None (fun _ => Returned None)
              acceptingTwilio None "+919800000001" reqs slowWorld
              newDialogue (Some ∅))
    as (w' & Hrun & _).
  - exact steady_slowWorld.
  - split; [now apply consistent_empty_store|]. left. repeat split.
  - reflexivity.
  - reflexivity.
  - repeat constructor.
  - reflexivity.
  - fold run in Hrun. split; [now rewrite Hrun|]. split; [now rewrite Hrun|].
    vm_compute. reflexivity.
Defined.

(** X8: when the user lookup fails, for a number that names no member of
    [Object.prototype], the response is 500, no request goes to Twilio
    and the world is left as the read of the session alone leaves it.  A
    session that is alive at that read keeps its dialogue state,
    language, registration flag and data; an expired or missing one has
    been replaced by a new session in [START] with empty data. *)
Theorem lookup_failure_sends_nothing
    (tmo : option Z)
    (findUserByPhone : string -> Outcome (option userModel.User))
    (sendWhatsAppMessage :
       string -> string -> Outcome string * list twilioClient.Message)
    (req : inbound.Request) (w : World) (e : JsError)
    (Hc : consistent w)
    (Hplain : inherited (inbound.phoneNumberOf req) = false)
    (Hfind : findUserByPhone (inbound.phoneNumberOf req) = Thrown e) :
  let phone := inbound.phoneNumberOf req in
  let w' := after (getOrCreateSession tmo phone) w in
  inbound.handleIncomingMessage tmo findUserByPhone sendWhatsAppMessage
    req w =
    ({| inbound.status := 500; inbound.text := "Error processing message" |},
     [], w') /\
  consistent w' /\
  (forall q, q <> phone -> sessionOf w' q = sessionOf w q) /\
  exists s',
    sessionOf w' phone = Some s' /\
    ((exists s, sessionOf w phone = Some s /\ alive w s /\
                viewOf s' = viewOf s /\ data s' = data s) \/
     ((sessionOf w phone = None \/
       exists s, sessionOf w phone = Some s /\ ~ alive w s) /\
      pristine phone s')).
Proof.
  intros phone w'. subst w' phone.
  set (phone := inbound.phoneNumberOf req) in *.
  destruct (getOrCreateSession_spec tmo phone w Hc)
    as (r & w1 & s1 & Hrun & Hst & Hobj & _ & Hc1 & _ & Hfr & Hcase).
  assert (Hw' : after (getOrCreateSession tmo phone) w = w1).
  { unfold after. now rewrite Hrun. }
  rewrite Hw'. split.
  { unfold inbound.handleIncomingMessage, inbound.respond. fold phone.
    unfold bind at 1. rewrite Hrun. unfold bind at 1. rewrite Hfind.
    reflexivity. }
  split; [exact Hc1|]. split; [exact Hfr|].
  exists s1. split; [exact (sessionOf_lookup w1 phone r s1 Hst Hobj)|].
  destruct Hcase as [(s0 & Hof & Halive & _ & Hsame & _) | (Hwhy & _ & Hpr)].
  - left. exists s0. split; [exact Hof|]. split; [exact Halive|].
    split; [now apply viewOf_sameDialogue|apply Hsame].
  - right. split; [|exact Hpr].
    destruct Hwhy as [Hnone | (s0 & Hof & Hlt)]; [now left|].
    right. exists s0. split; [exact Hof|]. unfold alive. lia.
Qed.

(** X8 on a registered user in mid-dialogue while the user store is
    down. *)
Lemma lookup_failure_sends_nothing_witness :
  let answer :=
    inbound.handleIncomingMessage None
      (fun _ => Thrown (Error "ServiceUnavailable")) acceptingTwilio
      (textFrom "whatsapp:+919800000001" "help") (chatWith idle) in
  inbound.status answer.1.1 = 500 /\ answer.1.2 = [] /\
  viewOf <$> sessionOf answer.2 "+919800000001" = Some (viewOf idle).
Proof.
  destruct (lookup_failure_sends_nothing None
              (fun _ => Thrown (Error "ServiceUnavailable")) acceptingTwilio
              (textFrom "whatsapp:+919800000001" "help") (chatWith idle)
              (Error "ServiceUnavailable"))
    as (Hrun & _).
  - intros q r Hq.
    change (sessionStore (chatWith idle))
      with ({[ "+919800000001" := 0%nat ]} : gmap string nat) in Hq.
    apply lookup_singleton_Some in Hq as [<- <-].
    exists idle. split; reflexivity.
  - reflexivity.
  - reflexivity.
  - cbv zeta. rewrite Hrun. split; [reflexivity|]. split; reflexivity.
Defined.

(* ================================================================== *)
(** * What the tables allow *)
(* ================================================================== *)

Lemma registrationTable_registering d message :
  registering (snd (registrationTable d message)) = registering d.
Proof.
  unfold registrationTable.
  repeat (match goal with |- context [if ?b then _ else _] => destruct b end);
    reflexivity.
Qed.

Lemma dialogueStep_registering user d req :
  registering d = true -> registering (snd (dialogueStep user d req)) = true.
Proof.
  intros H. unfold dialogueStep. rewrite H.
  now rewrite registrationTable_registering.
Qed.

Lemma dialogueRun_registering user reqs :
  forall d, registering d = true ->
            registering (snd (dialogueRun user d reqs)) = true.
Proof.
  induction reqs as [|req rest IH]; intros d H; [exact H|].
  cbn [dialogueRun].
  pose proof (dialogueStep_registering user d req H) as H1.
  destruct (dialogueStep user d req) as [reply d1]. cbn in H1.
  specialize (IH d1 H1).
  destruct (dialogueRun user d1 rest) as [replies d2]. exact IH.
Qed.

Lemma dialogueRun_stuck_at_age user reqs d :
  registering d = true ->
  dialogueState d = "REGISTRATION_AGE" ->
  dialogueRun user d reqs =
    (map (fun _ => buildGenericError (Some (textOr (dialogueLanguage d) "en")))
       reqs, d).
Proof.
  intros Hreg Hstate. induction reqs as [|req rest IH]; [reflexivity|].
  cbn [dialogueRun]. unfold dialogueStep at 1. rewrite Hreg.
  unfold registrationTable. rewrite Hstate.
  change (String.eqb "REGISTRATION_AGE" "REGISTRATION_START") with false.
  change (String.eqb "REGISTRATION_AGE" "REGISTRATION_LANGUAGE") with false.
  cbv iota. rewrite IH. reflexivity.
Qed.

(** X9: registration cannot be completed.  For a non-empty number that
    names no member of [Object.prototype] and whose session is
    registering and alive when the first message arrives, under a clock
    that advances by at most the session timeout over two consecutive
    readings, no sequence of messages, however long, clears
    [registrationInProgress], whether the user lookup finds a user
    record for the number or none; and once the session is in
    [REGISTRATION_AGE] every message is answered with the generic error
    and leaves the view of the session as it is. *)
Theorem registration_never_completes
    (tmo : option Z)
    (findUserByPhone : string -> Outcome (option userModel.User))
    (sendWhatsAppMessage :
       string -> string -> Outcome string * list twilioClient.Message)
    (user : option userModel.User) (phone : string)
    (reqs : list inbound.Request) (w : World) (d : Dialogue)
    (dat : option (gmap string JsValue))
    (Hsteady : steady tmo w)
    (Hin : inConversation w phone d dat)
    (Hphone : JsString.nonEmpty phone = true)
    (Hplain : inherited phone = false)
    (Hreqs : Forall (fun req => inbound.phoneNumberOf req = phone) reqs)
    (Hfind : findUserByPhone phone = Returned user)
    (Hreg : registering d = true) :
  exists w' d',
    snd (handleAll tmo findUserByPhone sendWhatsAppMessage reqs w) = w' /\
    inConversation w' phone d' dat /\
    registering d' = true /\
    (dialogueState d = "REGISTRATION_AGE" ->
     d' = d /\
     map (fun result => twilioClient.body <$> snd result)
       (fst (handleAll tmo findUserByPhone sendWhatsAppMessage reqs w)) =
     map (fun _ =>
            twilioClient.body <$>
            snd (sendWhatsAppMessage phone
                   (buildGenericError
                      (Some (textOr (dialogueLanguage d) "en")))))
       reqs).
Proof.
  destruct (handleAll_follows_tables tmo findUserByPhone sendWhatsAppMessage
              user phone reqs w d dat Hsteady Hin Hphone Hreqs Hfind)
    as (w' & Hrun & Hin' & _).
  exists w', (snd (dialogueRun user d reqs)). rewrite Hrun.
  split; [reflexivity|]. split; [exact Hin'|].
  split; [now apply dialogueRun_registering|].
  intros Hage. rewrite (dialogueRun_stuck_at_age user reqs d Hreg Hage).
  split; [reflexivity|]. cbn [fst]. rewrite !map_map. reflexivity.
Qed.

Lemma steady_chatWith s : steady None (chatWith s).
Proof.
  intros i. unfold addMinutes, SESSION_TIMEOUT. cbn. lia.
Qed.

Lemma inConversation_chatWith s p :
  phoneNumber s = Some p ->
  expiresAt s = 1700001800000 ->
  inConversation (chatWith s) p (viewOf s) (data s).
Proof.
  intros Hp He. split.
  - intros q r Hq. unfold chatWith in *. cbn in *. rewrite Hp in Hq.
    apply lookup_singleton_Some in Hq as [<- <-].
    exists s. split; [apply lookup_singleton_eq|exact Hp].
  - right. exists s. split.
    + unfold sessionOf, chatWith. cbn. rewrite Hp.
      rewrite lookup_singleton_eq. apply lookup_singleton_eq.
    + split; [|split; reflexivity]. unfold alive. rewrite He. cbn. lia.
Qed.

(** X9 on a Hindi session waiting for the age, with a user record
    present: three more messages change nothing. *)
Lemma registration_never_completes_witness :
  let sender := "whatsapp:+919800000001" in
  let reqs := [textFrom sender "45"; textFrom sender "72";
               textFrom sender "help"] in
  let run := handleAll None (fun _ => Returned (Some asha)) acceptingTwilio
               reqs (chatWith givingAge) in
  map (fun result => twilioClient.body <$> snd result) (fst run) =
    [ [generic_error hi]; [generic_error hi]; [generic_error hi] ] /\
  viewOf <$> sessionOf (snd run) "+919800000001" = Some (viewOf givingAge).
Proof.
  intros sender reqs run.
  destruct (registration_never_completes None
              (fun _ => Returned (Some asha)) acceptingTwilio (Some asha)
              "+919800000001" reqs (chatWith givingAge) (viewOf givingAge)
              (data givingAge))
    as (w' & d' & Hw' & Hin & _ & Hage).
  - apply steady_chatWith.
  - now apply inConversation_chatWith.
  - reflexivity.
  - reflexivity.
  - repeat constructor.
  - reflexivity.
  - reflexivity.
  - destruct (Hage eq_refl) as [-> Hbodies].
    split; [exact Hbodies|].
    fold run in Hw'. rewrite Hw'.
    destruct Hin as (_ & [(Hnone & Habs & _) | (s & Hof & _ & Hview & _)]).
    + discriminate Habs.
    + rewrite Hof. cbn. now rewrite Hview.
Defined.

Lemma commandTable_shape user d message :
  let userLanguage := Some (textOr (userModel.language user) "en") in
  let step := commandTable user d message in
  registering (snd step) = registering d /\
  dialogueLanguage (snd step) = dialogueLanguage d /\
  (dialogueState (snd step) = dialogueState d \/
   dialogueState (snd step) = "MEDICATION_ADD_START") /\
  In (fst step)
     [buildNotImplementedYet userLanguage; buildHelpMenu userLanguage;
      buildMedicationAddStart userLanguage; buildMainMenu userLanguage].
Proof.
  unfold commandTable.
  repeat (match goal with |- context [if ?b then _ else _] => destruct b end);
    cbn; intuition.
Qed.

Lemma dialogueRun_operational user reqs :
  forall d,
    registering d = false ->
    registering (snd (dialogueRun (Some user) d reqs)) = false /\
    dialogueLanguage (snd (dialogueRun (Some user) d reqs)) =
      dialogueLanguage d /\
    (dialogueState (snd (dialogueRun (Some user) d reqs)) = dialogueState d \/
     dialogueState (snd (dialogueRun (Some user) d reqs)) =
       "MEDICATION_ADD_START") /\
    Forall (fun reply =>
              In reply
                [buildNotImplementedYet
                   (Some (textOr (userModel.language user) "en"));
                 buildHelpMenu (Some (textOr (userModel.language user) "en"));
                 buildMedicationAddStart
                   (Some (textOr (userModel.language user) "en"));
                 buildMainMenu (Some (textOr (userModel.language user) "en"))])
      (fst (dialogueRun (Some user) d reqs)).
Proof.
  induction reqs as [|req rest IH]; intros d Hreg.
  - cbn. repeat split; [assumption|now left|constructor].
  - cbn [dialogueRun]. unfold dialogueStep at 1 2 3 4 5. rewrite Hreg.
    destruct (commandTable_shape user d (inbound.Body req))
      as (H1 & H2 & H3 & H4).
    destruct (commandTable user d (inbound.Body req)) as [reply d1].
    cbn [fst snd] in *.
    assert (Hreg1 : registering d1 = false) by congruence.
    destruct (IH d1 Hreg1) as (K1 & K2 & K3 & K4).
    destruct (dialogueRun (Some user) d1 rest) as [replies d2].
    cbn [fst snd] in *.
    split; [exact K1|]. split; [congruence|]. split.
    { destruct K3 as [K3 | K3]; [|now right].
      rewrite K3. exact H3. }
    constructor; assumption.
Qed.

(** X10: a registered user whose session is not registering is only
    ever answered by the command dispatcher, for a non-empty number that
    names no member of [Object.prototype], a session that, if there is
    one, is alive when the first message arrives, and a clock that
    advances by at most the session timeout over two consecutive
    readings: every reply is one of the dispatcher's four texts in the
    user's language; the session never becomes registering, its language
    is never written, and the only state the messages can put it in is
    [MEDICATION_ADD_START]. *)
Theorem registered_user_stays_with_dispatcher
    (tmo : option Z)
    (findUserByPhone : string -> Outcome (option userModel.User))
    (sendWhatsAppMessage :
       string -> string -> Outcome string * list twilioClient.Message)
    (user : userModel.User) (phone : string)
    (reqs : list inbound.Request) (w : World) (d : Dialogue)
    (dat : option (gmap string JsValue))
    (Hsteady : steady tmo w)
    (Hin : inConversation w phone d dat)
    (Hphone : JsString.nonEmpty phone = true)
    (Hplain : inherited phone = false)
    (Hreqs : Forall (fun req => inbound.phoneNumberOf req = phone) reqs)
    (Hfind : findUserByPhone phone = Returned (Some user))
    (Hreg : registering d = false) :
  let userLanguage := Some (textOr (userModel.language user) "en") in
  exists replies w' d',
    handleAll tmo findUserByPhone sendWhatsAppMessage reqs w =
      (map (fun reply =>
              (responseFor (fst (sendWhatsAppMessage phone reply)),
               snd (sendWhatsAppMessage phone reply))) replies, w') /\
    Forall (fun reply =>
              In reply
                [buildNotImplementedYet userLanguage; buildHelpMenu userLanguage;
                 buildMedicationAddStart userLanguage;
                 buildMainMenu userLanguage]) replies /\
    inConversation w' phone d' dat /\
    registering d' = false /\
    dialogueLanguage d' = dialogueLanguage d /\
    (dialogueState d' = dialogueState d \/
     dialogueState d' = "MEDICATION_ADD_START").
Proof.
  intros userLanguage.
  destruct (handleAll_follows_tables tmo findUserByPhone sendWhatsAppMessage
              (Some user) phone reqs w d dat Hsteady Hin Hphone Hreqs Hfind)
    as (w' & Hrun & Hin' & _).
  destruct (dialogueRun_operational user reqs d Hreg) as (K1 & K2 & K3 & K4).
  exists (fst (dialogueRun (Some user) d reqs)), w',
         (snd (dialogueRun (Some user) d reqs)).
  split; [exact Hrun|]. split; [exact K4|]. split; [exact Hin'|].
  split; [exact K1|]. split; [exact K2|exact K3].
Qed.

(** X10 on a registered user with an idle session. *)
Lemma registered_user_stays_with_dispatcher_witness :
  let sender := "whatsapp:+919800000001" in
  let reqs := [textFrom sender "Hello"; textFrom sender " HELP ";
               textFrom sender "for:Mom taken"; textFrom sender "Med"] in
  let run := handleAll None (fun _ => Returned (Some asha)) acceptingTwilio
               reqs (chatWith idle) in
  map (fun result => twilioClient.body <$> snd result) (fst run) =
    [ [main_menu hi]; [help_menu hi]; [not_implemented hi];
      [medication_add_start hi] ].
Proof.
  intros sender reqs run.
  destruct (registered_user_stays_with_dispatcher None
              (fun _ => Returned (Some asha)) acceptingTwilio asha
              "+919800000001" reqs (chatWith idle) (viewOf idle) (data idle))
    as (replies & w' & d' & Hrun & _).
  - apply steady_chatWith.
  - now apply inConversation_chatWith.
  - reflexivity.
  - reflexivity.
  - repeat constructor.
  - reflexivity.
  - reflexivity.
  - reflexivity.
Defined.

(* ================================================================== *)
(** * Addresses: from the sender id to the Twilio request *)
(* ================================================================== *)

Lemma dropPrefix_app p rest : dropPrefix p (p +:+ rest) = Some rest.
Proof.
  induction p as [|c p IH]; [reflexivity|].
  change (dropPrefix (String c p) (String c p +:+ rest))
    with (if Ascii.eqb c c then dropPrefix p (p +:+ rest) else None).
  now rewrite Ascii.eqb_refl.
Qed.

Lemma startsWith_app p rest : startsWith (p +:+ rest) p = true.
Proof. unfold startsWith. now rewrite dropPrefix_app. Qed.

Lemma replace_unfold s pattern replacement :
  inbound.replace s pattern replacement =
  match dropPrefix pattern s with
  | Some rest => replacement +:+ rest
  | None =>
      match s with
      | EmptyString => EmptyString
      | String c s' => String c (inbound.replace s' pattern replacement)
      end
  end.
Proof. destruct s; reflexivity. Qed.

Lemma replace_prefix p rest replacement :
  inbound.replace (p +:+ rest) p replacement = replacement +:+ rest.
Proof. rewrite replace_unfold. now rewrite dropPrefix_app. Qed.

(** X11: the reply goes back to where the message came from.  For a
    sender id [whatsapp:<number>] the handler works with [<number>] and
    the request made to Twilio is addressed to the sender id again, with
    the reply as body and the configured number as origin; formatting an
    address twice changes nothing. *)
Theorem reply_is_addressed_to_the_sender
    (accountSid authToken twilioPhoneNumber : option string)
    (create : twilioClient.Message -> Outcome string)
    (number text : string) (profileName : option string) (reply : string)
    (Hclient : twilioClient.client accountSid authToken = true)
    (Hnumber : startsWith number "whatsapp:" = false) :
  let req := {| inbound.From := "whatsapp:" +:+ number;
                inbound.Body := text; inbound.ProfileName := profileName |} in
  inbound.phoneNumberOf req = number /\
  snd (twilioClient.sendWhatsAppMessage accountSid authToken twilioPhoneNumber
         create (inbound.phoneNumberOf req) reply) =
    [ {| twilioClient.body := reply;
         twilioClient.from := twilioPhoneNumber;
         twilioClient.to := inbound.From req;
         twilioClient.mediaUrl := None |} ] /\
  fst (twilioClient.sendWhatsAppMessage accountSid authToken twilioPhoneNumber
         create (inbound.phoneNumberOf req) reply) =
    create {| twilioClient.body := reply;
              twilioClient.from := twilioPhoneNumber;
              twilioClient.to := inbound.From req;
              twilioClient.mediaUrl := None |} /\
  (forall to,
     twilioClient.formattedTo (twilioClient.formattedTo to) =
     twilioClient.formattedTo to).
Proof.
  intros req.
  assert (Hphone : inbound.phoneNumberOf req = number).
  { unfold inbound.phoneNumberOf, req. cbn [inbound.From].
    now rewrite replace_prefix. }
  assert (Hto : twilioClient.formattedTo number = "whatsapp:" +:+ number).
  { unfold twilioClient.formattedTo. now rewrite Hnumber. }
  split; [exact Hphone|]. rewrite Hphone.
  unfold twilioClient.sendWhatsAppMessage. rewrite Hclient, Hto.
  split; [reflexivity|]. split; [reflexivity|].
  intros to. unfold twilioClient.formattedTo.
  destruct (startsWith to "whatsapp:") eqn:E; [now rewrite E|].
  now rewrite startsWith_app.
Qed.

(** X11 on an Indian mobile number. *)
Lemma reply_is_addressed_to_the_sender_witness :
  twilioClient.to <$>
    snd (acceptingTwilio
           (inbound.phoneNumberOf (textFrom "whatsapp:+919800000001" "hello"))
           "OK") =
  ["whatsapp:+919800000001"].
Proof.
  destruct (reply_is_addressed_to_the_sender (Some "AC0001") (Some "token")
              (Some "whatsapp:+14155238886") (fun _ => Returned "SM0001")
              "+919800000001" "hello" (Some "Asha") "OK")
    as (_ & Hreq & _).
  - reflexivity.
  - reflexivity.
  - exact (f_equal (fmap twilioClient.to) Hreq).
Defined.

(* ================================================================== *)
(** * More on the dispatcher and the message builder *)
(* ================================================================== *)

Lemma startsWith_eq s p t : s = t -> startsWith s p = startsWith t p.
Proof. now intros ->. Qed.

(** X12: the proxy prefix is matched on the raw text.  A message that
    only becomes a [for:] command after trimming or lower-casing is not
    a proxy command and not a command of the table either: it gets the
    main menu and changes nothing. *)
Theorem proxy_prefix_is_matched_literally
    (tmo : option Z) (user : userModel.User) (session : nat)
    (message phone : string) (w : World)
    (Hraw : startsWith message "for:" = false)
    (Hnormal : startsWith (toLowerCase (trim message)) "for:" = true) :
  handleUserCommands tmo user session message phone w =
    (Returned (buildMainMenu (Some (textOr (userModel.language user) "en"))),
     w).
Proof.
  unfold handleUserCommands. rewrite Hraw.
  assert (N : forall c, startsWith c "for:" = false ->
                        String.eqb (toLowerCase (trim message)) c = false).
  { intros c Hc. apply String.eqb_neq. intros E.
    rewrite (startsWith_eq _ "for:" c E) in Hnormal. congruence. }
  rewrite !N by reflexivity. reflexivity.
Qed.

(** X12 on a proxy command typed with a capital letter. *)
Lemma proxy_prefix_is_matched_literally_witness :
  handleUserCommands None asha 0%nat "For:Mom taken" "+919800000001"
    (worldWith idle) =
  (Returned (main_menu hi), worldWith idle).
Proof.
  apply (proxy_prefix_is_matched_literally None asha 0%nat "For:Mom taken"
           "+919800000001" (worldWith idle)); reflexivity.
Defined.

(** X13: the six localised builders know Hindi and English only: the
    Hindi text for the language ["hi"], the English text for every other
    value, [null] and unknown codes included; none of the texts is
    empty. *)
Theorem builders_fall_back_to_english (language : option string) :
  let texts := if decide (language = Some "hi") then hi else en in
  buildAgeQuestion language = age_question texts /\
  buildMainMenu language = main_menu texts /\
  buildHelpMenu language = help_menu texts /\
  buildGenericError language = generic_error texts /\
  buildNotImplementedYet language = not_implemented texts /\
  buildMedicationAddStart language = medication_add_start texts /\
  nonEmpty (buildAgeQuestion language) = true /\
  nonEmpty (buildMainMenu language) = true /\
  nonEmpty (buildHelpMenu language) = true /\
  nonEmpty (buildGenericError language) = true /\
  nonEmpty (buildNotImplementedYet language) = true /\
  nonEmpty (buildMedicationAddStart language) = true.
Proof.
  assert (Hcases : language = Some "hi" \/
                   (language <> Some "hi" /\ messages language = None) \/
                   (language <> Some "hi" /\ messages language = Some en)).
  { destruct language as [l|]; [|right; left; split; [discriminate|reflexivity]].
    unfold messages.
    destruct (String.eqb l "en") eqn:Een.
    - apply String.eqb_eq in Een as ->.
      right; right. split; [discriminate|reflexivity].
    - destruct (String.eqb l "hi") eqn:Ehi.
      + apply String.eqb_eq in Ehi as ->. now left.
      + right; left. split; [|reflexivity].
        intros [= ->]. discriminate. }
  destruct Hcases as [-> | [[Hne Hm] | [Hne Hm]]].
  - repeat split.
  - destruct (decide (language = Some "hi")) as [E|_]; [contradiction|].
    unfold buildAgeQuestion, buildMainMenu, buildHelpMenu, buildGenericError,
      buildNotImplementedYet, buildMedicationAddStart, localized.
    rewrite Hm. repeat split.
  - destruct (decide (language = Some "hi")) as [E|_]; [contradiction|].
    unfold buildAgeQuestion, buildMainMenu, buildHelpMenu, buildGenericError,
      buildNotImplementedYet, buildMedicationAddStart, localized.
    rewrite Hm. repeat split.
Qed.

(* ================================================================== *)
(** * Error answers *)
(* ================================================================== *)

Lemma textOr_nonEmpty (s : option string) (d : string) :
  nonEmpty d = true -> nonEmpty (textOr s d) = true.
Proof.
  intros Hd. unfold textOr.
  destruct s as [t|]; [|exact Hd].
  destruct (nonEmpty t) eqn:E; [exact E|exact Hd].
Qed.

Lemma statusOf_nonzero (err : errorHandler.Err) : errorHandler.statusOf err <> 0.
Proof.
  unfold errorHandler.statusOf.
  destruct (errorHandler.statusCode err) as [c|]; [|discriminate].
  destruct (c =? 0) eqn:E; [discriminate|].
  now apply Z.eqb_neq in E.
Qed.

(** X14: each error creator is answered with its own status: 400, 401,
    403 and 404 are logged as warnings, 500 as an error; the body
    carries the same status and the creator's message, the default
    message when none is given, and the text "Internal Server Error"
    in place of an empty message whatever the status. *)
Theorem creators_are_answered_with_their_status
    (capturedStack : string) (NODE_ENV : option string)
    (text : string) (details : option (gmap string JsValue)) :
  let shown := textOr (Some text) "Internal Server Error" in
  answers (errorHandler.errorHandler NODE_ENV
             (errorHandler.badRequest capturedStack text details))
    errorHandler.warn 400 shown /\
  answers (errorHandler.errorHandler NODE_ENV
             (errorHandler.unauthorized capturedStack (Some text) details))
    errorHandler.warn 401 shown /\
  answers (errorHandler.errorHandler NODE_ENV
             (errorHandler.forbidden capturedStack (Some text) details))
    errorHandler.warn 403 shown /\
  answers (errorHandler.errorHandler NODE_ENV
             (errorHandler.notFound capturedStack (Some text) details))
    errorHandler.warn 404 shown /\
  answers (errorHandler.errorHandler NODE_ENV
             (errorHandler.internalError capturedStack (Some text) details))
    errorHandler.error 500 shown /\
  answers (errorHandler.errorHandler NODE_ENV
             (errorHandler.createError capturedStack text None details))
    errorHandler.error 500 shown /\
  answers (errorHandler.errorHandler NODE_ENV
             (errorHandler.unauthorized capturedStack None details))
    errorHandler.warn 401 "Unauthorized" /\
  answers (errorHandler.errorHandler NODE_ENV
             (errorHandler.forbidden capturedStack None details))
    errorHandler.warn 403 "Forbidden" /\
  answers (errorHandler.errorHandler NODE_ENV
             (errorHandler.notFound capturedStack None details))
    errorHandler.warn 404 "Resource not found" /\
  answers (errorHandler.errorHandler NODE_ENV
             (errorHandler.internalError capturedStack None details))
    errorHandler.error 500 "Internal Server Error" /\
  answers (errorHandler.errorHandler NODE_ENV
             (errorHandler.badRequest capturedStack "" details))
    errorHandler.warn 400 "Internal Server Error".
Proof. intros shown. repeat split. Qed.

(** X15: outside development the answer to an error shows neither its
    details nor its stack, whatever the error is.  In every environment
    the status sent is the status of the body and is never 0, an error
    without a status code is a 500 logged as an error, and the message
    is never empty. *)
Theorem errors_are_not_detailed_outside_development
    (NODE_ENV : option string) (err : errorHandler.Err)
    (Henv : NODE_ENV <> Some "development") :
  let answer := errorHandler.errorHandler NODE_ENV err in
  errorHandler.bodyDetails answer.2 = None /\
  errorHandler.bodyStack answer.2 = None /\
  errorHandler.bodyStatus answer.2 = answer.1.2 /\
  answer.1.2 <> 0 /\
  nonEmpty (errorHandler.bodyMessage answer.2) = true /\
  (answer.1.1 = errorHandler.error <-> 500 <= answer.1.2) /\
  (errorHandler.statusCode err = None \/
   errorHandler.statusCode err = Some 0 ->
   answer.1.2 = 500 /\ answer.1.1 = errorHandler.error).
Proof.
  intros answer. subst answer. unfold errorHandler.errorHandler.
  cbn [fst snd errorHandler.bodyDetails errorHandler.bodyStack
       errorHandler.bodyStatus errorHandler.bodyMessage].
  assert (Hdev : match NODE_ENV with
                 | Some env => String.eqb env "development"
                 | None => false
                 end = false).
  { destruct NODE_ENV as [env|]; [|reflexivity].
    apply String.eqb_neq. intros ->. now apply Henv. }
  rewrite Hdev.
  split; [reflexivity|]. split; [reflexivity|]. split; [reflexivity|].
  split; [apply statusOf_nonzero|].
  split; [now apply textOr_nonEmpty|].
  split.
  - destruct (500 <=? errorHandler.statusOf err) eqn:E.
    + apply Z.leb_le in E. split; [intros _; exact E|reflexivity].
    + apply Z.leb_gt in E. split; [discriminate|lia].
  - unfold errorHandler.statusOf. intros [-> | ->]; split; reflexivity.
Qed.

(** X15 for a refused login in production. *)
Lemma errors_are_not_detailed_outside_development_witness :
  errorHandler.bodyStack
    (errorHandler.errorHandler (Some "production")
       (errorHandler.unauthorized "at validateToken" None None)).2 = None.
Proof.
  destruct (errors_are_not_detailed_outside_development (Some "production")
              (errorHandler.unauthorized "at validateToken" None None))
    as (_ & Hstack & _).
  - discriminate.
  - exact Hstack.
Defined.

(* ================================================================== *)
(** * The token and webhook middleware *)
(* ================================================================== *)

Lemma dropPrefix_Some p s rest :
  dropPrefix p s = Some rest -> s = p +:+ rest.
Proof.
  revert s. induction p as [|a p IH]; intros s H.
  - cbn in H. now injection H as ->.
  - destruct s as [|b s]; [discriminate|].
    change (dropPrefix (String a p) (String b s))
      with (if Ascii.eqb a b then dropPrefix p s else None) in H.
    destruct (Ascii.eqb a b) eqn:E; [|discriminate].
    apply Ascii.eqb_eq in E as ->.
    change (String b p +:+ rest) with (String b (p +:+ rest)).
    f_equal. now apply IH.
Qed.

(** X16: the token middleware lets a request through only with a
    header [Bearer <token>] whose token [jwt.verify] accepts, and then
    [req.user] is the decoded payload; the admin middleware only when
    the payload's role is the text [admin].  Every refusal is an
    [APIError] that the error handler answers with status 401, logged
    as a warning, with one of five fixed messages. *)
Theorem only_verified_tokens_pass
    (capturedStack : string) (verify : string -> auth.Verification)
    (NODE_ENV : option string)
    (authorization : option string) (user : option (gmap string JsValue)) :
  match auth.validateToken capturedStack verify authorization with
  | auth.Next decoded =>
      exists rest payload,
        authorization = Some ("Bearer " +:+ rest) /\
        verify (auth.untilBlank rest) = auth.Decoded payload /\
        decoded = Some payload
  | auth.NextError err =>
      exists text,
        answers (errorHandler.errorHandler NODE_ENV err)
          errorHandler.warn 401 text /\
        In text ["Authentication token is required"; "Token has expired";
                 "Invalid token"; "Authentication failed"]
  end /\
  match auth.validateAdmin capturedStack user with
  | auth.Next admin =>
      admin = user /\
      exists payload,
        user = Some payload /\ payload !! "role" = Some (JsText "admin")
  | auth.NextError err =>
      answers (errorHandler.errorHandler NODE_ENV err)
        errorHandler.warn 401 "Admin access required" /\
      (forall payload,
         user = Some payload -> payload !! "role" <> Some (JsText "admin"))
  end.
Proof.
  split.
  - unfold auth.validateToken.
    destruct authorization as [authHeader|];
      [|exists "Authentication token is required";
        split; [repeat split|cbn; tauto]].
    destruct (dropPrefix "Bearer " authHeader) as [rest|] eqn:Hp;
      [|exists "Authentication token is required";
        split; [repeat split|cbn; tauto]].
    apply dropPrefix_Some in Hp as ->.
    cbv zeta.
    destruct (verify (auth.untilBlank rest)) as [payload|errorName] eqn:Hv.
    + exists rest, payload.
      split; [reflexivity|]. split; [exact Hv|reflexivity].
    + destruct (String.eqb errorName "TokenExpiredError");
        [exists "Token has expired"; split; [repeat split|cbn; tauto]|].
      destruct (String.eqb errorName "JsonWebTokenError");
        [exists "Invalid token"; split; [repeat split|cbn; tauto]|].
      exists "Authentication failed"; split; [repeat split|cbn; tauto].
  - unfold auth.validateAdmin.
    destruct user as [payload|]; [|split; [repeat split|discriminate]].
    destruct (payload !! "role") as [[| |b|n| |role|ref]|] eqn:Hr;
      try (split; [repeat split|intros ? [= <-]; rewrite Hr; discriminate]).
    destruct (String.eqb role "admin") eqn:E.
    + apply String.eqb_eq in E as ->.
      split; [reflexivity|]. exists payload. now split.
    + apply String.eqb_neq in E.
      split; [repeat split|]. intros ? [= <-]. rewrite Hr. congruence.
Qed.

(** X16 on a request without a header and on a support agent's token. *)
Lemma only_verified_tokens_pass_witness :
  auth.validateToken "" (fun _ => auth.Decoded ∅) None <> auth.Next None /\
  auth.validateAdmin "" (Some {[ "role" := JsText "support" ]}) <>
    auth.Next (Some {[ "role" := JsText "support" ]}).
Proof.
  destruct (only_verified_tokens_pass "" (fun _ => auth.Decoded ∅)
              (Some "production") None
              (Some {[ "role" := JsText "support" ]})) as [Htoken Hadmin].
  split.
  - intros E. rewrite E in Htoken.
    destruct Htoken as (rest & payload & Habs & _). discriminate.
  - intros E. rewrite E in Hadmin.
    destruct Hadmin as (_ & payload & [= <-] & Hrole).
    rewrite lookup_singleton_eq in Hrole. discriminate.
Defined.

(** X17: outside the development shortcut, a message request reaches
    the controller only when it carries a non-empty signature that
    Twilio's validator accepts for the URL rebuilt from the forwarded
    protocol, the host and the path, and then the route is the
    controller.  Every other request is answered by the middleware, 403
    or 500 when the validator fails, with no Twilio request made and the
    session store as it was. *)
Theorem unsigned_webhook_never_reaches_the_controller
    (NODE_ENV SKIP_WEBHOOK_VALIDATION TWILIO_AUTH_TOKEN : option string)
    (validateRequest :
       option string -> string -> string -> inbound.Request -> Outcome bool)
    (tmo : option Z)
    (findUserByPhone : string -> Outcome (option userModel.User))
    (sendWhatsAppMessage :
       string -> string -> Outcome string * list twilioClient.Message)
    (headers : gmap string string) (protocol originalUrl : string)
    (body : inbound.Request) (w : World)
    (Hcheck : ~ (NODE_ENV = Some "development" /\
                 SKIP_WEBHOOK_VALIDATION = Some "true")) :
  let route :=
    webhookRoutes.postMessage NODE_ENV SKIP_WEBHOOK_VALIDATION
      TWILIO_AUTH_TOKEN validateRequest tmo findUserByPhone
      sendWhatsAppMessage headers protocol originalUrl body w in
  let url :=
    textOr (headers !! "x-forwarded-proto") protocol +:+ "://" +:+
    default "undefined" (headers !! "host") +:+ originalUrl in
  let signed :=
    exists signature,
      headers !! "x-twilio-signature" = Some signature /\
      nonEmpty signature = true /\
      validateRequest TWILIO_AUTH_TOKEN signature url body = Returned true in
  (signed ->
   route = inbound.handleIncomingMessage tmo findUserByPhone
             sendWhatsAppMessage body w) /\
  (~ signed ->
   route.1.2 = [] /\ route.2 = w /\
   (route.1.1 = {| inbound.status := 403; inbound.text := "Forbidden" |} \/
    route.1.1 = {| inbound.status := 500;
                   inbound.text := "Internal Server Error" |} /\
    exists signature e,
      headers !! "x-twilio-signature" = Some signature /\
      validateRequest TWILIO_AUTH_TOKEN signature url body = Thrown e)).
Proof.
  intros route url signed. subst route signed.
  unfold webhookRoutes.postMessage, auth.validateWebhook.
  assert (Hskip : match NODE_ENV, SKIP_WEBHOOK_VALIDATION with
                  | Some env, Some skip =>
                      String.eqb env "development" && String.eqb skip "true"
                  | _, _ => false
                  end = false).
  { destruct NODE_ENV as [env|]; [|reflexivity].
    destruct SKIP_WEBHOOK_VALIDATION as [skip|]; [|reflexivity].
    destruct (String.eqb env "development") eqn:E1; [|reflexivity].
    destruct (String.eqb skip "true") eqn:E2; [|reflexivity].
    apply String.eqb_eq in E1 as ->. apply String.eqb_eq in E2 as ->.
    exfalso. now apply Hcheck. }
  rewrite Hskip. cbv zeta. fold url.
  split.
  - intros (signature & -> & -> & ->). reflexivity.
  - intros Hnot.
    destruct (headers !! "x-twilio-signature") as [signature|] eqn:Hs;
      [|cbn; split; [reflexivity|split; [reflexivity|now left]]].
    destruct (nonEmpty signature) eqn:Hne;
      [|cbn; split; [reflexivity|split; [reflexivity|now left]]].
    destruct (validateRequest TWILIO_AUTH_TOKEN signature url body)
      as [[|]|e] eqn:Hv.
    + exfalso. apply Hnot. exists signature. now repeat split.
    + cbn; split; [reflexivity|split; [reflexivity|now left]].
    + cbn; split; [reflexivity|split; [reflexivity|right]].
      split; [reflexivity|]. now exists signature, e.
Qed.

(** X17 on a request without any header, in production. *)
Lemma unsigned_webhook_never_reaches_the_controller_witness :
  (webhookRoutes.postMessage (Some "production") None (Some "token")
     (fun _ _ _ _ => Returned true) None (fun _ => Returned (Some asha))
     acceptingTwilio ∅ "https" "/api/webhook/message"
     (textFrom "whatsapp:+919800000001" "help") (chatWith idle)).1.2 = [].
Proof.
  destruct (unsigned_webhook_never_reaches_the_controller
              (Some "production") None (Some "token")
              (fun _ _ _ _ => Returned true) None
              (fun _ => Returned (Some asha)) acceptingTwilio
              ∅ "https" "/api/webhook/message"
              (textFrom "whatsapp:+919800000001" "help") (chatWith idle))
    as [_ Hrefused].
  - intros [E _]. discriminate.
  - apply Hrefused. intros (signature & Habs & _).
    rewrite lookup_empty in Habs. discriminate.
Defined.

(* ================================================================== *)
(** * Replies that cannot be delivered *)
(* ================================================================== *)

(** X18: when one of the two Twilio credentials is missing or empty,
    both senders throw "Twilio client not initialized" without making a
    request, and every incoming message is answered 500 "Error
    processing message"; the session store is nevertheless left exactly
    as any other sender would leave it: the step of the dialogue is not
    rolled back. *)
Theorem missing_credentials_answer_500_and_keep_the_step
    (accountSid authToken twilioPhoneNumber : option string)
    (create : twilioClient.Message -> Outcome string)
    (tmo : option Z)
    (findUserByPhone : string -> Outcome (option userModel.User))
    (other : string -> string -> Outcome string * list twilioClient.Message)
    (req : inbound.Request) (w : World)
    (Hmissing : textOr accountSid "" = "" \/ textOr authToken "" = "") :
  let send :=
    twilioClient.sendWhatsAppMessage accountSid authToken twilioPhoneNumber
      create in
  let answer := inbound.handleIncomingMessage tmo findUserByPhone send req w in
  (forall to body,
     send to body = (Thrown (Error "Twilio client not initialized"), [])) /\
  (forall to body media,
     twilioClient.sendWhatsAppMessageWithMedia accountSid authToken
       twilioPhoneNumber create to body media =
     (Thrown (Error "Twilio client not initialized"), [])) /\
  answer.1.1 = {| inbound.status := 500;
                  inbound.text := "Error processing message" |} /\
  answer.1.2 = [] /\
  answer.2 = (inbound.handleIncomingMessage tmo findUserByPhone other req w).2.
Proof.
  intros send answer.
  assert (Hclient : twilioClient.client accountSid authToken = false).
  { unfold twilioClient.client.
    destruct Hmissing as [-> | ->]; [reflexivity|].
    apply andb_false_r. }
  assert (Hsend : forall to body,
             send to body =
             (Thrown (Error "Twilio client not initialized"), [])).
  { intros to body. unfold send, twilioClient.sendWhatsAppMessage.
    now rewrite Hclient. }
  split; [exact Hsend|].
  split.
  { intros to body media. unfold twilioClient.sendWhatsAppMessageWithMedia.
    now rewrite Hclient. }
  subst answer. unfold inbound.handleIncomingMessage.
  destruct (inbound.respond tmo findUserByPhone req w) as [[reply|e] w'].
  - rewrite Hsend.
    destruct (other (inbound.phoneNumberOf req) reply) as [[sid|e] requests];
      repeat split.
  - repeat split.
Qed.

(** X18 for a new number writing to a server without credentials: the
    answer is 500 and the registration has started all the same. *)
Lemma missing_credentials_answer_500_and_keep_the_step_witness :
  let answer :=
    inbound.handleIncomingMessage None (fun _ => Returned None)
      (twilioClient.sendWhatsAppMessage None None None
         (fun _ => Returned "SM0001"))
      (textFrom "whatsapp:+919800000001" "hello") chatWorld in
  inbound.status answer.1.1 = 500 /\
  currentState <$> sessionOf answer.2 "+919800000001" =
    Some "REGISTRATION_START".
Proof.
  destruct (missing_credentials_answer_500_and_keep_the_step None None None
              (fun _ => Returned "SM0001") None (fun _ => Returned None)
              acceptingTwilio
              (textFrom "whatsapp:+919800000001" "hello") chatWorld)
    as (_ & _ & Hstatus & _ & Hworld).
  - now left.
  - cbv zeta. rewrite Hstatus, Hworld. split; reflexivity.
Defined.
